(** * 1-Wire config flow: setup wizard and options wizard

    A shallow embedding of [homeassistant/components/onewire/config_flow.py]
    (with the constants of [const.py]) and the properties of its two step
    machines.

    Python dictionaries are [gmap string value]; the handler objects are
    records threaded through a small state-and-exception monad; the
    exceptions the code can raise are a sum type.  A step method of the
    source is a function from the optional submission to a computation
    returning a [FlowResult]. *)

From Stdlib Require Import ZArith Ascii String.
From stdpp Require Import base option list gmap strings fin_maps.

Open Scope Z_scope.

(* ================================================================== *)
(** * Values, exceptions and the step monad *)
(* ================================================================== *)

(** The values the flows store under a [dict[str, Any]] key: the leaves of
    the form schemas ([bool], [int], [str]), the multi-select result
    ([list[str]]), the stored precision table ([dict[str, str]]) and
    [None]. *)
Inductive value :=
| VNone
| VBool (b : bool)
| VInt (z : Z)
| VStr (s : string)
| VList (l : list string)
| VDict (d : gmap string string).

#[global] Instance value_eq_dec : EqDecision value.
Proof. solve_decision. Defined.

(** Python truthiness ([if v:]). *)
Definition truthy (v : value) : bool :=
  match v with
  | VNone => false
  | VBool b => b
  | VInt z => negb (Z.eqb z 0)
  | VStr s => negb (String.eqb s "")
  | VList l => negb (bool_decide (l = []))
  | VDict d => negb (bool_decide (d = ∅))
  end.

(** The exceptions that can leave a step.  [IllTyped] is not a Python
    exception: it marks a field used at a shape other than the one its
    schema or annotation declares ([list[str]] for the selection,
    [dict[str, str]] for the precision table, [str] for a label or a
    mount directory); the model does not follow the interpreter past that
    point. *)
Inductive exn :=
| KeyError (key : string)
| IndexError
| TypeError
| UnboundLocalError (var : string)
| AttributeError (attr : string)
| AbortFlow (reason : string)
| CannotConnect
| InvalidPath
| IllTyped (field : string).

#[global] Instance exn_eq_dec : EqDecision exn.
Proof. solve_decision. Defined.

Inductive result (A : Type) :=
| Ok (a : A)
| Raise (e : exn).
Arguments Ok {A} a.
Arguments Raise {A} e.

(** A computation over the handler state [S].  The state survives an
    exception, as the attributes of a Python object do. *)
Definition M (S A : Type) : Type := S → result A * S.

Definition ret {S A} (a : A) : M S A := λ s, (Ok a, s).
Definition raise {S A} (e : exn) : M S A := λ s, (Raise e, s).
Definition bind {S A B} (m : M S A) (k : A → M S B) : M S B :=
  λ s, match m s with
       | (Ok a, s') => k a s'
       | (Raise e, s') => (Raise e, s')
       end.
Definition gets {S A} (f : S → A) : M S A := λ s, (Ok (f s), s).
Definition modify {S} (f : S → S) : M S unit := λ s, (Ok tt, f s).

(** [try: m except e: h] for one exception class. *)
Definition try_except {S A} (m : M S A) (e : exn) (h : M S A) : M S A :=
  λ s, match m s with
       | (Raise e', s') => if decide (e' = e) then h s' else (Raise e', s')
       | r => r
       end.

Notation "'let*' x ':=' m 'in' k" := (bind m (λ x, k))
  (at level 10, x name, m at level 100, k at level 200).
Notation "m '>>' k" := (bind m (λ _, k))
  (at level 80, right associativity).

(** [d[key]] on a dictionary. *)
Definition getitem {S A} (d : gmap string A) (key : string) : M S A :=
  match d !! key with
  | Some v => ret v
  | None => raise (KeyError key)
  end.

(** [[f(x) for x in l]] with a body that can raise. *)
Fixpoint map_m {S A B} (f : A → M S B) (l : list A) : M S (list B) :=
  match l with
  | [] => ret []
  | x :: l' => let* y := f x in let* ys := map_m f l' in ret (y :: ys)
  end.

(* ================================================================== *)
(** * Strings *)
(* ================================================================== *)

(** The string operations of the label parser ([in], [split], [replace])
    for a one-character needle, and the operations the statements about
    it need.  A Rocq [string] is a byte sequence; the bytes of ['('] and
    [')'] occur in UTF-8 only as these characters, so the operations agree
    with Python's on the encoded text. *)
Module Str.

Definition lparen : ascii := "("%char.
Definition rparen : ascii := ")"%char.

(** [c in s] *)
Fixpoint contains (c : ascii) (s : string) : bool :=
  match s with
  | EmptyString => false
  | String a s' => if Ascii.eqb a c then true else contains c s'
  end.

(** [s.split(c)]: never empty, one more piece than occurrences of [c]. *)
Fixpoint split (c : ascii) (s : string) : list string :=
  match s with
  | EmptyString => [EmptyString]
  | String a s' =>
      if Ascii.eqb a c then EmptyString :: split c s'
      else match split c s' with
           | piece :: pieces => String a piece :: pieces
           | [] => [String a EmptyString]
           end
  end.

(** [s.replace(c, "")] *)
Fixpoint remove (c : ascii) (s : string) : string :=
  match s with
  | EmptyString => EmptyString
  | String a s' => if Ascii.eqb a c then remove c s' else String a (remove c s')
  end.

(** The text before the first [c] (all of [s] when there is none). *)
Fixpoint before (c : ascii) (s : string) : string :=
  match s with
  | EmptyString => EmptyString
  | String a s' => if Ascii.eqb a c then EmptyString else String a (before c s')
  end.

(** The text after the first [c] (empty when there is none). *)
Fixpoint after (c : ascii) (s : string) : string :=
  match s with
  | EmptyString => EmptyString
  | String a s' => if Ascii.eqb a c then s' else after c s'
  end.

(** [s] without its last character. *)
Fixpoint chop (s : string) : string :=
  match s with
  | EmptyString => EmptyString
  | String a EmptyString => EmptyString
  | String a s' => String a (chop s')
  end.

(** [s.endswith(c)] *)
Fixpoint ends_with (c : ascii) (s : string) : bool :=
  match s with
  | EmptyString => false
  | String a EmptyString => Ascii.eqb a c
  | String a s' => ends_with c s'
  end.

End Str.

(** [l[i]] on a list. *)
Definition list_getitem {S A} (l : list A) (i : nat) : M S A :=
  match l !! i with
  | Some x => ret x
  | None => raise IndexError
  end.

(* ================================================================== *)
(** * Constants ([const.py]) *)
(* ================================================================== *)

Definition CONF_HOST : string := "host".
Definition CONF_PORT : string := "port".
Definition CONF_TYPE : string := "type".
Definition CONF_MOUNT_DIR : string := "mount_dir".

Definition CONF_TYPE_OWSERVER : string := "OWServer".
Definition CONF_TYPE_SYSBUS : string := "SysBus".

Definition DEFAULT_OWSERVER_HOST : string := "localhost".
Definition DEFAULT_OWSERVER_PORT : Z := 4304.
Definition DEFAULT_SYSBUS_MOUNT_DIR : string := "/sys/bus/w1/devices/".

Definition DOMAIN : string := "onewire".

(* ================================================================== *)
(** * Forms and flow results *)
(* ================================================================== *)

(** What a schema key accepts: [str], [int], [bool], [vol.In(choices)],
    [cv.multi_select(options)]. *)
Inductive validator :=
| vol_str
| vol_int
| vol_bool
| vol_In (choices : list string)
| cv_multi_select (choices : gmap string bool).

(** A [vol.Required] or [vol.Optional] key of a schema. *)
Record marker := {
  marker_required : bool;
  marker_key : string;
  marker_default : option value;
  marker_description : option string;
  marker_accepts : validator;
}.

Definition Required (key : string) (dflt : option value) (v : validator) : marker :=
  {| marker_required := true; marker_key := key; marker_default := dflt;
     marker_description := None; marker_accepts := v |}.

Definition Optional (key : string) (dflt : option value)
    (descr : option string) (v : validator) : marker :=
  {| marker_required := false; marker_key := key; marker_default := dflt;
     marker_description := descr; marker_accepts := v |}.

Definition Schema := list marker.

Definition DATA_SCHEMA_USER : Schema :=
  [ Required CONF_TYPE None (vol_In [CONF_TYPE_OWSERVER; CONF_TYPE_SYSBUS]) ].

Definition DATA_SCHEMA_OWSERVER : Schema :=
  [ Required CONF_HOST (Some (VStr DEFAULT_OWSERVER_HOST)) vol_str;
    Required CONF_PORT (Some (VInt DEFAULT_OWSERVER_PORT)) vol_int ].

Definition DATA_SCHEMA_MOUNTDIR : Schema :=
  [ Required CONF_MOUNT_DIR (Some (VStr DEFAULT_SYSBUS_MOUNT_DIR)) vol_str ].

(** The value a form offers for [key] before the user types anything. *)
Definition schema_default (sch : Schema) (key : string) : option value :=
  match List.find (λ m, String.eqb (marker_key m) key) sch with
  | Some m => marker_default m
  | None => None
  end.

(** Modelled from the spec: the two answers a step gives its host (§6),
    "render-form(stepId, schema, errors, placeholders)" and
    "complete(title, dataRecord)"; the framework's [FlowResult] is not in
    the component's sources. *)
Inductive FlowResult :=
| ShowForm (step_id : string) (data_schema : Schema)
    (errors : option (gmap string string))
    (description_placeholders : option (gmap string string))
| CreateEntry (title : value) (data : gmap string value).

(** The record handed to the final persist action, if the step finished. *)
Definition persisted (r : FlowResult) : option (gmap string value) :=
  match r with
  | CreateEntry _ data => Some data
  | ShowForm _ _ _ _ => None
  end.

Definition rendered_step (r : FlowResult) : option string :=
  match r with
  | ShowForm step_id _ _ _ => Some step_id
  | CreateEntry _ _ => None
  end.

(* ================================================================== *)
(** * Collaborators *)
(* ================================================================== *)

(** A persisted configuration entry. *)
Record ConfigEntry := {
  entry_id : string;
  entry_data : gmap string value;
  entry_options : gmap string value;
  entry_unique_id : option string;
}.

(** A device description held by the hub ([model.py]): the OWServer kind
    carries a hardware type, the SysBus kind does not take part in the
    options flow. *)
Inductive OWDeviceDescription :=
| OWServerDeviceDescription (id : string) (type : string)
| OWDirectDeviceDescription (id : string).

Record OneWireHub := {
  devices : option (list OWDeviceDescription);
}.

(** A device-registry entry: the registry's own id and the name the user
    gave the device, if any. *)
Record DeviceEntry := {
  device_entry_id : string;
  name_by_user : option string;
}.

(** Modelled from the spec: the device registry (§6),
    "getDevice(domainKey, id) -> DeviceDescriptor | absent": a finite map
    from identifier pairs to entries. *)
Record DeviceRegistry := {
  registry_devices : gmap (string * string) DeviceEntry;
}.

Definition async_get_device (reg : DeviceRegistry)
    (identifier : string * string) : option DeviceEntry :=
  registry_devices reg !! identifier.

(** The host application as the flows see it.

    Modelled from the spec: the hub's two operations (§1, §6),
    "connect(host, port) -> success | fails with CannotConnect" and
    "checkMountDir(path) -> success | fails with InvalidPath", are the two
    oracles [owserver_reachable] and [mount_dir_valid]. *)
Record HomeAssistant := {
  hass_data : gmap string (gmap string OneWireHub);
  hass_device_registry : DeviceRegistry;
  hass_config_entries : list ConfigEntry;
  owserver_reachable : value → value → bool;
  mount_dir_valid : value → bool;
}.

(** A call made to the hub. *)
Inductive HubCall :=
| Connect (host port : value)
| CheckMountDir (mount_dir : value).

(* ================================================================== *)
(** * The setup wizard ([OneWireFlowHandler]) *)
(* ================================================================== *)

Module Setup.

(** [hub_calls] is not an attribute of the Python object: it records,
    oldest first, the calls the handler has made to the hub. *)
Record OneWireFlowHandler := {
  onewire_config : gmap string value;
  unique_id : option string;
  hub_calls : list HubCall;
}.

Abbreviation Flow := (M OneWireFlowHandler).

(** [__init__] *)
Definition init : OneWireFlowHandler :=
  {| onewire_config := ∅; unique_id := None; hub_calls := [] |}.

Definition set_onewire_config (f : gmap string value → gmap string value)
    (self : OneWireFlowHandler) : OneWireFlowHandler :=
  {| onewire_config := f (onewire_config self);
     unique_id := unique_id self;
     hub_calls := hub_calls self |}.

Definition set_unique_id (u : option string)
    (self : OneWireFlowHandler) : OneWireFlowHandler :=
  {| onewire_config := onewire_config self;
     unique_id := u;
     hub_calls := hub_calls self |}.

Definition record_call (c : HubCall)
    (self : OneWireFlowHandler) : OneWireFlowHandler :=
  {| onewire_config := onewire_config self;
     unique_id := unique_id self;
     hub_calls := hub_calls self ++ [c] |}.

(** [hub.connect(host, port)] *)
Definition connect (hass : HomeAssistant) (host port : value) : Flow unit :=
  modify (record_call (Connect host port)) >>
  if owserver_reachable hass host port then ret tt else raise CannotConnect.

(** [hub.check_mount_dir(mount_dir)] *)
Definition check_mount_dir (hass : HomeAssistant) (mount_dir : value) : Flow unit :=
  modify (record_call (CheckMountDir mount_dir)) >>
  if mount_dir_valid hass mount_dir then ret tt else raise InvalidPath.

Definition validate_input_owserver (hass : HomeAssistant)
    (data : gmap string value) : Flow (gmap string value) :=
  let* host := getitem data CONF_HOST in
  let* port := getitem data CONF_PORT in
  connect hass host port >>
  ret {[ "title" := host ]}.

Definition validate_input_mount_dir (hass : HomeAssistant)
    (data : gmap string value) : Flow (gmap string value) :=
  let* mount_dir := getitem data CONF_MOUNT_DIR in
  check_mount_dir hass mount_dir >>
  ret {[ "title" := mount_dir ]}.

(** Modelled from the spec: the framework's duplicate check (§4.1), "an
    existing persisted configuration with identical {transport, host,
    port} ... keyed by exact field equality": some persisted entry
    carries every field of [match_dict] with the same value. *)
Definition entry_matches (match_dict : gmap string value) (e : ConfigEntry) : bool :=
  bool_decide (map_Forall (λ k v, entry_data e !! k = Some v) match_dict).

Definition _async_abort_entries_match (hass : HomeAssistant)
    (match_dict : gmap string value) : Flow unit :=
  if existsb (entry_matches match_dict) (hass_config_entries hass)
  then raise (AbortFlow "already_configured")
  else ret tt.

(** Modelled from the spec: the identity token of a session (§4.1), "a
    stable identity token ... aborts with a duplicate error if that
    identity was already used by a prior completed session". *)
Definition async_set_unique_id (u : string) : Flow unit :=
  modify (set_unique_id (Some u)).

Definition _abort_if_unique_id_configured (hass : HomeAssistant) : Flow unit :=
  let* u := gets unique_id in
  if existsb (λ e, bool_decide (is_Some u ∧ entry_unique_id e = u))
       (hass_config_entries hass)
  then raise (AbortFlow "already_configured")
  else ret tt.

Definition async_show_form (step_id : string) (data_schema : Schema)
    (errors : gmap string string) : Flow FlowResult :=
  ret (ShowForm step_id data_schema (Some errors) None).

Definition async_create_entry (title : value) (data : gmap string value) : Flow FlowResult :=
  ret (CreateEntry title data).

(** [f"{CONF_TYPE_SYSBUS}:{mount_dir}"] for a string [mount_dir]. *)
Definition sysbus_unique_id (mount_dir : value) : Flow string :=
  match mount_dir with
  | VStr s => ret (CONF_TYPE_SYSBUS +:+ ":" +:+ s)
  | _ => raise (IllTyped CONF_MOUNT_DIR)
  end.

(** [if user_input:] on an optional dictionary. *)
Definition submitted (user_input : option (gmap string value)) : option (gmap string value) :=
  match user_input with
  | Some ui => if bool_decide (ui = ∅) then None else Some ui
  | None => None
  end.

Definition async_step_owserver (hass : HomeAssistant)
    (user_input : option (gmap string value)) : Flow FlowResult :=
  let* errors :=
    match submitted user_input with
    | Some user_input =>
        (* Prevent duplicate entries *)
        let* host := getitem user_input CONF_HOST in
        let* port := getitem user_input CONF_PORT in
        _async_abort_entries_match hass
          {[ CONF_TYPE := VStr CONF_TYPE_OWSERVER;
             CONF_HOST := host;
             CONF_PORT := port ]} >>
        modify (set_onewire_config (λ c, user_input ∪ c)) >>
        try_except
          (let* info := validate_input_owserver hass user_input in
           ret (inl info))
          CannotConnect
          (ret (inr ({[ "base" := "cannot_connect" ]} : gmap string string)))
    | None => ret (inr ∅)
    end in
  match errors with
  | inl info =>
      let* title := getitem info "title" in
      let* data := gets onewire_config in
      async_create_entry title data
  | inr errors => async_show_form "owserver" DATA_SCHEMA_OWSERVER errors
  end.

Definition async_step_mount_dir (hass : HomeAssistant)
    (user_input : option (gmap string value)) : Flow FlowResult :=
  let* errors :=
    match submitted user_input with
    | Some user_input =>
        (* Prevent duplicate entries *)
        let* mount_dir := getitem user_input CONF_MOUNT_DIR in
        let* u := sysbus_unique_id mount_dir in
        async_set_unique_id u >>
        _abort_if_unique_id_configured hass >>
        modify (set_onewire_config (λ c, user_input ∪ c)) >>
        try_except
          (let* info := validate_input_mount_dir hass user_input in
           ret (inl info))
          InvalidPath
          (ret (inr ({[ "base" := "invalid_path" ]} : gmap string string)))
    | None => ret (inr ∅)
    end in
  match errors with
  | inl info =>
      let* title := getitem info "title" in
      let* data := gets onewire_config in
      async_create_entry title data
  | inr errors => async_show_form "mount_dir" DATA_SCHEMA_MOUNTDIR errors
  end.

Definition async_step_user (hass : HomeAssistant)
    (user_input : option (gmap string value)) : Flow FlowResult :=
  let show := async_show_form "user" DATA_SCHEMA_USER ∅ in
  match user_input with
  | Some user_input =>
      modify (set_onewire_config (λ c, user_input ∪ c)) >>
      let* type := getitem user_input CONF_TYPE in
      if bool_decide (type = VStr CONF_TYPE_OWSERVER)
      then async_step_owserver hass None
      else
        let* type := getitem user_input CONF_TYPE in
        if bool_decide (type = VStr CONF_TYPE_SYSBUS)
        then async_step_mount_dir hass None
        else show
  | None => show
  end.

(** ** The host's side of a session *)

(** Modelled from the spec: the host routes a submission to the step
    whose form it last rendered (§2, §9). *)
Definition async_step (hass : HomeAssistant) (step_id : string)
    (user_input : option (gmap string value)) : Flow FlowResult :=
  if String.eqb step_id "user" then async_step_user hass user_input
  else if String.eqb step_id "owserver" then async_step_owserver hass user_input
  else if String.eqb step_id "mount_dir" then async_step_mount_dir hass user_input
  else raise (AttributeError ("async_step_" +:+ step_id)).

Fixpoint async_configure (hass : HomeAssistant) (r : FlowResult)
    (inputs : list (gmap string value)) : Flow (list FlowResult) :=
  match r, inputs with
  | ShowForm step_id _ _ _, user_input :: inputs =>
      let* r' := async_step hass step_id (Some user_input) in
      let* answers := async_configure hass r' inputs in
      ret (r' :: answers)
  | _, _ => ret []
  end.

(** A setup session: the user step is entered without a submission,
    then the submissions are fed to the forms in order. *)
Definition session (hass : HomeAssistant)
    (inputs : list (gmap string value)) : Flow (list FlowResult) :=
  let* r := async_step hass "user" None in
  let* answers := async_configure hass r inputs in
  ret (r :: answers).

(** Modelled from the spec: a completed session's pending configuration
    "becomes the persisted configuration record" (§3), and its identity
    token counts as used from then on (§4.1). *)
Definition persist (hass : HomeAssistant) (new_id : string)
    (r : FlowResult) (flow : OneWireFlowHandler) : HomeAssistant :=
  match r with
  | CreateEntry _ data =>
      {| hass_data := hass_data hass;
         hass_device_registry := hass_device_registry hass;
         hass_config_entries :=
           hass_config_entries hass ++
           [{| entry_id := new_id; entry_data := data; entry_options := ∅;
               entry_unique_id := unique_id flow |}];
         owserver_reachable := owserver_reachable hass;
         mount_dir_valid := mount_dir_valid hass |}
  | ShowForm _ _ _ _ => hass
  end.

End Setup.

(* ================================================================== *)
(** * The options wizard ([OnewireOptionsFlowHandler]) *)
(* ================================================================== *)

Module Options.

Inductive level := INFO | ERROR.

(** A record emitted through [_LOGGER]: its level and its format string
    as the source spells it (the arguments are not rendered). *)
Definition LogRecord : Type := level * string.

(** [log] is the module logger's output, oldest first; the other fields
    are the attributes of the Python object.  [controller] is declared
    without a value by [__init__] and bound by the init step.

    The nested precision table of [options] is the same Python object
    as the one inside [config_entry.options] until the handler replaces
    it (the constructor takes a shallow copy); the model keeps the two
    apart, and every statement below is about [options] and the record
    handed to the host. *)
Record OnewireOptionsFlowHandler := {
  config_entry : ConfigEntry;
  options : gmap string value;
  controller : option OneWireHub;
  device_list_ds18b20 : list string;
  current_device : string;
  devices_to_configure_ds18b20 : list string;
  device_registry : option DeviceRegistry;
  log : list LogRecord;
}.

Abbreviation Flow := (M OnewireOptionsFlowHandler).

(** [__init__] *)
Definition init (entry : ConfigEntry) : OnewireOptionsFlowHandler :=
  {| config_entry := entry;
     options := entry_options entry;
     controller := None;
     device_list_ds18b20 := [];
     current_device := "";
     devices_to_configure_ds18b20 := [];
     device_registry := None;
     log := [] |}.

Definition set_options (o : gmap string value) (self : OnewireOptionsFlowHandler) :=
  {| config_entry := config_entry self; options := o;
     controller := controller self;
     device_list_ds18b20 := device_list_ds18b20 self;
     current_device := current_device self;
     devices_to_configure_ds18b20 := devices_to_configure_ds18b20 self;
     device_registry := device_registry self; log := log self |}.

Definition set_controller (c : option OneWireHub) (self : OnewireOptionsFlowHandler) :=
  {| config_entry := config_entry self; options := options self;
     controller := c;
     device_list_ds18b20 := device_list_ds18b20 self;
     current_device := current_device self;
     devices_to_configure_ds18b20 := devices_to_configure_ds18b20 self;
     device_registry := device_registry self; log := log self |}.

Definition set_device_list_ds18b20 (l : list string) (self : OnewireOptionsFlowHandler) :=
  {| config_entry := config_entry self; options := options self;
     controller := controller self;
     device_list_ds18b20 := l;
     current_device := current_device self;
     devices_to_configure_ds18b20 := devices_to_configure_ds18b20 self;
     device_registry := device_registry self; log := log self |}.

Definition set_current_device (d : string) (self : OnewireOptionsFlowHandler) :=
  {| config_entry := config_entry self; options := options self;
     controller := controller self;
     device_list_ds18b20 := device_list_ds18b20 self;
     current_device := d;
     devices_to_configure_ds18b20 := devices_to_configure_ds18b20 self;
     device_registry := device_registry self; log := log self |}.

Definition set_devices_to_configure_ds18b20 (l : list string)
    (self : OnewireOptionsFlowHandler) :=
  {| config_entry := config_entry self; options := options self;
     controller := controller self;
     device_list_ds18b20 := device_list_ds18b20 self;
     current_device := current_device self;
     devices_to_configure_ds18b20 := l;
     device_registry := device_registry self; log := log self |}.

Definition set_device_registry (r : option DeviceRegistry)
    (self : OnewireOptionsFlowHandler) :=
  {| config_entry := config_entry self; options := options self;
     controller := controller self;
     device_list_ds18b20 := device_list_ds18b20 self;
     current_device := current_device self;
     devices_to_configure_ds18b20 := devices_to_configure_ds18b20 self;
     device_registry := r; log := log self |}.

Definition add_log (r : LogRecord) (self : OnewireOptionsFlowHandler) :=
  {| config_entry := config_entry self; options := options self;
     controller := controller self;
     device_list_ds18b20 := device_list_ds18b20 self;
     current_device := current_device self;
     devices_to_configure_ds18b20 := devices_to_configure_ds18b20 self;
     device_registry := device_registry self; log := log self ++ [r] |}.

Definition _LOGGER_info (msg : string) : Flow unit := modify (add_log (INFO, msg)).
Definition _LOGGER_error (msg : string) : Flow unit := modify (add_log (ERROR, msg)).

Definition async_show_form (step_id : string) (data_schema : Schema)
    (description_placeholders : option (gmap string string)) : Flow FlowResult :=
  ret (ShowForm step_id data_schema None description_placeholders).

Definition async_create_entry (title : value) (data : gmap string value) : Flow FlowResult :=
  ret (CreateEntry title data).

(** [l.pop()]: the last element and the list without it. *)
Definition pop {A} (l : list A) : option (list A * A) :=
  match rev l with
  | [] => None
  | x :: r => Some (rev r, x)
  end.

(** ** Labels *)

Definition _get_device_long_name_from_id (current_device : string) : Flow string :=
  let* registry := gets device_registry in
  (* [device] is declared but bound only in the first branch *)
  let* device :=
    match registry with
    | Some registry => ret (Some (async_get_device registry (DOMAIN, current_device)))
    | None =>
        _LOGGER_error "No device registry in config flow, this is a fatal error" >>
        ret None
    end in
  match device with
  | None => raise (UnboundLocalError "device")
  | Some device =>
      match device with
      | Some {| name_by_user := Some name |} =>
          if negb (String.eqb name "")
          then ret (name +:+ " (" +:+ current_device +:+ ")")
          else ret current_device
      | _ => ret current_device
      end
  end.

Definition _get_device_id_from_long_name {S} (device_name : string) : M S string :=
  if Str.contains Str.lparen device_name then
    let* piece := list_getitem (Str.split Str.lparen device_name) 1 in
    ret (Str.remove Str.rparen piece)
  else ret device_name.

Definition _get_device_list_with_names : Flow (list string) :=
  let* possible_devices := gets device_list_ds18b20 in
  map_m _get_device_long_name_from_id possible_devices.

(** ** Reading and updating the options *)

Definition _get_current_ds18b20_config_selection : Flow (list string) :=
  let* opts := gets options in
  let selected_entries := opts !! "ds18b20_device_selection" in
  _LOGGER_info "\n---- CURRENT_DS18B20_CONFIG_SELECTION  ----\n -- selected_entries: %s\n -- possible_devices: %s" >>
  match selected_entries with
  | None | Some VNone => ret []
  | Some selected_entries =>
      let* names := _get_device_list_with_names in
      let* ids := map_m _get_device_id_from_long_name names in
      match selected_entries with
      | VList selected =>
          ret (fst <$> filter (λ p, p.2 ∈ selected) (zip names ids))
      | _ => raise (IllTyped "ds18b20_device_selection")
      end
  end.

Definition _get_default_ds18b20_config_option (device : string) : Flow string :=
  _LOGGER_info "\n---- GET_DEFAULT_DS18B20  ----\n -- Options: %s (type) %s" >>
  let* opts := gets options in
  let sensor_precision_entry := opts !! "sensor_precision" in
  _LOGGER_info "\n---- STEP_DEFAULT_DS18B20  ----\n -- Precision entry type: %s" >>
  match sensor_precision_entry with
  | None | Some VNone => ret "Default"
  | Some (VDict d) =>
      match d !! device with
      | Some precision => ret precision
      | None => ret "Default"
      end
  | Some v => if truthy v then raise (IllTyped "sensor_precision") else ret "Default"
  end.

Definition _update_ds18b20_config_option (device : string)
    (user_input : gmap string value) : Flow unit :=
  let* opts := gets options in
  let sensor_precision_entry := default VNone (opts !! "sensor_precision") in
  let* chosen := getitem user_input "sensor_precision" in
  let* chosen :=
    match chosen with
    | VStr label => ret label
    | _ => raise (IllTyped "sensor_precision")
    end in
  let* sensor_precision_entry :=
    if truthy sensor_precision_entry then
      match sensor_precision_entry with
      | VDict d => ret (<[device := chosen]> d)
      | _ => raise TypeError
      end
    else ret {[ device := chosen ]} in
  modify (λ self,
    set_options (<["sensor_precision" := VDict sensor_precision_entry]> (options self)) self).

Definition _update_options_dict (user_input : gmap string value) : Flow unit :=
  let* user_input :=
    match user_input !! "ds18b20_device_selection" with
    | Some name_list =>
        match name_list with
        | VList name_list =>
            let* ids := map_m _get_device_id_from_long_name name_list in
            ret (<["ds18b20_device_selection" := VList ids]> user_input)
        | _ => raise (IllTyped "ds18b20_device_selection")
        end
    | None => ret user_input
    end in
  modify (λ self, set_options (user_input ∪ options self) self).

Definition _update_options : Flow FlowResult :=
  _LOGGER_info "\n---- UPDATE_OPTIONS  ----\n -- Options: %s" >>
  let* opts := gets options in
  async_create_entry (VStr "") opts.

(** ** Steps *)

Definition PRECISION_LABELS : list string :=
  ["Default"; "9 Bits"; "10 Bits"; "11 Bits"; "12 Bits"].

(** The [user_input is None] path of the device-configuration step: pop
    the next device and render its form. *)
Definition async_step_ds1820b_device_config_render : Flow FlowResult :=
  let* queue := gets devices_to_configure_ds18b20 in
  match pop queue with
  | None => raise IndexError
  | Some (queue, device) =>
      modify (set_devices_to_configure_ds18b20 queue) >>
      modify (set_current_device device) >>
      let* current := gets current_device in
      let* dflt := _get_default_ds18b20_config_option current in
      let* current := gets current_device in
      let* sens_id := _get_device_long_name_from_id current in
      async_show_form "ds1820b_device_config"
        [ Required "sensor_precision" (Some (VStr dflt)) (vol_In PRECISION_LABELS) ]
        (Some {[ "sens_id" := sens_id ]})
  end.

Definition async_step_ds1820b_device_config
    (user_input : option (gmap string value)) : Flow FlowResult :=
  match user_input with
  | Some user_input =>
      let* current := gets current_device in
      _update_ds18b20_config_option current user_input >>
      let* queue := gets devices_to_configure_ds18b20 in
      if (0 <? length queue)%nat
      then async_step_ds1820b_device_config_render
      else _update_options
  | None => async_step_ds1820b_device_config_render
  end.

Definition async_step_device_selection
    (user_input : option (gmap string value)) : Flow FlowResult :=
  match user_input with
  | Some user_input =>
      _LOGGER_info "\n---- STEP_DEVICE_SELECTION ----\n -- Options: %s\n --  User input: %s" >>
      _update_options_dict user_input >>
      let* opts := gets options in
      let* clear := getitem opts "clear_device_config" in
      if truthy clear then
        modify (set_options ∅) >>
        _update_options
      else
        _LOGGER_info "\n---- STEP_DEVICE_SELECTION (In ELSE) ----\n -- Options: %s" >>
        let* opts := gets options in
        let* selection := getitem opts "ds18b20_device_selection" in
        let* selection :=
          match selection with
          | VList l => ret l
          | _ => raise (IllTyped "ds18b20_device_selection")
          end in
        modify (set_devices_to_configure_ds18b20 selection) >>
        let* queue := gets devices_to_configure_ds18b20 in
        if negb (bool_decide (queue = []))
        then async_step_ds1820b_device_config None
        else _update_options
  | None =>
      let* preselected := _get_current_ds18b20_config_selection in
      let* names := _get_device_list_with_names in
      async_show_form "device_selection"
        [ Optional "clear_device_config" (Some (VBool false)) None vol_bool;
          Optional "ds18b20_device_selection" (Some (VList preselected))
            (Some "Multiselect with list of devices to choose from")
            (cv_multi_select (list_to_map ((λ device, (device, false)) <$> names))) ]
        None
  end.

(** [x.id for x in devices if isinstance(x, OWServerDeviceDescription)
    and x.type == "DS18B20"] *)
Definition ds18b20_ids (l : list OWDeviceDescription) : list string :=
  omap (λ x, match x with
             | OWServerDeviceDescription id type =>
                 if String.eqb type "DS18B20" then Some id else None
             | OWDirectDeviceDescription _ => None
             end) l.

(** The logging loop of the init step; it stops at the first device the
    registry does not know. *)
Fixpoint log_known_devices (l : list string) : Flow unit :=
  match l with
  | [] => ret tt
  | device_id :: l' =>
      let* registry := gets device_registry in
      match registry with
      | None => raise (AttributeError "async_get_device")
      | Some registry =>
          match async_get_device registry (DOMAIN, device_id) with
          | None => ret tt
          | Some device =>
              _LOGGER_info "\n---- STEP_INIT ----\n -- Device : %s -- %s -- %s" >>
              log_known_devices l'
          end
      end
  end.

Definition async_step_init (hass : HomeAssistant)
    (user_input : option (gmap string value)) : Flow FlowResult :=
  let* domain_data := getitem (hass_data hass) DOMAIN in
  let* entry := gets config_entry in
  let* hub := getitem domain_data (entry_id entry) in
  modify (set_controller (Some hub)) >>
  modify (set_device_registry (Some (hass_device_registry hass))) >>
  match devices hub with
  | Some (x :: l) => modify (set_device_list_ds18b20 (ds18b20_ids (x :: l)))
  | _ => ret tt
  end >>
  _LOGGER_info "\n---- STEP_INIT ----\n -- Options: %s \n -- User_input: %s" >>
  let* known := gets device_list_ds18b20 in
  log_known_devices known >>
  match user_input with
  | Some user_input => async_create_entry (VStr "") user_input
  | None => async_step_device_selection None
  end.

(** ** The host's side of a session *)

(** Modelled from the spec: the host routes a submission to the step
    whose form it last rendered (§2, §9 "virtual step-id routing"). *)
Definition async_step (hass : HomeAssistant) (step_id : string)
    (user_input : option (gmap string value)) : Flow FlowResult :=
  if String.eqb step_id "init" then async_step_init hass user_input
  else if String.eqb step_id "device_selection" then async_step_device_selection user_input
  else if String.eqb step_id "ds1820b_device_config" then async_step_ds1820b_device_config user_input
  else raise (AttributeError ("async_step_" +:+ step_id)).

(** One answer of the wizard together with the device it is then
    working on. *)
Definition Answer : Type := FlowResult * string.

(** Feed the submissions [inputs], in order, to the forms the wizard
    renders after [r]; the answers are returned oldest first.  The
    session ends when the wizard finishes or the submissions run out. *)
Fixpoint async_configure (hass : HomeAssistant) (r : FlowResult)
    (inputs : list (gmap string value)) : Flow (list Answer) :=
  match r, inputs with
  | ShowForm step_id _ _ _, user_input :: inputs =>
      let* r' := async_step hass step_id (Some user_input) in
      let* device := gets current_device in
      let* answers := async_configure hass r' inputs in
      ret ((r', device) :: answers)
  | _, _ => ret []
  end.

(** A session entered at [step_id] with a first submission. *)
Definition session (hass : HomeAssistant) (step_id : string)
    (first : option (gmap string value))
    (inputs : list (gmap string value)) : Flow (list Answer) :=
  let* r := async_step hass step_id first in
  let* device := gets current_device in
  let* answers := async_configure hass r inputs in
  ret ((r, device) :: answers).

(** The devices whose configuration form was rendered, in order. *)
Definition configured_devices (answers : list Answer) : list string :=
  omap (λ a : Answer,
          if bool_decide (rendered_step a.1 = Some "ds1820b_device_config")
          then Some a.2 else None) answers.

(** The record the session handed to the persist action, if any. *)
Definition committed (answers : list Answer) : option (gmap string value) :=
  match last answers with
  | Some a => persisted a.1
  | None => None
  end.

End Options.

(* ================================================================== *)
(** * Vocabulary of the statements *)
(* ================================================================== *)

(** ** Labels *)

Module Labels.
Import Str.

(** What the parser computes, without the list of pieces: the text
    between the first ['('] and the next one (or the end of the label),
    with every [')'] removed; the label itself when it has no ['(']. *)
Definition parsed_id (label : string) : string :=
  if contains lparen label
  then remove rparen (before lparen (after lparen label))
  else label.

(** The rule as the specification words it: a label without parenthesis
    is the id; otherwise the id is the substring strictly between the
    first ['('] and the trailing [')'].  The rule says nothing of a label
    that has a parenthesis but no ['('] or no trailing [')']. *)
Definition id_by_rule (label : string) : option string :=
  if negb (contains lparen label) && negb (contains rparen label) then Some label
  else if contains lparen label && ends_with rparen label
       then Some (chop (after lparen label))
       else None.

Definition paren_free (s : string) : Prop :=
  contains lparen s = false ∧ contains rparen s = false.

#[global] Instance paren_free_dec s : Decision (paren_free s).
Proof. unfold paren_free. apply _. Defined.

End Labels.

(** ** Options records and selection sessions *)

Module OptionsSpec.
Import Options Labels.

(** The selection field of a submission carries a list of labels (or is
    not there): what the multi-select of the form produces. *)
Definition selection_is_list (user_input : gmap string value) : bool :=
  match user_input !! "ds18b20_device_selection" with
  | Some (VList _) | None => true
  | Some _ => false
  end.

(** The selection stored in the options is a list of ids, [None], or
    not there. *)
Definition selection_is_loaded (opts : gmap string value) : bool :=
  match opts !! "ds18b20_device_selection" with
  | Some (VList _) | Some VNone | None => true
  | Some _ => false
  end.

(** The label the selection form shows for a device id. *)
Definition label_of (registry : DeviceRegistry) (id : string) : string :=
  match async_get_device registry (DOMAIN, id) with
  | Some {| name_by_user := Some name |} =>
      if negb (String.eqb name "") then name +:+ " (" +:+ id +:+ ")" else id
  | _ => id
  end.

(** The submission with its labels translated to ids. *)
Definition translated (user_input : gmap string value) : gmap string value :=
  match user_input !! "ds18b20_device_selection" with
  | Some (VList labels) =>
      <["ds18b20_device_selection" := VList (parsed_id <$> labels)]> user_input
  | _ => user_input
  end.

(** The options once a submission is merged into them. *)
Definition options_in_force (ui : gmap string value)
    (self : OnewireOptionsFlowHandler) : gmap string value :=
  translated ui ∪ options self.

(** The precision table of an options record. *)
Definition precision_table (opts : gmap string value) : gmap string string :=
  match opts !! "sensor_precision" with
  | Some (VDict d) => d
  | _ => ∅
  end.

(** The precision field is a table, or is false as a condition (absent,
    [None], empty): the shapes the handler itself writes or replaces. *)
Definition precision_is_table (opts : gmap string value) : bool :=
  match opts !! "sensor_precision" with
  | Some (VDict _) | None => true
  | Some v => negb (truthy v)
  end.

(** The options after one device-configuration submission. *)
Definition with_precision (device label : string) (opts : gmap string value) :=
  <["sensor_precision" := VDict (<[device := label]> (precision_table opts))]> opts.

(** The options after the submissions [labels] for the devices
    [devices], in that order. *)
Fixpoint record_precisions (opts : gmap string value)
    (devices labels : list string) : gmap string value :=
  match devices, labels with
  | device :: devices, label :: labels =>
      record_precisions (with_precision device label opts) devices labels
  | _, _ => opts
  end.

(** Storing the choices one after the other. *)
Definition store_choices (table : gmap string string)
    (devices labels : list string) : gmap string string :=
  foldl (λ t (c : string * string), <[c.1 := c.2]> t) table (zip devices labels).

(** The submission [user_input] chooses [label]. *)
Definition chooses (user_input : gmap string value) (label : string) : Prop :=
  user_input !! "sensor_precision" = Some (VStr label).

(** The hub the init step finds for the handler's entry. *)
Definition hub_of (hass : HomeAssistant) (self : OnewireOptionsFlowHandler)
    : option OneWireHub :=
  hass_data hass !! DOMAIN ≫= λ domain_data, domain_data !! entry_id (config_entry self).

End OptionsSpec.

(** ** Setup sessions *)

Module SetupSpec.
Import Setup.

(** The value a rendered form offers for a field. *)
Definition form_offers (r : FlowResult) (key : string) : option value :=
  match r with
  | ShowForm _ data_schema _ _ => schema_default data_schema key
  | CreateEntry _ _ => None
  end.

Definition form_errors (r : FlowResult) : option (gmap string string) :=
  match r with
  | ShowForm _ _ errors _ => errors
  | CreateEntry _ _ => None
  end.

(** The fields a gateway submission is compared on. *)
Definition owserver_match (host port : value) : gmap string value :=
  {[ CONF_TYPE := VStr CONF_TYPE_OWSERVER; CONF_HOST := host; CONF_PORT := port ]}.

(** Some persisted entry is a gateway entry for [host] and [port]. *)
Definition owserver_configured (hass : HomeAssistant) (host port : value) : Prop :=
  ∃ entry, entry ∈ hass_config_entries hass
    ∧ entry_data entry !! CONF_TYPE = Some (VStr CONF_TYPE_OWSERVER)
    ∧ entry_data entry !! CONF_HOST = Some host
    ∧ entry_data entry !! CONF_PORT = Some port.

(** Some persisted entry carries the identity of the mount directory. *)
Definition mount_dir_configured (hass : HomeAssistant) (mount_dir : string) : Prop :=
  ∃ entry, entry ∈ hass_config_entries hass
    ∧ entry_unique_id entry = Some (CONF_TYPE_SYSBUS +:+ ":" +:+ mount_dir).

Definition sysbus_id (mount_dir : string) : string :=
  CONF_TYPE_SYSBUS +:+ ":" +:+ mount_dir.

Definition chosen_step (type : value) : string :=
  if bool_decide (type = VStr CONF_TYPE_OWSERVER) then "owserver"
  else if bool_decide (type = VStr CONF_TYPE_SYSBUS) then "mount_dir"
  else "user".

Definition chosen_schema (type : value) : Schema :=
  if bool_decide (type = VStr CONF_TYPE_OWSERVER) then DATA_SCHEMA_OWSERVER
  else if bool_decide (type = VStr CONF_TYPE_SYSBUS) then DATA_SCHEMA_MOUNTDIR
  else DATA_SCHEMA_USER.

Definition user_form : FlowResult :=
  ShowForm "user" DATA_SCHEMA_USER (Some ∅) None.

Definition chosen_form (type : value) : FlowResult :=
  ShowForm (chosen_step type) (chosen_schema type) (Some ∅) None.

End SetupSpec.

(* ================================================================== *)
(** * Sample installations *)
(* ================================================================== *)

Module Samples.
Import Options.

Definition kitchen_registry : DeviceRegistry :=
  {| registry_devices :=
       {[ (DOMAIN, "28.AAA") :=
            {| device_entry_id := "d1"; name_by_user := Some "Kitchen" |} ]} |}.

Definition hub : OneWireHub :=
  {| devices := Some [ OWServerDeviceDescription "28.AAA" "DS18B20";
                       OWServerDeviceDescription "28.BBB" "DS18B20";
                       OWServerDeviceDescription "10.CCC" "DS18S20" ] |}.

(** A gateway entry for [localhost:4304], without options. *)
Definition gateway_entry : ConfigEntry :=
  {| entry_id := "e1";
     entry_data := {[ CONF_TYPE := VStr CONF_TYPE_OWSERVER;
                      CONF_HOST := VStr "localhost";
                      CONF_PORT := VInt 4304 ]};
     entry_options := ∅;
     entry_unique_id := None |}.

(** A filesystem entry for the default mount directory. *)
Definition sysbus_entry : ConfigEntry :=
  {| entry_id := "e2";
     entry_data := {[ CONF_TYPE := VStr CONF_TYPE_SYSBUS;
                      CONF_MOUNT_DIR := VStr DEFAULT_SYSBUS_MOUNT_DIR ]};
     entry_options := ∅;
     entry_unique_id := Some "SysBus:/sys/bus/w1/devices/" |}.

(** An installation with both entries, where every hub call succeeds. *)
Definition home : HomeAssistant :=
  {| hass_data := {[ DOMAIN := {[ "e1" := hub ]} ]};
     hass_device_registry := kitchen_registry;
     hass_config_entries := [gateway_entry; sysbus_entry];
     owserver_reachable := λ _ _, true;
     mount_dir_valid := λ _, true |}.

(** A fresh installation, where every hub call succeeds. *)
Definition fresh_home : HomeAssistant :=
  {| hass_data := ∅;
     hass_device_registry := {| registry_devices := ∅ |};
     hass_config_entries := [];
     owserver_reachable := λ _ _, true;
     mount_dir_valid := λ _, true |}.

(** A fresh installation whose network is down. *)
Definition offline_home : HomeAssistant :=
  {| hass_data := ∅;
     hass_device_registry := {| registry_devices := ∅ |};
     hass_config_entries := [];
     owserver_reachable := λ _ _, false;
     mount_dir_valid := λ _, false |}.

(** The options handler of the gateway entry once its init step has
    rendered the selection form. *)
Definition ready : OnewireOptionsFlowHandler :=
  snd (async_step_init home None (init gateway_entry)).

Definition select_both : gmap string value :=
  {[ "clear_device_config" := VBool false;
     "ds18b20_device_selection" := VList ["Kitchen (28.AAA)"; "28.BBB"] ]}.

Definition clear_all : gmap string value :=
  {[ "clear_device_config" := VBool true;
     "ds18b20_device_selection" := VList ["Kitchen (28.AAA)"; "28.BBB"] ]}.

Definition choose (label : string) : gmap string value :=
  {[ "sensor_precision" := VStr label ]}.

Definition gateway_params (host : string) (port : Z) : gmap string value :=
  {[ CONF_HOST := VStr host; CONF_PORT := VInt port ]}.

Definition transport (type : string) : gmap string value :=
  {[ CONF_TYPE := VStr type ]}.

End Samples.

(* ================================================================== *)
(** * Vocabulary of the further statements *)
(* ================================================================== *)

Module MoreSpec.
Import Options Labels OptionsSpec.

(** Two handlers with the same attributes; only what they have logged
    may differ. *)
Definition same_attributes (a b : OnewireOptionsFlowHandler) : Prop :=
  config_entry a = config_entry b
  ∧ options a = options b
  ∧ controller a = controller b
  ∧ device_list_ds18b20 a = device_list_ds18b20 b
  ∧ current_device a = current_device b
  ∧ devices_to_configure_ds18b20 a = devices_to_configure_ds18b20 b
  ∧ device_registry a = device_registry b.

(** The labels the selection form ticks in advance: those whose id is
    in the stored selection. *)
Definition preselection (opts : gmap string value) (names : list string) : list string :=
  match opts !! "ds18b20_device_selection" with
  | Some (VList selected) => filter (λ name, parsed_id name ∈ selected) names
  | _ => []
  end.

(** The selection form for the labels [names] with [preselected]
    ticked. *)
Definition selection_form (preselected names : list string) : FlowResult :=
  ShowForm "device_selection"
    [ Optional "clear_device_config" (Some (VBool false)) None vol_bool;
      Optional "ds18b20_device_selection" (Some (VList preselected))
        (Some "Multiselect with list of devices to choose from")
        (cv_multi_select (list_to_map ((λ device, (device, false)) <$> names))) ]
    None None.

(** The precision stored for a device, [Default] when there is none. *)
Definition stored_default (opts : gmap string value) (device : string) : string :=
  default "Default" (precision_table opts !! device).

(** The form of one device: the precision offered and the label shown. *)
Definition device_form (offered label : string) : FlowResult :=
  ShowForm "ds1820b_device_config"
    [ Required "sensor_precision" (Some (VStr offered)) (vol_In PRECISION_LABELS) ]
    None (Some {[ "sens_id" := label ]}).

(** The choices a rendered form offers in a multi-select field. *)
Definition form_choices (r : FlowResult) (key : string) : option (gmap string bool) :=
  match r with
  | ShowForm _ data_schema _ _ =>
      match List.find (λ m, String.eqb (marker_key m) key) data_schema with
      | Some {| marker_accepts := cv_multi_select choices |} => Some choices
      | _ => None
      end
  | CreateEntry _ _ => None
  end.

(** Every id and every display name of the registry is free of
    parentheses. *)
Definition registry_paren_free (registry : DeviceRegistry) (ids : list string) : Prop :=
  ∀ id, id ∈ ids →
    paren_free id
    ∧ ∀ device name, async_get_device registry (DOMAIN, id) = Some device →
        name_by_user device = Some name → paren_free name.

(** An installation whose gateway answers on [example.org] only. *)
Definition picky_home : HomeAssistant :=
  {| hass_data := ∅;
     hass_device_registry := {| registry_devices := ∅ |};
     hass_config_entries := [];
     owserver_reachable := λ host _, bool_decide (host = VStr "example.org");
     mount_dir_valid := λ _, true |}.

(** A gateway entry whose options hold an earlier session's result. *)
Definition configured_entry : ConfigEntry :=
  {| entry_id := "e1";
     entry_data := entry_data Samples.gateway_entry;
     entry_options :=
       {[ "clear_device_config" := VBool false;
          "ds18b20_device_selection" := VList ["28.AAA"; "28.GONE"];
          "sensor_precision" := VDict {[ "28.AAA" := "11 Bits"; "28.GONE" := "9 Bits" ]} ]};
     entry_unique_id := None |}.

(** Its handler once the init step has rendered the selection form. *)
Definition configured_ready : OnewireOptionsFlowHandler :=
  snd (async_step_init Samples.home None (init configured_entry)).

End MoreSpec.

(* ================================================================== *)
(** * String facts *)
(* ================================================================== *)

Module StrFacts.
Import Str.

Lemma append_empty_r s : s +:+ EmptyString = s.
Proof.
  induction s as [|x s IH]; [done|].
  change (String x (s +:+ EmptyString) = String x s). by rewrite IH.
Qed.

Lemma append_assoc a b c : (a +:+ b) +:+ c = a +:+ (b +:+ c).
Proof.
  induction a as [|x a IH]; [done|].
  change (String x ((a +:+ b) +:+ c) = String x (a +:+ (b +:+ c))). by rewrite IH.
Qed.

Lemma contains_app c a b :
  contains c (a +:+ b) = contains c a || contains c b.
Proof.
  induction a as [|x a IH]; simpl; [done|].
  destruct (Ascii.eqb x c); [done|apply IH].
Qed.

Lemma split_head c s : ∃ pieces, split c s = before c s :: pieces.
Proof.
  induction s as [|x s [pieces IH]]; simpl; [by eexists|].
  destruct (Ascii.eqb x c); [by eexists|].
  rewrite IH. by eexists.
Qed.

Lemma split_contains c s :
  contains c s = true → split c s = before c s :: split c (after c s).
Proof.
  induction s as [|x s IH]; simpl; [done|].
  destruct (Ascii.eqb x c); [done|].
  intros H. by rewrite (IH H).
Qed.

(** The second piece of a split is the text between the first and the
    second separator. *)
Lemma split_second c s :
  contains c s = true → split c s !! 1%nat = Some (before c (after c s)).
Proof.
  intros H. rewrite (split_contains _ _ H).
  destruct (split_head c (after c s)) as [pieces ->]. done.
Qed.

Lemma before_none c s : contains c s = false → before c s = s.
Proof.
  induction s as [|x s IH]; simpl; [done|].
  destruct (Ascii.eqb x c); [done|]. intros H. by rewrite (IH H).
Qed.

Lemma remove_none c s : contains c s = false → remove c s = s.
Proof.
  induction s as [|x s IH]; simpl; [done|].
  destruct (Ascii.eqb x c); [done|]. intros H. by rewrite (IH H).
Qed.

Lemma remove_app c a b : remove c (a +:+ b) = remove c a +:+ remove c b.
Proof.
  induction a as [|x a IH]; simpl; [done|].
  destruct (Ascii.eqb x c); simpl; by rewrite IH.
Qed.

Lemma after_app c a b :
  contains c a = false → after c (a +:+ String c b) = b.
Proof.
  induction a as [|x a IH]; simpl.
  - by rewrite Ascii.eqb_refl.
  - destruct (Ascii.eqb x c); [done|apply IH].
Qed.

Lemma contains_after c a b :
  contains c (a +:+ String c b) = true.
Proof.
  rewrite contains_app. simpl. rewrite Ascii.eqb_refl. apply orb_true_r.
Qed.

Lemma ends_with_app c a : ends_with c (a +:+ String c EmptyString) = true.
Proof.
  induction a as [|x a IH]; simpl; [apply Ascii.eqb_refl|].
  destruct a; simpl in *; [apply Ascii.eqb_refl|apply IH].
Qed.

Lemma chop_app c a : chop (a +:+ String c EmptyString) = a.
Proof.
  induction a as [|x a IH]; simpl; [done|].
  destruct a; simpl in *; [done|by rewrite IH].
Qed.

Lemma ends_with_chop c s :
  ends_with c s = true → s = chop s +:+ String c EmptyString.
Proof.
  induction s as [|x s IH]; simpl; [done|].
  destruct s as [|y s].
  - intros H. apply Ascii.eqb_eq in H. by subst.
  - intros H. change (chop (String x (String y s))) with (String x (chop (String y s))).
    change (String x (String y s) = String x (chop (String y s) +:+ String c EmptyString)).
    f_equal. apply IH, H.
Qed.

End StrFacts.

(* ================================================================== *)
(** * Running computations *)
(* ================================================================== *)

Lemma bind_ok {S A B} (m : M S A) (k : A → M S B) s a s' :
  m s = (Ok a, s') → bind m k s = k a s'.
Proof. unfold bind. by intros ->. Qed.

Lemma bind_raise {S A B} (m : M S A) (k : A → M S B) s e s' :
  m s = (Raise e, s') → bind m k s = (Raise e, s').
Proof. unfold bind. by intros ->. Qed.

Lemma bind_congr {S A B} (m m' : M S A) (k : A → M S B) s s' :
  m s = m' s' → bind m k s = bind m' k s'.
Proof. unfold bind. by intros ->. Qed.

Lemma bind_assoc {S A B C} (m : M S A) (k : A → M S B) (h : B → M S C) s :
  bind (bind m k) h s = bind m (λ a, bind (k a) h) s.
Proof. unfold bind. by destruct (m s) as [[] ?]. Qed.

Lemma bind_congr_k {S A B} (m : M S A) (k k' : A → M S B) s :
  (∀ a s', k a s' = k' a s') → bind m k s = bind m k' s.
Proof. intros H. unfold bind. destruct (m s) as [[] ?]; [apply H|done]. Qed.

Lemma bind_gets {S A B} (f : S → A) (k : A → M S B) s :
  bind (gets f) k s = k (f s) s.
Proof. done. Qed.

Lemma bind_modify {S B} (f : S → S) (k : unit → M S B) s :
  bind (modify f) k s = k tt (f s).
Proof. done. Qed.

Lemma bind_ret {S A B} (a : A) (k : A → M S B) s :
  bind (ret a) k s = k a s.
Proof. done. Qed.

(** One step of a computation whose head is a read, a write or a
    return. *)
Ltac mstep :=
  first [rewrite bind_gets | rewrite bind_modify | rewrite bind_ret]; cbv beta.

Lemma getitem_ok {S A} (d : gmap string A) key v (s : S) :
  d !! key = Some v → getitem d key s = (Ok v, s).
Proof. unfold getitem. by intros ->. Qed.

Lemma getitem_raise {S A} (d : gmap string A) key (s : S) :
  d !! key = None → getitem d key s = (Raise (KeyError key), s).
Proof. unfold getitem. by intros ->. Qed.

(** A computation that returns [f x] for every element and leaves the
    state alone maps the list. *)
Lemma map_m_pure {S A B} (f : A → M S B) (g : A → B) l s :
  (∀ x, f x s = (Ok (g x), s)) → map_m f l s = (Ok (g <$> l), s).
Proof.
  intros Hf. induction l as [|x l IH]; simpl; [done|].
  rewrite (bind_ok _ _ _ _ _ (Hf x)), (bind_ok _ _ _ _ _ IH). done.
Qed.

(* ================================================================== *)
(** * Labels *)
(* ================================================================== *)

Module LabelFacts.
Import Str StrFacts Options Labels OptionsSpec Samples.

Lemma _get_device_id_from_long_name_eq {S} (label : string) (s : S) :
  _get_device_id_from_long_name label s = (Ok (parsed_id label), s).
Proof.
  unfold _get_device_id_from_long_name, parsed_id.
  destruct (contains lparen label) eqn:H; [|done].
  unfold list_getitem. rewrite (split_second _ _ H). done.
Qed.

Lemma parsed_id_bare id : contains lparen id = false → parsed_id id = id.
Proof. unfold parsed_id. by intros ->. Qed.

Lemma parsed_id_enclosed pre id :
  contains lparen pre = false → paren_free id →
  parsed_id (pre +:+ String lparen (id +:+ String rparen EmptyString)) = id.
Proof.
  intros Hpre [Hl Hr]. unfold parsed_id.
  rewrite contains_after, (after_app _ _ _ Hpre).
  rewrite before_none, remove_app, (remove_none _ _ Hr).
  - simpl. apply append_empty_r.
  - rewrite contains_app, Hl. done.
Qed.

(** Where the rule of the specification and the parser agree: whenever
    the enclosed text has no parenthesis of its own. *)
Lemma id_by_rule_parsed label id :
  id_by_rule label = Some id → paren_free id → parsed_id label = id.
Proof.
  unfold id_by_rule. intros Hrule Hfree.
  destruct (contains lparen label) eqn:Hl; simpl in Hrule.
  - destruct (ends_with rparen label) eqn:He; [|done].
    injection Hrule as <-. unfold parsed_id. rewrite Hl.
    assert (Hend : ends_with rparen (after lparen label) = true
                   ∨ after lparen label = EmptyString).
    { clear Hfree. induction label as [|x label IH]; [done|].
      simpl in Hl. simpl after. destruct (Ascii.eqb x lparen) eqn:Hx.
      - destruct label; [by right|]. left. exact He.
      - apply IH; [done|]. destruct label; [done|exact He]. }
    destruct Hend as [Hend|Hend].
    + rewrite (ends_with_chop _ _ Hend) at 1.
      destruct Hfree as [Hfl Hfr].
      rewrite before_none, remove_app, (remove_none _ _ Hfr).
      * simpl. apply append_empty_r.
      * rewrite contains_app, Hfl. done.
    + rewrite Hend. done.
  - destruct (contains rparen label); simpl in Hrule; [done|].
    injection Hrule as <-. unfold parsed_id. by rewrite Hl.
Qed.

(** C7, as amended.  The parser returns the label itself when it has no
    opening parenthesis; otherwise it returns the text between the first
    opening parenthesis and the next one (or the end of the label) with
    every closing parenthesis removed.  That is the substring strictly
    between the first opening and the trailing closing parenthesis
    whenever that substring has no parenthesis of its own. *)
Theorem parse_label_rule {S} (label : string) (s : S) :
  _get_device_id_from_long_name label s = (Ok (parsed_id label), s)
  ∧ (contains lparen label = false → parsed_id label = label)
  ∧ (contains lparen label = true →
     parsed_id label = remove rparen (before lparen (after lparen label)))
  ∧ (∀ id, id_by_rule label = Some id → paren_free id → parsed_id label = id).
Proof.
  split; [apply _get_device_id_from_long_name_eq|].
  split; [apply parsed_id_bare|].
  split; [unfold parsed_id; by intros ->|].
  apply id_by_rule_parsed.
Qed.

Lemma parse_label_rule_witness :
  contains lparen "28.AAA" = false
  ∧ parsed_id "28.AAA" = "28.AAA"
  ∧ id_by_rule "Kitchen (28.AAA)" = Some "28.AAA"
  ∧ paren_free "28.AAA"
  ∧ parsed_id "Kitchen (28.AAA)" = "28.AAA".
Proof.
  split; [reflexivity|].
  split; [apply (proj1 (proj2 (parse_label_rule (S:=unit) "28.AAA" tt))); reflexivity|].
  split; [reflexivity|].
  split; [split; reflexivity|].
  apply (proj2 (proj2 (proj2 (parse_label_rule (S:=unit) "Kitchen (28.AAA)" tt))));
    [reflexivity|split; reflexivity].
Defined.

(** The rule of the specification fails on an id that holds a
    parenthesis: of the label [n (a(b))] the rule makes [a(b)], the
    parser [a]. *)
Lemma parse_label_rule_counterexample :
  ¬ (∀ label id, id_by_rule label = Some id →
       fst (_get_device_id_from_long_name label tt) = Ok id).
Proof.
  intros H. specialize (H "n (a(b))" "a(b)" eq_refl).
  vm_compute in H. discriminate H.
Qed.

(** The same happens to a display name that holds parentheses. *)
Example parse_label_named_with_parens :
  fst (_get_device_id_from_long_name "Sensor (kitchen) (28.AAA)" tt) = Ok "kitchen ".
Proof. reflexivity. Qed.

(** ** Building a label and reading it back *)

Lemma long_name_with_registry self registry id :
  device_registry self = Some registry →
  _get_device_long_name_from_id id self = (Ok (label_of registry id), self).
Proof.
  intros Hreg. unfold _get_device_long_name_from_id, label_of, bind, gets, ret. simpl.
  rewrite Hreg. destruct (async_get_device registry (DOMAIN, id)) as [[? [name|]]|]; try done.
  by destruct (negb (String.eqb name "")).
Qed.

(** C4.  With the registry loaded, the label of a device id is either
    the bare id or ["name (id)"], and when neither the id nor the
    display name holds a parenthesis the parser maps the label back to
    the id. *)
Theorem label_round_trip self registry (id : string) :
  device_registry self = Some registry →
  paren_free id →
  (∀ device name, async_get_device registry (DOMAIN, id) = Some device →
     name_by_user device = Some name → paren_free name) →
  ∃ label,
    _get_device_long_name_from_id id self = (Ok label, self)
    ∧ (label = id ∨ ∃ name, label = name +:+ " (" +:+ id +:+ ")")
    ∧ ∀ S (s : S), _get_device_id_from_long_name label s = (Ok id, s).
Proof.
  intros Hreg Hid Hname. eexists. split; [by apply long_name_with_registry|].
  assert (Hbare : ∀ S (s : S), _get_device_id_from_long_name id s = (Ok id, s)).
  { intros. rewrite _get_device_id_from_long_name_eq, parsed_id_bare; [done|apply Hid]. }
  unfold label_of.
  destruct (async_get_device registry (DOMAIN, id)) as [[eid [name|]]|] eqn:Hdev;
    [|by split; [left|]..].
  destruct (negb (String.eqb name "")); [|by split; [left|]].
  split; [right; by eexists|]. intros S s.
  rewrite _get_device_id_from_long_name_eq. f_equal. f_equal.
  destruct (Hname _ name eq_refl eq_refl) as [Hl _].
  change (name +:+ " (" +:+ id +:+ ")")
    with (name +:+ (" " +:+ String lparen (id +:+ String rparen EmptyString))).
  rewrite <- append_assoc. apply parsed_id_enclosed; [|done].
  rewrite contains_app, Hl. done.
Qed.

(** C5, on the code.  Without a registry the lookup logs the condition
    and then reads the local [device], which that branch never bound: it
    raises instead of returning the raw id. *)
Theorem long_name_without_registry self (id : string) :
  device_registry self = None →
  _get_device_long_name_from_id id self =
    (Raise (UnboundLocalError "device"),
     add_log (ERROR, "No device registry in config flow, this is a fatal error") self).
Proof.
  intros Hreg. unfold _get_device_long_name_from_id, bind, gets, ret. simpl.
  rewrite Hreg. done.
Qed.

Lemma label_round_trip_witness :
  device_registry ready = Some kitchen_registry
  ∧ paren_free "28.AAA"
  ∧ ∃ label,
      _get_device_long_name_from_id "28.AAA" ready = (Ok label, ready)
      ∧ (label = "28.AAA" ∨ ∃ name, label = name +:+ " (" +:+ "28.AAA" +:+ ")")
      ∧ ∀ S (s : S), _get_device_id_from_long_name label s = (Ok "28.AAA", s).
Proof.
  split; [reflexivity|]. split; [split; reflexivity|].
  apply (label_round_trip ready kitchen_registry "28.AAA");
    [reflexivity|split; reflexivity|].
  intros device name Hdevice Hname. vm_compute in Hdevice.
  injection Hdevice as <-. injection Hname as <-. split; reflexivity.
Defined.

Lemma long_name_without_registry_witness :
  device_registry (init gateway_entry) = None
  ∧ _get_device_long_name_from_id "28.AAA" (init gateway_entry) =
      (Raise (UnboundLocalError "device"),
       add_log (ERROR, "No device registry in config flow, this is a fatal error")
         (init gateway_entry)).
Proof.
  split; [reflexivity|].
  apply (long_name_without_registry (init gateway_entry) "28.AAA"). reflexivity.
Defined.

End LabelFacts.

(* ================================================================== *)
(** * The options wizard, step by step *)
(* ================================================================== *)

Module OptionsFacts.
Import Options Labels OptionsSpec LabelFacts Samples.

Lemma translated_lookup_ne ui key :
  key ≠ "ds18b20_device_selection" → translated ui !! key = ui !! key.
Proof.
  intros Hne. unfold translated.
  destruct (ui !! "ds18b20_device_selection") as [[]|]; try done.
  by rewrite lookup_insert_ne.
Qed.

Lemma translated_lookup_selection ui labels :
  ui !! "ds18b20_device_selection" = Some (VList labels) →
  translated ui !! "ds18b20_device_selection" = Some (VList (parsed_id <$> labels)).
Proof. intros H. unfold translated. rewrite H. apply lookup_insert_eq. Qed.

Lemma translated_lookup_selection_None ui :
  ui !! "ds18b20_device_selection" = None →
  translated ui !! "ds18b20_device_selection" = None.
Proof. intros H. unfold translated. by rewrite H. Qed.

Lemma _update_options_dict_eq ui self :
  selection_is_list ui = true →
  _update_options_dict ui self = (Ok tt, set_options (translated ui ∪ options self) self).
Proof.
  unfold selection_is_list, _update_options_dict, translated. intros Hsel.
  destruct (ui !! "ds18b20_device_selection") as [[]|]; try done.
  erewrite bind_ok; [done|].
  erewrite bind_ok; [done|].
  apply map_m_pure. intros. apply _get_device_id_from_long_name_eq.
Qed.

Lemma _update_options_eq self :
  _update_options self =
    (Ok (CreateEntry (VStr "") (options self)),
     add_log (INFO, "\n---- UPDATE_OPTIONS  ----\n -- Options: %s") self).
Proof. done. Qed.

Lemma pop_snoc {A} (l : list A) x : pop (l ++ [x]) = Some (l, x).
Proof. unfold pop. rewrite rev_unit, rev_involutive. done. Qed.

Lemma pop_nil {A} : pop (@nil A) = None.
Proof. done. Qed.

Lemma _get_default_ds18b20_config_option_ok device self :
  precision_is_table (options self) = true →
  ∃ dflt, _get_default_ds18b20_config_option device self =
    (Ok dflt,
     add_log (INFO, "\n---- STEP_DEFAULT_DS18B20  ----\n -- Precision entry type: %s")
       (add_log (INFO, "\n---- GET_DEFAULT_DS18B20  ----\n -- Options: %s (type) %s") self)).
Proof.
  unfold precision_is_table, _get_default_ds18b20_config_option.
  unfold bind, _LOGGER_info, modify, gets. simpl.
  destruct (options self !! "sensor_precision") as [[]|]; simpl;
    intros H; try (by eexists); try (rewrite (negb_true_iff _) in H; rewrite H; by eexists).
  destruct (d !! device); by eexists.
Qed.

(** Rendering the form of the next device: the last device of the queue
    becomes the current one; the options are not touched. *)
Lemma render_ok self registry queue device :
  device_registry self = Some registry →
  devices_to_configure_ds18b20 self = queue ++ [device] →
  precision_is_table (options self) = true →
  ∃ sch ph self',
    async_step_ds1820b_device_config_render self =
      (Ok (ShowForm "ds1820b_device_config" sch None ph), self')
    ∧ current_device self' = device
    ∧ devices_to_configure_ds18b20 self' = queue
    ∧ options self' = options self
    ∧ device_registry self' = Some registry.
Proof.
  intros Hreg Hq Hp. unfold async_step_ds1820b_device_config_render.
  mstep. rewrite Hq, pop_snoc. do 3 mstep.
  match goal with |- context [bind (_get_default_ds18b20_config_option ?d) _ ?s] =>
    destruct (_get_default_ds18b20_config_option_ok d s) as [dflt Hd]; [exact Hp|] end.
  rewrite (bind_ok _ _ _ _ _ Hd). mstep.
  erewrite bind_ok; [|by eapply long_name_with_registry].
  unfold async_show_form, ret. do 3 eexists. split; [reflexivity|]. done.
Qed.

Lemma _update_ds18b20_config_option_ok device ui label self :
  ui !! "sensor_precision" = Some (VStr label) →
  precision_is_table (options self) = true →
  _update_ds18b20_config_option device ui self =
    (Ok tt,
     set_options
       (<["sensor_precision" :=
           VDict (<[device := label]> (precision_table (options self)))]> (options self))
       self).
Proof.
  intros Hui Hp. unfold _update_ds18b20_config_option.
  mstep. rewrite (bind_ok _ _ _ _ _ (getitem_ok _ _ _ _ Hui)). mstep.
  unfold precision_is_table, precision_table in *.
  destruct (options self !! "sensor_precision") as [v|] eqn:Hv; simpl.
  - destruct v; simpl in *; try (rewrite (negb_true_iff _) in Hp; rewrite Hp); try done.
    case_bool_decide as Hd; simpl; [|done]. subst d. done.
  - done.
Qed.

Lemma with_precision_is_table device label opts :
  precision_is_table (with_precision device label opts) = true.
Proof. unfold precision_is_table, with_precision. by rewrite lookup_insert_eq. Qed.

Lemma precision_table_with_precision device label opts :
  precision_table (with_precision device label opts)
  = <[device := label]> (precision_table opts).
Proof. unfold precision_table at 1, with_precision. by rewrite lookup_insert_eq. Qed.

Lemma with_precision_lookup_ne device label opts key :
  key ≠ "sensor_precision" → with_precision device label opts !! key = opts !! key.
Proof. intros. unfold with_precision. by rewrite lookup_insert_ne. Qed.

(** A submission while devices remain queued: the choice is stored for
    the current device and the form of the next one is rendered. *)
Lemma config_submit_more self registry queue next ui label :
  device_registry self = Some registry →
  devices_to_configure_ds18b20 self = queue ++ [next] →
  precision_is_table (options self) = true →
  chooses ui label →
  ∃ sch ph self',
    async_step_ds1820b_device_config (Some ui) self =
      (Ok (ShowForm "ds1820b_device_config" sch None ph), self')
    ∧ current_device self' = next
    ∧ devices_to_configure_ds18b20 self' = queue
    ∧ options self' = with_precision (current_device self) label (options self)
    ∧ device_registry self' = Some registry.
Proof.
  intros Hreg Hq Hp Hui. unfold async_step_ds1820b_device_config.
  mstep. rewrite (bind_ok _ _ _ _ _ (_update_ds18b20_config_option_ok _ _ _ _ Hui Hp)).
  mstep. change (devices_to_configure_ds18b20 (set_options _ self))
    with (devices_to_configure_ds18b20 self).
  rewrite Hq, length_app.
  replace (0 <? length queue + length [next])%nat with true
    by (symmetry; apply Nat.ltb_lt; simpl; lia).
  edestruct (render_ok (set_options
      (with_precision (current_device self) label (options self)) self)
      registry queue next) as (sch & ph & self' & Hr & Hc & Hq' & Ho & Hreg');
    [done|done|apply with_precision_is_table|].
  exists sch, ph, self'. done.
Qed.

(** The submission for the last device: the choice is stored and the
    options are committed. *)
Lemma config_submit_last self ui label :
  devices_to_configure_ds18b20 self = [] →
  precision_is_table (options self) = true →
  chooses ui label →
  ∃ self',
    async_step_ds1820b_device_config (Some ui) self =
      (Ok (CreateEntry (VStr "")
             (with_precision (current_device self) label (options self))), self')
    ∧ current_device self' = current_device self.
Proof.
  intros Hq Hp Hui. unfold async_step_ds1820b_device_config.
  mstep. rewrite (bind_ok _ _ _ _ _ (_update_ds18b20_config_option_ok _ _ _ _ Hui Hp)).
  mstep. change (devices_to_configure_ds18b20 (set_options _ self))
    with (devices_to_configure_ds18b20 self).
  rewrite Hq. simpl. rewrite _update_options_eq. by eexists.
Qed.

Lemma configured_devices_form sch e ph device answers :
  configured_devices ((ShowForm "ds1820b_device_config" sch e ph, device) :: answers)
  = device :: configured_devices answers.
Proof. done. Qed.

Lemma async_configure_form hass step_id sch e ph ui inputs :
  async_configure hass (ShowForm step_id sch e ph) (ui :: inputs) =
    (let* r' := async_step hass step_id (Some ui) in
     let* device := gets current_device in
     let* answers := async_configure hass r' inputs in
     ret ((r', device) :: answers)).
Proof. done. Qed.

Lemma async_configure_done hass title data inputs self :
  async_configure hass (CreateEntry title data) inputs self = (Ok [], self).
Proof. by destruct inputs. Qed.

Lemma async_configure_nil hass r self :
  async_configure hass r [] self = (Ok [], self).
Proof. by destruct r. Qed.

(** The device-configuration loop, entered with the form of the current
    device on screen: one submission per device still to do, the queue
    taken from its end, then the commit. *)
Lemma config_loop hass registry :
  ∀ queue self sch e ph inputs labels,
    device_registry self = Some registry →
    devices_to_configure_ds18b20 self = queue →
    precision_is_table (options self) = true →
    Forall2 chooses inputs labels →
    length inputs = S (length queue) →
    ∃ answers self',
      async_configure hass (ShowForm "ds1820b_device_config" sch e ph) inputs self
        = (Ok answers, self')
      ∧ configured_devices answers = rev queue
      ∧ length answers = S (length queue)
      ∧ committed answers =
          Some (record_precisions (options self)
                  (current_device self :: rev queue) labels).
Proof.
  induction queue as [|next queue IH] using rev_ind;
    intros self sch e ph inputs labels Hreg Hq Hp Hch Hlen.
  - destruct Hch as [|ui label inputs labels Hui Hch]; [by simpl in Hlen|].
    destruct Hch; [|by simpl in Hlen].
    destruct (config_submit_last self ui label Hq Hp Hui) as (self' & Hstep & Hc).
    rewrite async_configure_form.
    change (async_step hass "ds1820b_device_config" (Some ui))
      with (async_step_ds1820b_device_config (Some ui)).
    rewrite (bind_ok _ _ _ _ _ Hstep). mstep.
    rewrite (bind_ok _ _ _ _ _ (async_configure_done _ _ _ _ _)).
    exists [(CreateEntry (VStr "")
               (with_precision (current_device self) label (options self)),
             current_device self')], self'.
    done.
  - destruct Hch as [|ui label inputs labels Hui Hch]; [by simpl in Hlen|].
    rewrite length_app in Hlen. simpl in Hlen.
    destruct (config_submit_more self registry queue next ui label Hreg Hq Hp Hui)
      as (sch' & ph' & self1 & Hstep & Hc & Hq1 & Ho & Hreg1).
    destruct (IH self1 sch' None ph' inputs labels Hreg1 Hq1) as
      (answers & self' & Hrun & Hdev & Hn & Hcommit);
      [rewrite Ho; apply with_precision_is_table|done|lia|].
    rewrite async_configure_form.
    change (async_step hass "ds1820b_device_config" (Some ui))
      with (async_step_ds1820b_device_config (Some ui)).
    rewrite (bind_ok _ _ _ _ _ Hstep). mstep.
    rewrite (bind_ok _ _ _ _ _ Hrun).
    eexists _, self'. split; [reflexivity|].
    rewrite configured_devices_form, Hdev, Hc, rev_unit, length_app. simpl length.
    split; [done|]. split; [lia|].
    destruct answers as [|a answers]; [done|].
    change (committed (?x :: a :: answers)) with (committed (a :: answers)).
    rewrite Hcommit, Hc, Ho. done.
Qed.

(** ** The selection step *)

Lemma options_in_force_lookup_ne ui self key :
  key ≠ "ds18b20_device_selection" →
  options_in_force ui self !! key = (ui ∪ options self) !! key.
Proof.
  intros Hne. unfold options_in_force.
  rewrite !lookup_union, translated_lookup_ne; done.
Qed.

Lemma options_in_force_lookup ui self key v :
  key ≠ "ds18b20_device_selection" →
  ui !! key = Some v → options_in_force ui self !! key = Some v.
Proof.
  intros Hne Hv. rewrite (options_in_force_lookup_ne _ _ _ Hne).
  by apply lookup_union_Some_l.
Qed.

Lemma options_in_force_selection ui self labels :
  ui !! "ds18b20_device_selection" = Some (VList labels) →
  options_in_force ui self !! "ds18b20_device_selection"
  = Some (VList (parsed_id <$> labels)).
Proof.
  intros H. apply lookup_union_Some_l. by apply translated_lookup_selection.
Qed.

(** A form submission has no precision field of its own: the table in
    force is the one loaded before. *)
Lemma options_in_force_precision ui self :
  ui !! "sensor_precision" = None →
  options_in_force ui self !! "sensor_precision" = options self !! "sensor_precision".
Proof.
  intros H. rewrite options_in_force_lookup_ne by done.
  by apply lookup_union_r.
Qed.

(** The selection step up to the test of [clear_device_config]. *)
Lemma selection_submit_merge self ui :
  selection_is_list ui = true →
  ∃ self1,
    async_step_device_selection (Some ui) self =
      (let* opts := gets options in
       let* clear := getitem opts "clear_device_config" in
       if truthy clear then
         modify (set_options ∅) >> _update_options
       else
         _LOGGER_info "\n---- STEP_DEVICE_SELECTION (In ELSE) ----\n -- Options: %s" >>
         let* opts := gets options in
         let* selection := getitem opts "ds18b20_device_selection" in
         let* selection :=
           match selection with
           | VList l => ret l
           | _ => raise (IllTyped "ds18b20_device_selection")
           end in
         modify (set_devices_to_configure_ds18b20 selection) >>
         let* queue := gets devices_to_configure_ds18b20 in
         if negb (bool_decide (queue = []))
         then async_step_ds1820b_device_config None
         else _update_options) self1
    ∧ options self1 = options_in_force ui self
    ∧ current_device self1 = current_device self
    ∧ device_registry self1 = device_registry self.
Proof.
  intros Hsel. unfold async_step_device_selection, _LOGGER_info at 1.
  mstep. erewrite bind_ok; [|apply _update_options_dict_eq, Hsel].
  eexists. split; [reflexivity|]. done.
Qed.

Lemma selection_list_is_list ui labels :
  ui !! "ds18b20_device_selection" = Some (VList labels) → selection_is_list ui = true.
Proof. unfold selection_is_list. by intros ->. Qed.

(** Submitting a selection without clearing: the translated selection
    becomes the queue; with a device in it the form of its last device
    is rendered, without one the options are committed. *)
Lemma selection_submit self registry ui v labels :
  device_registry self = Some registry →
  ui !! "clear_device_config" = Some v → truthy v = false →
  ui !! "ds18b20_device_selection" = Some (VList labels) →
  precision_is_table (options_in_force ui self) = true →
  (∀ queue device, parsed_id <$> labels = queue ++ [device] →
     ∃ sch ph self',
       async_step_device_selection (Some ui) self =
         (Ok (ShowForm "ds1820b_device_config" sch None ph), self')
       ∧ current_device self' = device
       ∧ devices_to_configure_ds18b20 self' = queue
       ∧ options self' = options_in_force ui self
       ∧ device_registry self' = Some registry)
  ∧ (labels = [] →
     ∃ self',
       async_step_device_selection (Some ui) self =
         (Ok (CreateEntry (VStr "") (options_in_force ui self)), self')
       ∧ current_device self' = current_device self).
Proof.
  intros Hreg Hclear Hv Hlabels Hp.
  destruct (selection_submit_merge self ui (selection_list_is_list _ _ Hlabels))
    as (self1 & -> & Ho & Hc & Hr).
  mstep. rewrite Ho.
  rewrite (bind_ok _ _ _ _ _
    (getitem_ok _ _ _ _ (options_in_force_lookup ui self "clear_device_config" v ltac:(done) Hclear))).
  rewrite Hv. unfold _LOGGER_info. do 2 mstep.
  change (options (add_log _ self1)) with (options self1). rewrite Ho.
  rewrite (bind_ok _ _ _ _ _
    (getitem_ok _ _ _ _ (options_in_force_selection ui self _ Hlabels))).
  do 3 mstep.
  change (devices_to_configure_ds18b20 (set_devices_to_configure_ds18b20 ?q _)) with q.
  split.
  - intros queue device Hq. rewrite Hq.
    rewrite bool_decide_eq_false_2 by (by destruct queue).
    edestruct (render_ok
      (set_devices_to_configure_ds18b20 (queue ++ [device]) (add_log
        (INFO, "\n---- STEP_DEVICE_SELECTION (In ELSE) ----\n -- Options: %s") self1))
      registry queue device) as (sch & ph & self' & Hstep & H1 & H2 & H3 & H4);
      [by rewrite <- Hreg, <- Hr|done|by (simpl; rewrite Ho)|].
    exists sch, ph, self'. simpl in H3. rewrite Ho in H3. done.
  - intros ->. simpl. rewrite _update_options_eq. simpl. rewrite Ho.
    eexists. split; [reflexivity|]. done.
Qed.

(** ** The init step *)

Lemma log_known_devices_ok registry known :
  ∀ self, device_registry self = Some registry →
    ∃ self', log_known_devices known self = (Ok tt, self')
      ∧ options self' = options self
      ∧ device_registry self' = Some registry
      ∧ device_list_ds18b20 self' = device_list_ds18b20 self
      ∧ current_device self' = current_device self
      ∧ devices_to_configure_ds18b20 self' = devices_to_configure_ds18b20 self.
Proof.
  induction known as [|device_id known IH]; intros self Hreg; simpl.
  - by eexists.
  - mstep. rewrite Hreg.
    destruct (async_get_device registry (DOMAIN, device_id)); [|by eexists].
    unfold _LOGGER_info. mstep.
    destruct (IH (add_log
      (INFO, "\n---- STEP_INIT ----\n -- Device : %s -- %s -- %s") self) Hreg)
      as (self' & -> & H). by exists self'.
Qed.

(** With the entry's hub in place the init step loads the registry and
    the device list, leaves the options alone and goes on to commit the
    submission or to render the selection form. *)
Lemma init_loads hass self hub user_input :
  hub_of hass self = Some hub →
  ∃ self1,
    async_step_init hass user_input self =
      match user_input with
      | Some user_input => async_create_entry (VStr "") user_input
      | None => async_step_device_selection None
      end self1
    ∧ options self1 = options self
    ∧ device_registry self1 = Some (hass_device_registry hass)
    ∧ current_device self1 = current_device self
    ∧ devices_to_configure_ds18b20 self1 = devices_to_configure_ds18b20 self.
Proof.
  unfold hub_of. intros Hhub.
  destruct (hass_data hass !! DOMAIN) as [domain_data|] eqn:Hd; [|done].
  simpl in Hhub. unfold async_step_init.
  rewrite (bind_ok _ _ _ _ _ (getitem_ok _ _ _ _ Hd)). mstep.
  rewrite (bind_ok _ _ _ _ _ (getitem_ok _ _ _ _ Hhub)). do 2 mstep.
  set (self0 := set_device_registry _ _).
  assert (∃ self2, (match devices hub with
                    | Some (x :: l) => modify (set_device_list_ds18b20 (ds18b20_ids (x :: l)))
                    | _ => ret tt
                    end) self0 = (Ok tt, self2)
            ∧ options self2 = options self
            ∧ device_registry self2 = Some (hass_device_registry hass)
            ∧ current_device self2 = current_device self
            ∧ devices_to_configure_ds18b20 self2 = devices_to_configure_ds18b20 self)
    as (self2 & Hm & Ho & Hr & Hc & Hq).
  { destruct (devices hub) as [[|x l]|]; by eexists. }
  rewrite (bind_ok _ _ _ _ _ Hm). unfold _LOGGER_info. do 2 mstep.
  edestruct (log_known_devices_ok (hass_device_registry hass)) as (self3 & Hl & H3);
    [|rewrite (bind_ok _ _ _ _ _ Hl)]; [exact Hr|].
  exists self3. split; [done|].
  destruct H3 as (-> & -> & _ & -> & ->). done.
Qed.

Lemma _get_device_list_with_names_ok self registry :
  device_registry self = Some registry →
  _get_device_list_with_names self
  = (Ok (label_of registry <$> device_list_ds18b20 self), self).
Proof.
  intros Hreg. unfold _get_device_list_with_names. mstep.
  apply map_m_pure. intros id. by apply long_name_with_registry.
Qed.

Lemma _get_current_ds18b20_config_selection_ok self registry :
  device_registry self = Some registry →
  selection_is_loaded (options self) = true →
  ∃ preselected self',
    _get_current_ds18b20_config_selection self = (Ok preselected, self')
    ∧ options self' = options self
    ∧ device_registry self' = Some registry
    ∧ device_list_ds18b20 self' = device_list_ds18b20 self
    ∧ current_device self' = current_device self.
Proof.
  intros Hreg Hsel. unfold _get_current_ds18b20_config_selection, _LOGGER_info.
  do 2 mstep. unfold selection_is_loaded in Hsel.
  destruct (options self !! "ds18b20_device_selection") as [[]|]; try done;
    try (by eexists _, _).
  erewrite bind_ok; [|by eapply _get_device_list_with_names_ok].
  erewrite bind_ok;
    [|apply map_m_pure; intros; apply _get_device_id_from_long_name_eq].
  by eexists _, _.
Qed.

(** Rendering the selection form, once the registry is loaded. *)
Lemma selection_render_ok self registry :
  device_registry self = Some registry →
  selection_is_loaded (options self) = true →
  ∃ sch self',
    async_step_device_selection None self
      = (Ok (ShowForm "device_selection" sch None None), self')
    ∧ options self' = options self
    ∧ device_registry self' = Some registry
    ∧ current_device self' = current_device self.
Proof.
  intros Hreg Hsel. unfold async_step_device_selection.
  destruct (_get_current_ds18b20_config_selection_ok self registry Hreg Hsel)
    as (preselected & self1 & Hpre & Ho & Hreg1 & Hl & Hc).
  rewrite (bind_ok _ _ _ _ _ Hpre).
  rewrite (bind_ok _ _ _ _ _ (_get_device_list_with_names_ok _ _ Hreg1)).
  by eexists _, _.
Qed.

(** A session opened on an entry whose hub is in place reaches the
    selection form with the registry loaded and the options as they
    were stored. *)
Lemma init_renders_selection hass self hub :
  hub_of hass self = Some hub →
  selection_is_loaded (options self) = true →
  ∃ sch self',
    async_step_init hass None self
      = (Ok (ShowForm "device_selection" sch None None), self')
    ∧ options self' = options self
    ∧ device_registry self' = Some (hass_device_registry hass)
    ∧ current_device self' = current_device self.
Proof.
  intros Hhub Hsel.
  destruct (init_loads hass self hub None Hhub) as (self1 & -> & Ho & Hreg & Hc & _).
  destruct (selection_render_ok self1 _ Hreg) as (sch & self' & -> & Ho' & Hreg' & Hc');
    [by rewrite Ho|].
  exists sch, self'. by rewrite Ho', Ho, Hc', Hc.
Qed.

Lemma init_without_hub hass self user_input :
  hub_of hass self = None →
  ∃ key, async_step_init hass user_input self = (Raise (KeyError key), self).
Proof.
  unfold hub_of, async_step_init. intros Hhub.
  destruct (hass_data hass !! DOMAIN) as [domain_data|] eqn:Hd.
  - simpl in Hhub. rewrite (bind_ok _ _ _ _ _ (getitem_ok _ _ _ _ Hd)). mstep.
    rewrite (bind_raise _ _ _ _ _ (getitem_raise _ _ _ Hhub)). by eexists.
  - rewrite (bind_raise _ _ _ _ _ (getitem_raise _ _ _ Hd)). by eexists.
Qed.

(** C9.  A submission handed to the init step is committed as it is:
    whatever the step returns is the entry made of that submission, the
    step does return it once the entry's hub is in place, and the
    options loaded at construction take no part (they stay in the
    handler, untouched). *)
Theorem init_commits_submission hass self (user_input : gmap string value) :
  (∀ r self', async_step_init hass (Some user_input) self = (Ok r, self') →
     r = CreateEntry (VStr "") user_input ∧ persisted r = Some user_input)
  ∧ (∀ hub, hub_of hass self = Some hub →
     ∃ self', async_step_init hass (Some user_input) self
                = (Ok (CreateEntry (VStr "") user_input), self')
       ∧ options self' = options self).
Proof.
  assert (Hret : ∀ hub, hub_of hass self = Some hub →
     ∃ self', async_step_init hass (Some user_input) self
                = (Ok (CreateEntry (VStr "") user_input), self')
       ∧ options self' = options self).
  { intros hub Hhub.
    destruct (init_loads hass self hub (Some user_input) Hhub) as (self1 & -> & Ho & _).
    by exists self1. }
  split; [|exact Hret].
  intros r self' Hrun. destruct (hub_of hass self) as [hub|] eqn:Hhub.
  - destruct (Hret hub eq_refl) as (self'' & Hrun' & _).
    rewrite Hrun' in Hrun. injection Hrun as <- _. done.
  - destruct (init_without_hub hass self (Some user_input) Hhub) as (key & Hrun').
    rewrite Hrun' in Hrun. discriminate Hrun.
Qed.

(** ** Clearing *)

Lemma session_selection hass ui inputs :
  session hass "device_selection" (Some ui) inputs =
    (let* r := async_step_device_selection (Some ui) in
     let* device := gets current_device in
     let* answers := async_configure hass r inputs in
     ret ((r, device) :: answers)).
Proof. done. Qed.

(** C1.  A selection submitted with [clear_device_config] set commits
    the empty record at once, whatever else the submission carries: the
    session consists of that one answer, and no device form is
    rendered. *)
Theorem clear_commits_empty hass self (ui : gmap string value)
    (inputs : list (gmap string value)) :
  ui !! "clear_device_config" = Some (VBool true) →
  selection_is_list ui = true →
  ∃ answers self',
    session hass "device_selection" (Some ui) inputs self = (Ok answers, self')
    ∧ answers = [(CreateEntry (VStr "") ∅, current_device self)]
    ∧ committed answers = Some ∅
    ∧ configured_devices answers = []
    ∧ options self' = ∅.
Proof.
  intros Hclear Hsel. rewrite session_selection.
  destruct (selection_submit_merge self ui Hsel) as (self1 & Hm & Ho & Hc & Hr).
  rewrite (bind_congr _ _ _ _ _ Hm), bind_assoc.
  mstep. rewrite Ho, bind_assoc.
  rewrite (bind_ok _ _ _ _ _
    (getitem_ok _ _ _ _
       (options_in_force_lookup ui self "clear_device_config" _ ltac:(done) Hclear))).
  change (truthy (VBool true)) with true. cbv iota. rewrite bind_assoc. mstep.
  rewrite (bind_ok _ _ _ _ _ (_update_options_eq _)).
  mstep. rewrite (bind_ok _ _ _ _ _ (async_configure_done _ _ _ _ _)).
  eexists _, _. split; [reflexivity|]. simpl. rewrite Hc. done.
Qed.

(** ** Missing keys *)

(** C10.  The submit path of the selection step looks its two keys up
    without a default.  With [clear_device_config] in neither the
    submission nor the loaded options, and with [clear_device_config]
    false and [ds18b20_device_selection] in neither, the step raises
    [KeyError]: it neither commits nor renders a form. *)
Theorem selection_submit_key_errors self (ui : gmap string value) :
  (ui !! "clear_device_config" = None →
   options self !! "clear_device_config" = None →
   selection_is_list ui = true →
   ∃ self', async_step_device_selection (Some ui) self
              = (Raise (KeyError "clear_device_config"), self'))
  ∧ (ui !! "clear_device_config" = Some (VBool false) →
     ui !! "ds18b20_device_selection" = None →
     options self !! "ds18b20_device_selection" = None →
     ∃ self', async_step_device_selection (Some ui) self
                = (Raise (KeyError "ds18b20_device_selection"), self')).
Proof.
  split.
  - intros Hui Ho Hsel.
    destruct (selection_submit_merge self ui Hsel) as (self1 & -> & Ho1 & _).
    mstep. rewrite Ho1. erewrite bind_raise; [by eexists|].
    apply getitem_raise. rewrite options_in_force_lookup_ne by done.
    by apply lookup_union_None_2.
  - intros Hclear Hui Ho.
    assert (Hsel : selection_is_list ui = true)
      by (unfold selection_is_list; by rewrite Hui).
    destruct (selection_submit_merge self ui Hsel) as (self1 & -> & Ho1 & _).
    mstep. rewrite Ho1.
    rewrite (bind_ok _ _ _ _ _
      (getitem_ok _ _ _ _
         (options_in_force_lookup ui self "clear_device_config" _ ltac:(done) Hclear))).
    change (truthy (VBool false)) with false. cbv iota. unfold _LOGGER_info. do 2 mstep.
    change (options (add_log _ self1)) with (options self1). rewrite Ho1.
    erewrite bind_raise; [by eexists|].
    apply getitem_raise. unfold options_in_force.
    apply lookup_union_None_2; [by apply translated_lookup_selection_None|done].
Qed.

(** ** The precision table after a session *)

Lemma record_precisions_table devices :
  ∀ labels opts,
    precision_table (record_precisions opts devices labels)
    = store_choices (precision_table opts) devices labels.
Proof.
  induction devices as [|device devices IH]; intros [|label labels] opts; try done.
  simpl record_precisions. rewrite IH, precision_table_with_precision. done.
Qed.

Lemma record_precisions_lookup_ne devices key :
  key ≠ "sensor_precision" →
  ∀ labels opts, record_precisions opts devices labels !! key = opts !! key.
Proof.
  intros Hne. induction devices as [|device devices IH]; intros [|label labels] opts;
    try done.
  simpl. rewrite IH. by apply with_precision_lookup_ne.
Qed.

Lemma record_precisions_stored devices :
  ∀ labels opts table,
    opts !! "sensor_precision" = Some (VDict table) →
    record_precisions opts devices labels !! "sensor_precision"
    = Some (VDict (precision_table (record_precisions opts devices labels))).
Proof.
  induction devices as [|device devices IH]; intros [|label labels] opts table Ht;
    try (by unfold precision_table; simpl; rewrite Ht).
  simpl. eapply IH. unfold with_precision. apply lookup_insert_eq.
Qed.

Lemma store_choices_dom devices :
  ∀ labels table, length devices = length labels →
    dom (store_choices table devices labels) = dom table ∪ list_to_set devices.
Proof.
  unfold store_choices.
  induction devices as [|device devices IH]; intros [|label labels] table Hlen;
    try done; simpl.
  - by rewrite (right_id_L ∅ (∪)).
  - rewrite IH by (simpl in Hlen; lia).
    by rewrite dom_insert_L, (comm_L (∪) {[device]}), (assoc_L (∪)).
Qed.

Lemma store_choices_other devices device :
  device ∉ devices →
  ∀ labels table, store_choices table devices labels !! device = table !! device.
Proof.
  unfold store_choices.
  induction devices as [|d devices IH]; intros Hnot [|label labels] table; try done.
  apply not_elem_of_cons in Hnot as [Hne Hnot].
  simpl. rewrite IH by done. by apply lookup_insert_ne.
Qed.

Lemma store_choices_lookup devices :
  NoDup devices →
  ∀ labels table i device label,
    devices !! i = Some device → labels !! i = Some label →
    store_choices table devices labels !! device = Some label.
Proof.
  induction 1 as [|d devices Hnot Hnodup IH];
    intros [|l labels] table [|i] device label Hd Hl; try done.
  - injection Hd as ->. injection Hl as ->.
    change (store_choices (<[device := label]> table) devices labels !! device
            = Some label).
    rewrite store_choices_other by done. apply lookup_insert_eq.
  - change (store_choices (<[d := l]> table) devices labels !! device = Some label).
    eapply IH; done.
Qed.

(** ** A whole selection session *)

Lemma committed_cons a b answers :
  committed (a :: b :: answers) = committed (b :: answers).
Proof. done. Qed.

(** A selection submitted without clearing, followed by one choice per
    selected device. *)
Lemma selection_session hass self registry ui v labels inputs choices :
  device_registry self = Some registry →
  ui !! "clear_device_config" = Some v → truthy v = false →
  ui !! "ds18b20_device_selection" = Some (VList labels) →
  precision_is_table (options_in_force ui self) = true →
  Forall2 chooses inputs choices →
  length inputs = length labels →
  ∃ answers self',
    session hass "device_selection" (Some ui) inputs self = (Ok answers, self')
    ∧ configured_devices answers = rev (parsed_id <$> labels)
    ∧ length answers = S (length labels)
    ∧ committed answers =
        Some (record_precisions (options_in_force ui self)
                (rev (parsed_id <$> labels)) choices).
Proof.
  intros Hreg Hclear Hv Hlabels Hp Hch Hlen.
  destruct (selection_submit self registry ui v labels Hreg Hclear Hv Hlabels Hp)
    as [Hmore Hnone].
  rewrite session_selection.
  assert (Hcase : labels = [] ∨ ∃ l x, labels = l ++ [x]).
  { destruct labels using rev_ind; eauto. }
  destruct Hcase as [->|(l & x & ->)].
  - destruct (Hnone eq_refl) as (self' & Hstep & Hc).
    destruct Hch; [|done].
    rewrite (bind_ok _ _ _ _ _ Hstep). mstep.
    rewrite (bind_ok _ _ _ _ _ (async_configure_done _ _ _ _ _)).
    eexists _, _. split; [reflexivity|]. done.
  - rewrite fmap_app in *. simpl fmap in *.
    destruct (Hmore _ _ eq_refl) as (sch & ph & self1 & Hstep & Hc & Hq & Ho & Hreg1).
    rewrite length_app in Hlen. simpl in Hlen.
    destruct (config_loop hass registry (parsed_id <$> l) self1 sch None ph
                inputs choices Hreg1 Hq) as (answers & self' & Hrun & Hdev & Hn & Hcommit);
      [by rewrite Ho|done|rewrite length_fmap; lia|].
    rewrite (bind_ok _ _ _ _ _ Hstep). mstep.
    rewrite (bind_ok _ _ _ _ _ Hrun).
    eexists _, self'. split; [reflexivity|].
    rewrite configured_devices_form, Hdev, Hc, rev_unit.
    split; [done|]. split.
    + simpl. rewrite Hn, length_app, length_fmap. simpl. lia.
    + destruct answers as [|a answers]; [done|].
      rewrite committed_cons, Hcommit, Hc, Ho. done.
Qed.

(** A whole options session: the init step, the selection, then one
    choice per selected device. *)
Lemma options_session hass self hub ui v labels inputs choices :
  hub_of hass self = Some hub →
  selection_is_loaded (options self) = true →
  ui !! "clear_device_config" = Some v → truthy v = false →
  ui !! "ds18b20_device_selection" = Some (VList labels) →
  precision_is_table (options_in_force ui self) = true →
  Forall2 chooses inputs choices →
  length inputs = length labels →
  ∃ answers self',
    session hass "init" None (ui :: inputs) self = (Ok answers, self')
    ∧ configured_devices answers = rev (parsed_id <$> labels)
    ∧ length answers = S (S (length labels))
    ∧ committed answers =
        Some (record_precisions (options_in_force ui self)
                (rev (parsed_id <$> labels)) choices).
Proof.
  intros Hhub Hsel Hclear Hv Hlabels Hp Hch Hlen.
  destruct (init_renders_selection hass self hub Hhub Hsel)
    as (sch & self1 & Hinit & Ho & Hreg & Hc).
  assert (Hin : options_in_force ui self1 = options_in_force ui self)
    by (unfold options_in_force; by rewrite Ho).
  destruct (selection_session hass self1 _ ui v labels inputs choices Hreg Hclear Hv Hlabels)
    as (answers & self' & Hrun & Hdev & Hn & Hcommit); [by rewrite Hin|done..|].
  unfold session. change (async_step hass "init" None) with (async_step_init hass None).
  rewrite (bind_ok _ _ _ _ _ Hinit). mstep. rewrite async_configure_form.
  rewrite session_selection in Hrun. rewrite (bind_ok _ _ _ _ _ Hrun).
  eexists _, self'. split; [reflexivity|].
  split; [exact Hdev|]. split; [simpl; by rewrite Hn|].
  destruct answers as [|a answers]; [done|].
  rewrite committed_cons, Hcommit, Hin. done.
Qed.

Lemma rev_reverse {A} (l : list A) : rev l = reverse l.
Proof. apply rev_alt. Qed.

Lemma precision_in_force ui self :
  ui !! "sensor_precision" = None →
  precision_is_table (options_in_force ui self) = precision_is_table (options self)
  ∧ precision_table (options_in_force ui self) = precision_table (options self).
Proof.
  intros H. unfold precision_is_table, precision_table.
  by rewrite (options_in_force_precision _ _ H).
Qed.

(** C8.  In an options session whose selection is submitted without
    clearing, the device forms are rendered for the selected ids from
    the end of the list to its start: the first form (there is one as
    soon as the selection is not empty) is for the last entry, the whole
    sequence is the selection reversed, and so every entry is visited
    exactly once. *)
Theorem devices_configured_last_first hass self hub
    (ui : gmap string value) (labels : list string)
    (inputs : list (gmap string value)) (choices : list string) :
  hub_of hass self = Some hub →
  selection_is_loaded (options self) = true →
  precision_is_table (options self) = true →
  ui !! "clear_device_config" = Some (VBool false) →
  ui !! "ds18b20_device_selection" = Some (VList labels) →
  ui !! "sensor_precision" = None →
  Forall2 chooses inputs choices →
  length inputs = length labels →
  ∃ answers self',
    session hass "init" None (ui :: inputs) self = (Ok answers, self')
    ∧ configured_devices answers = rev (parsed_id <$> labels)
    ∧ head (configured_devices answers) = last (parsed_id <$> labels)
    ∧ configured_devices answers ≡ₚ parsed_id <$> labels
    ∧ is_Some (committed answers).
Proof.
  intros Hhub Hsel Hp Hclear Hlabels Hsp Hch Hlen.
  destruct (precision_in_force ui self Hsp) as [Hp' _].
  destruct (options_session hass self hub ui (VBool false) labels inputs choices)
    as (answers & self' & Hrun & Hdev & _ & Hcommit); try done.
  { by rewrite Hp'. }
  exists answers, self'. split; [done|]. rewrite Hdev.
  split; [done|]. rewrite rev_reverse. split; [apply head_reverse|].
  split; [apply reverse_Permutation|]. by rewrite Hcommit.
Qed.

(** C3.  In an options session that selects distinct ids without
    clearing, over stored options whose precision table names no other
    device, and then makes one choice per device: as many device forms
    are rendered as ids were selected, and the committed record's
    precision table has exactly one entry per selected id, holding the
    label chosen at the form of that device. *)
Theorem selection_exhaustion hass self hub
    (ui : gmap string value) (labels : list string)
    (inputs : list (gmap string value)) (choices : list string) :
  hub_of hass self = Some hub →
  selection_is_loaded (options self) = true →
  precision_is_table (options self) = true →
  dom (precision_table (options self)) ⊆@{gset string} list_to_set (parsed_id <$> labels) →
  ui !! "clear_device_config" = Some (VBool false) →
  ui !! "ds18b20_device_selection" = Some (VList labels) →
  NoDup (parsed_id <$> labels) →
  ui !! "sensor_precision" = None →
  Forall2 chooses inputs choices →
  length inputs = length labels →
  ∃ answers self' record,
    session hass "init" None (ui :: inputs) self = (Ok answers, self')
    ∧ length (configured_devices answers) = length labels
    ∧ committed answers = Some record
    ∧ size (precision_table record) = length labels
    ∧ dom (precision_table record) =@{gset string} list_to_set (parsed_id <$> labels)
    ∧ (∀ i device label,
         configured_devices answers !! i = Some device →
         choices !! i = Some label →
         precision_table record !! device = Some label)
    ∧ (labels ≠ [] →
       record !! "sensor_precision" = Some (VDict (precision_table record))).
Proof.
  intros Hhub Hsel Hp Hdom Hclear Hlabels Hnodup Hsp Hch Hlen.
  destruct (precision_in_force ui self Hsp) as [Hp' Ht].
  destruct (options_session hass self hub ui (VBool false) labels inputs choices)
    as (answers & self' & Hrun & Hdev & _ & Hcommit); try done.
  { by rewrite Hp'. }
  set (ids := parsed_id <$> labels) in *.
  assert (Hlen' : length (rev ids) = length choices).
  { rewrite length_rev. unfold ids. rewrite length_fmap, <- Hlen.
    by eapply Forall2_length. }
  assert (Hdomr : dom (precision_table
                         (record_precisions (options_in_force ui self) (rev ids) choices))
                  =@{gset string} list_to_set ids).
  { rewrite record_precisions_table, store_choices_dom, Ht by done.
    apply set_eq. intros x.
    rewrite elem_of_union, !elem_of_list_to_set, rev_reverse, elem_of_reverse.
    split; [intros [Hx|Hx]|by right]; [|done].
    apply (elem_of_list_to_set (C:=gset string)). by apply Hdom. }
  eexists answers, self', _. split; [done|]. rewrite Hdev.
  split; [by rewrite length_rev; unfold ids; rewrite length_fmap|].
  split; [done|].
  split. { rewrite <- size_dom, Hdomr, size_list_to_set by done.
           unfold ids. by rewrite length_fmap. }
  split; [done|].
  split.
  - intros i device label Hd Hl. rewrite record_precisions_table.
    eapply store_choices_lookup; [|done..].
    rewrite rev_reverse. by rewrite reverse_Permutation.
  - intros Hne. destruct (rev ids) as [|d ds] eqn:Hrev.
    { apply (f_equal (@rev string)) in Hrev. rewrite rev_involutive in Hrev.
      unfold ids in Hrev. by destruct labels. }
    destruct choices as [|c choices]; [done|]. simpl.
    eapply record_precisions_stored. unfold with_precision. apply lookup_insert_eq.
Qed.

(** ** The statements on the sample installation *)

Lemma init_commits_submission_witness :
  hub_of home (init gateway_entry) = Some hub
  ∧ ∃ self', async_step_init home (Some clear_all) (init gateway_entry)
               = (Ok (CreateEntry (VStr "") clear_all), self')
      ∧ options self' = options (init gateway_entry).
Proof.
  split; [reflexivity|].
  apply (proj2 (init_commits_submission home (init gateway_entry) clear_all) hub).
  reflexivity.
Defined.

Lemma clear_commits_empty_witness :
  clear_all !! "clear_device_config" = Some (VBool true)
  ∧ selection_is_list clear_all = true
  ∧ ∃ answers self',
      session home "device_selection" (Some clear_all) [choose "9 Bits"] ready
        = (Ok answers, self')
      ∧ answers = [(CreateEntry (VStr "") ∅, current_device ready)]
      ∧ committed answers = Some ∅
      ∧ configured_devices answers = []
      ∧ options self' = ∅.
Proof.
  split; [reflexivity|]. split; [reflexivity|].
  apply (clear_commits_empty home ready clear_all [choose "9 Bits"]); reflexivity.
Defined.

Lemma selection_submit_key_errors_witness :
  (∃ self', async_step_device_selection (Some ∅) ready
              = (Raise (KeyError "clear_device_config"), self'))
  ∧ (∃ self', async_step_device_selection
                (Some {[ "clear_device_config" := VBool false ]}) ready
              = (Raise (KeyError "ds18b20_device_selection"), self')).
Proof.
  split.
  - apply (proj1 (selection_submit_key_errors ready ∅)); reflexivity.
  - apply (proj2 (selection_submit_key_errors ready
                    {[ "clear_device_config" := VBool false ]})); reflexivity.
Defined.

Lemma devices_configured_last_first_witness :
  ∃ answers self',
    session home "init" None [select_both; choose "Default"; choose "11 Bits"]
      (init gateway_entry) = (Ok answers, self')
    ∧ configured_devices answers = rev (parsed_id <$> ["Kitchen (28.AAA)"; "28.BBB"])
    ∧ head (configured_devices answers)
      = last (parsed_id <$> ["Kitchen (28.AAA)"; "28.BBB"])
    ∧ configured_devices answers ≡ₚ parsed_id <$> ["Kitchen (28.AAA)"; "28.BBB"]
    ∧ is_Some (committed answers).
Proof.
  apply (devices_configured_last_first home (init gateway_entry) hub select_both
           ["Kitchen (28.AAA)"; "28.BBB"] [choose "Default"; choose "11 Bits"]
           ["Default"; "11 Bits"]);
    try reflexivity.
  repeat constructor.
Defined.

Lemma selection_exhaustion_witness :
  ∃ answers self' record,
    session home "init" None [select_both; choose "Default"; choose "11 Bits"]
      (init gateway_entry) = (Ok answers, self')
    ∧ length (configured_devices answers) = 2%nat
    ∧ committed answers = Some record
    ∧ size (precision_table record) = 2%nat
    ∧ dom (precision_table record)
      =@{gset string} list_to_set (parsed_id <$> ["Kitchen (28.AAA)"; "28.BBB"])
    ∧ (∀ i device label,
         configured_devices answers !! i = Some device →
         ["Default"; "11 Bits"] !! i = Some label →
         precision_table record !! device = Some label)
    ∧ (["Kitchen (28.AAA)"; "28.BBB"] ≠ [] →
       record !! "sensor_precision" = Some (VDict (precision_table record))).
Proof.
  apply (selection_exhaustion home (init gateway_entry) hub select_both
           ["Kitchen (28.AAA)"; "28.BBB"] [choose "Default"; choose "11 Bits"]
           ["Default"; "11 Bits"]);
    try reflexivity.
  - apply (bool_decide_unpack _). vm_compute. exact I.
  - apply (bool_decide_unpack _). vm_compute. exact I.
  - repeat constructor.
Defined.

(** The scenario of the specification: with [28.AAA] and [28.BBB]
    selected, the form of [28.BBB] comes first; choosing [Default] there
    and [11 Bits] for [28.AAA] commits both. *)
Example two_sensor_scenario :
  match fst (session home "init" None
               [select_both; choose "Default"; choose "11 Bits"]
               (init gateway_entry)) with
  | Ok answers =>
      configured_devices answers = ["28.BBB"; "28.AAA"]
      ∧ committed answers =
          Some (<["sensor_precision" :=
                   VDict {[ "28.AAA" := "11 Bits"; "28.BBB" := "Default" ]}]>
                  {[ "clear_device_config" := VBool false;
                     "ds18b20_device_selection" := VList ["28.AAA"; "28.BBB"] ]})
  | Raise _ => False
  end.
Proof. vm_compute. split; reflexivity. Qed.

End OptionsFacts.

(* ================================================================== *)
(** * The setup wizard, step by step *)
(* ================================================================== *)

Module SetupFacts.
Import Setup SetupSpec Samples.

Lemma entry_matches_owserver entry host port :
  entry_matches (owserver_match host port) entry = true ↔
  entry_data entry !! CONF_TYPE = Some (VStr CONF_TYPE_OWSERVER)
  ∧ entry_data entry !! CONF_HOST = Some host
  ∧ entry_data entry !! CONF_PORT = Some port.
Proof.
  unfold entry_matches, owserver_match. rewrite bool_decide_eq_true.
  rewrite !map_Forall_insert, map_Forall_singleton by done.
  done.
Qed.

Lemma abort_entries_match_configured hass host port self :
  owserver_configured hass host port →
  _async_abort_entries_match hass (owserver_match host port) self
  = (Raise (AbortFlow "already_configured"), self).
Proof.
  intros (entry & Hin & Hdata). unfold _async_abort_entries_match.
  replace (existsb _ _) with true; [done|].
  symmetry. apply existsb_exists. exists entry.
  split; [by apply list_elem_of_In|by apply entry_matches_owserver].
Qed.

Lemma abort_entries_match_fresh hass host port self :
  ¬ owserver_configured hass host port →
  _async_abort_entries_match hass (owserver_match host port) self = (Ok tt, self).
Proof.
  intros Hnot. unfold _async_abort_entries_match.
  destruct (existsb _ _) eqn:Hex; [|done]. exfalso. apply Hnot.
  apply existsb_exists in Hex as (entry & Hin & Hm).
  exists entry. split; [by apply list_elem_of_In|by apply entry_matches_owserver].
Qed.

Lemma owserver_submit hass self ui host port :
  ui !! CONF_HOST = Some host → ui !! CONF_PORT = Some port →
  async_step_owserver hass (Some ui) self =
    (let* errors :=
       _async_abort_entries_match hass (owserver_match host port) >>
       modify (set_onewire_config (λ c, ui ∪ c)) >>
       try_except
         (let* info := validate_input_owserver hass ui in ret (inl info))
         CannotConnect
         (ret (inr ({[ "base" := "cannot_connect" ]} : gmap string string))) in
     match errors with
     | inl info =>
         let* title := getitem info "title" in
         let* data := gets onewire_config in
         async_create_entry title data
     | inr errors => async_show_form "owserver" DATA_SCHEMA_OWSERVER errors
     end) self.
Proof.
  intros Hhost Hport. unfold async_step_owserver, submitted.
  rewrite bool_decide_eq_false_2 by (intros ->; by rewrite lookup_empty in Hhost).
  apply bind_congr. rewrite (bind_ok _ _ _ _ _ (getitem_ok _ _ _ _ Hhost)).
  rewrite (bind_ok _ _ _ _ _ (getitem_ok _ _ _ _ Hport)). done.
Qed.

Lemma validate_input_owserver_eq hass ui host port self :
  ui !! CONF_HOST = Some host → ui !! CONF_PORT = Some port →
  validate_input_owserver hass ui self =
    (if owserver_reachable hass host port
     then Ok ({[ "title" := host ]} : gmap string value)
     else Raise CannotConnect,
     record_call (Connect host port) self).
Proof.
  intros Hhost Hport. unfold validate_input_owserver, connect.
  rewrite (bind_ok _ _ _ _ _ (getitem_ok _ _ _ _ Hhost)).
  rewrite (bind_ok _ _ _ _ _ (getitem_ok _ _ _ _ Hport)).
  rewrite bind_assoc. mstep. by destruct (owserver_reachable hass host port).
Qed.

(** The gateway step on a submission that is no duplicate. *)
Lemma owserver_fresh hass self ui host port :
  ui !! CONF_HOST = Some host → ui !! CONF_PORT = Some port →
  ¬ owserver_configured hass host port →
  async_step_owserver hass (Some ui) self =
    (Ok (if owserver_reachable hass host port
         then CreateEntry host (ui ∪ onewire_config self)
         else ShowForm "owserver" DATA_SCHEMA_OWSERVER
                (Some {[ "base" := "cannot_connect" ]}) None),
     record_call (Connect host port) (set_onewire_config (λ c, ui ∪ c) self)).
Proof.
  intros Hhost Hport Hfresh. rewrite (owserver_submit _ _ _ _ _ Hhost Hport).
  rewrite !bind_assoc.
  rewrite (bind_ok _ _ _ _ _ (abort_entries_match_fresh _ _ _ _ Hfresh)).
  rewrite bind_assoc. mstep. unfold bind at 1, try_except.
  rewrite (bind_congr _ _ _ _ _ (validate_input_owserver_eq _ _ _ _ _ Hhost Hport)).
  unfold bind at 1.
  destruct (owserver_reachable hass host port); [|by rewrite decide_True].
  simpl. rewrite (bind_ok _ _ _ _ _ (getitem_ok _ _ _ _ (lookup_singleton_eq _ _))).
  done.
Qed.

Lemma owserver_duplicate hass self ui host port :
  ui !! CONF_HOST = Some host → ui !! CONF_PORT = Some port →
  owserver_configured hass host port →
  async_step_owserver hass (Some ui) self
  = (Raise (AbortFlow "already_configured"), self).
Proof.
  intros Hhost Hport Hdup. rewrite (owserver_submit _ _ _ _ _ Hhost Hport).
  rewrite !bind_assoc.
  by rewrite (bind_raise _ _ _ _ _ (abort_entries_match_configured _ _ _ _ Hdup)).
Qed.

(** C6, as amended.  When the hub cannot be reached the gateway step
    renders its form again with the error [cannot_connect]; the form is
    the fixed schema, which offers [localhost] and [4304]; the values
    the user entered are kept in the pending configuration only. *)
Theorem owserver_cannot_connect hass self (ui : gmap string value) host port :
  ui !! CONF_HOST = Some host → ui !! CONF_PORT = Some port →
  ¬ owserver_configured hass host port →
  owserver_reachable hass host port = false →
  ∃ r self',
    async_step_owserver hass (Some ui) self = (Ok r, self')
    ∧ r = ShowForm "owserver" DATA_SCHEMA_OWSERVER
            (Some {[ "base" := "cannot_connect" ]}) None
    ∧ form_offers r CONF_HOST = Some (VStr DEFAULT_OWSERVER_HOST)
    ∧ form_offers r CONF_PORT = Some (VInt DEFAULT_OWSERVER_PORT)
    ∧ onewire_config self' !! CONF_HOST = Some host
    ∧ onewire_config self' !! CONF_PORT = Some port
    ∧ hub_calls self' = hub_calls self ++ [Connect host port].
Proof.
  intros Hhost Hport Hfresh Hdown.
  rewrite (owserver_fresh _ _ _ _ _ Hhost Hport Hfresh), Hdown.
  eexists _, _. split; [reflexivity|]. split; [done|].
  split; [done|]. split; [done|]. simpl.
  split; [by apply lookup_union_Some_l|]. split; [by apply lookup_union_Some_l|done].
Qed.

(** ** The filesystem step *)

Lemma mount_dir_submit hass self ui mount_dir :
  ui !! CONF_MOUNT_DIR = Some (VStr mount_dir) →
  async_step_mount_dir hass (Some ui) self =
    (let* errors :=
       _abort_if_unique_id_configured hass >>
       modify (set_onewire_config (λ c, ui ∪ c)) >>
       try_except
         (let* info := validate_input_mount_dir hass ui in ret (inl info))
         InvalidPath
         (ret (inr ({[ "base" := "invalid_path" ]} : gmap string string))) in
     match errors with
     | inl info =>
         let* title := getitem info "title" in
         let* data := gets onewire_config in
         async_create_entry title data
     | inr errors => async_show_form "mount_dir" DATA_SCHEMA_MOUNTDIR errors
     end) (set_unique_id (Some (sysbus_id mount_dir)) self).
Proof.
  intros Hdir. unfold async_step_mount_dir, submitted.
  rewrite bool_decide_eq_false_2 by (intros ->; by rewrite lookup_empty in Hdir).
  apply bind_congr. rewrite (bind_ok _ _ _ _ _ (getitem_ok _ _ _ _ Hdir)).
  unfold sysbus_unique_id, async_set_unique_id. by do 2 mstep.
Qed.

Lemma existsb_eq {A} (f g : A → bool) l :
  (∀ x, f x = g x) → existsb f l = existsb g l.
Proof. intros H. induction l as [|x l IH]; simpl; [done|]. by rewrite H, IH. Qed.

Lemma abort_if_unique_id_configured_eq hass self u :
  unique_id self = Some u →
  _abort_if_unique_id_configured hass self =
    (if existsb (λ e, bool_decide (entry_unique_id e = Some u)) (hass_config_entries hass)
     then Raise (AbortFlow "already_configured") else Ok tt, self).
Proof.
  intros Hu. unfold _abort_if_unique_id_configured. mstep. rewrite Hu.
  rewrite (existsb_eq _ (λ e, bool_decide (entry_unique_id e = Some u))).
  - by destruct (existsb _ _).
  - intros e. apply bool_decide_ext. split; [by intros []|done].
Qed.

Lemma unique_id_configured hass mount_dir :
  existsb (λ e, bool_decide (entry_unique_id e = Some (sysbus_id mount_dir)))
    (hass_config_entries hass) = true
  ↔ mount_dir_configured hass mount_dir.
Proof.
  rewrite existsb_exists. unfold mount_dir_configured.
  split; intros (entry & Hin & Hu); exists entry.
  - split; [by apply list_elem_of_In|by apply bool_decide_eq_true in Hu].
  - split; [by apply list_elem_of_In|by apply bool_decide_eq_true].
Qed.

Lemma mount_dir_duplicate hass self ui mount_dir :
  ui !! CONF_MOUNT_DIR = Some (VStr mount_dir) →
  mount_dir_configured hass mount_dir →
  async_step_mount_dir hass (Some ui) self
  = (Raise (AbortFlow "already_configured"),
     set_unique_id (Some (sysbus_id mount_dir)) self).
Proof.
  intros Hdir Hdup. rewrite (mount_dir_submit _ _ _ _ Hdir), !bind_assoc.
  erewrite bind_raise; [done|].
  rewrite (abort_if_unique_id_configured_eq _ _ (sysbus_id mount_dir)) by done.
  apply unique_id_configured in Hdup. by rewrite Hdup.
Qed.

Lemma validate_input_mount_dir_eq hass ui mount_dir self :
  ui !! CONF_MOUNT_DIR = Some mount_dir →
  validate_input_mount_dir hass ui self =
    (if mount_dir_valid hass mount_dir
     then Ok ({[ "title" := mount_dir ]} : gmap string value)
     else Raise InvalidPath,
     record_call (CheckMountDir mount_dir) self).
Proof.
  intros Hdir. unfold validate_input_mount_dir, check_mount_dir.
  rewrite (bind_ok _ _ _ _ _ (getitem_ok _ _ _ _ Hdir)).
  rewrite bind_assoc. mstep. by destruct (mount_dir_valid hass mount_dir).
Qed.

Lemma mount_dir_fresh hass self ui mount_dir :
  ui !! CONF_MOUNT_DIR = Some (VStr mount_dir) →
  ¬ mount_dir_configured hass mount_dir →
  async_step_mount_dir hass (Some ui) self =
    (Ok (if mount_dir_valid hass (VStr mount_dir)
         then CreateEntry (VStr mount_dir) (ui ∪ onewire_config self)
         else ShowForm "mount_dir" DATA_SCHEMA_MOUNTDIR
                (Some {[ "base" := "invalid_path" ]}) None),
     record_call (CheckMountDir (VStr mount_dir))
       (set_onewire_config (λ c, ui ∪ c)
          (set_unique_id (Some (sysbus_id mount_dir)) self))).
Proof.
  intros Hdir Hfresh. rewrite (mount_dir_submit _ _ _ _ Hdir), !bind_assoc.
  erewrite bind_ok; cycle 1.
  { rewrite (abort_if_unique_id_configured_eq _ _ (sysbus_id mount_dir)) by done.
    destruct (existsb _ _) eqn:Hex; [|done].
    by apply unique_id_configured in Hex. }
  rewrite bind_assoc. mstep. unfold bind at 1, try_except.
  rewrite (bind_congr _ _ _ _ _ (validate_input_mount_dir_eq _ _ _ _ Hdir)).
  unfold bind at 1.
  destruct (mount_dir_valid hass (VStr mount_dir)); [|by rewrite decide_True].
  simpl. rewrite (bind_ok _ _ _ _ _ (getitem_ok _ _ _ _ (lookup_singleton_eq _ _))).
  done.
Qed.

(** ** What it takes for a step to finish *)

Lemma owserver_configured_existsb hass host port :
  existsb (entry_matches (owserver_match host port)) (hass_config_entries hass) = true
  ↔ owserver_configured hass host port.
Proof.
  rewrite existsb_exists. unfold owserver_configured.
  split; intros (entry & Hin & Hm); exists entry.
  - split; [by apply list_elem_of_In|by apply entry_matches_owserver].
  - split; [by apply list_elem_of_In|by apply entry_matches_owserver].
Qed.

Lemma owserver_configured_dec hass host port :
  owserver_configured hass host port ∨ ¬ owserver_configured hass host port.
Proof.
  destruct (existsb (entry_matches (owserver_match host port))
              (hass_config_entries hass)) eqn:Hex.
  - left. by apply owserver_configured_existsb.
  - right. intros H. apply owserver_configured_existsb in H. congruence.
Qed.

Lemma mount_dir_configured_dec hass mount_dir :
  mount_dir_configured hass mount_dir ∨ ¬ mount_dir_configured hass mount_dir.
Proof.
  destruct (existsb (λ e, bool_decide (entry_unique_id e = Some (sysbus_id mount_dir)))
              (hass_config_entries hass)) eqn:Hex.
  - left. by apply unique_id_configured.
  - right. intros H. apply unique_id_configured in H. congruence.
Qed.

(** A step given nothing, or an empty submission, renders its form. *)
Lemma owserver_unsubmitted hass self user_input :
  submitted user_input = None →
  async_step_owserver hass user_input self
  = (Ok (ShowForm "owserver" DATA_SCHEMA_OWSERVER (Some ∅) None), self).
Proof. intros H. unfold async_step_owserver. by rewrite H. Qed.

Lemma mount_dir_unsubmitted hass self user_input :
  submitted user_input = None →
  async_step_mount_dir hass user_input self
  = (Ok (ShowForm "mount_dir" DATA_SCHEMA_MOUNTDIR (Some ∅) None), self).
Proof. intros H. unfold async_step_mount_dir. by rewrite H. Qed.

Lemma submitted_Some ui : ui ≠ ∅ → submitted (Some ui) = Some ui.
Proof. intros H. unfold submitted. by rewrite bool_decide_eq_false_2. Qed.

Lemma owserver_creates hass self ui title data self' :
  async_step_owserver hass (Some ui) self = (Ok (CreateEntry title data), self') →
  ∃ host port,
    ui !! CONF_HOST = Some host ∧ ui !! CONF_PORT = Some port
    ∧ data = ui ∪ onewire_config self.
Proof.
  intros Hrun. destruct (decide (ui = ∅)) as [->|Hne].
  { rewrite owserver_unsubmitted in Hrun; [done|].
    unfold submitted. by rewrite bool_decide_eq_true_2. }
  destruct (ui !! CONF_HOST) as [host|] eqn:Hhost; cycle 1.
  { unfold async_step_owserver in Hrun. rewrite (submitted_Some _ Hne) in Hrun.
    rewrite !bind_assoc in Hrun.
    by rewrite (bind_raise _ _ _ _ _ (getitem_raise _ _ _ Hhost)) in Hrun. }
  destruct (ui !! CONF_PORT) as [port|] eqn:Hport; cycle 1.
  { unfold async_step_owserver in Hrun. rewrite (submitted_Some _ Hne) in Hrun.
    rewrite !bind_assoc in Hrun.
    rewrite (bind_ok _ _ _ _ _ (getitem_ok _ _ _ _ Hhost)) in Hrun.
    rewrite bind_assoc in Hrun.
    by rewrite (bind_raise _ _ _ _ _ (getitem_raise _ _ _ Hport)) in Hrun. }
  exists host, port. split; [done|]. split; [done|].
  destruct (owserver_configured_dec hass host port) as [Hdup|Hfresh].
  - by rewrite (owserver_duplicate _ _ _ _ _ Hhost Hport Hdup) in Hrun.
  - rewrite (owserver_fresh _ _ _ _ _ Hhost Hport Hfresh) in Hrun.
    destruct (owserver_reachable hass host port); [|done].
    by injection Hrun as _ <- _.
Qed.

Lemma mount_dir_creates hass self ui title data self' :
  async_step_mount_dir hass (Some ui) self = (Ok (CreateEntry title data), self') →
  ∃ mount_dir,
    ui !! CONF_MOUNT_DIR = Some (VStr mount_dir)
    ∧ unique_id self' = Some (sysbus_id mount_dir).
Proof.
  intros Hrun. destruct (decide (ui = ∅)) as [->|Hne].
  { rewrite mount_dir_unsubmitted in Hrun; [done|].
    unfold submitted. by rewrite bool_decide_eq_true_2. }
  destruct (ui !! CONF_MOUNT_DIR) as [v|] eqn:Hdir; cycle 1.
  { unfold async_step_mount_dir in Hrun. rewrite (submitted_Some _ Hne) in Hrun.
    rewrite !bind_assoc in Hrun.
    by rewrite (bind_raise _ _ _ _ _ (getitem_raise _ _ _ Hdir)) in Hrun. }
  assert (Hstr : (∃ mount_dir, v = VStr mount_dir)
                 ∨ sysbus_unique_id v self = (Raise (IllTyped CONF_MOUNT_DIR), self)).
  { destruct v; eauto. }
  destruct Hstr as [[mount_dir ->]|Hill]; cycle 1.
  { unfold async_step_mount_dir in Hrun. rewrite (submitted_Some _ Hne) in Hrun.
    rewrite !bind_assoc in Hrun.
    rewrite (bind_ok _ _ _ _ _ (getitem_ok _ _ _ _ Hdir)) in Hrun.
    rewrite bind_assoc in Hrun.
    by rewrite (bind_raise _ _ _ _ _ Hill) in Hrun. }
  exists mount_dir. split; [done|].
  destruct (mount_dir_configured_dec hass mount_dir) as [Hdup|Hfresh].
  - by rewrite (mount_dir_duplicate _ _ _ _ Hdir Hdup) in Hrun.
  - rewrite (mount_dir_fresh _ _ _ _ Hdir Hfresh) in Hrun.
    by injection Hrun as _ <-.
Qed.

(** ** The transport step *)

Lemma user_submit hass self ui type :
  ui !! CONF_TYPE = Some type →
  async_step_user hass (Some ui) self =
    (Ok (ShowForm (chosen_step type) (chosen_schema type) (Some ∅) None),
     set_onewire_config (λ c, ui ∪ c) self).
Proof.
  intros Htype. unfold async_step_user, chosen_step, chosen_schema. mstep.
  rewrite (bind_ok _ _ _ _ _ (getitem_ok _ _ _ _ Htype)).
  destruct (bool_decide (type = VStr CONF_TYPE_OWSERVER)).
  { by rewrite owserver_unsubmitted. }
  rewrite (bind_ok _ _ _ _ _ (getitem_ok _ _ _ _ Htype)).
  destruct (bool_decide (type = VStr CONF_TYPE_SYSBUS)).
  { by rewrite mount_dir_unsubmitted. }
  done.
Qed.

Lemma user_submit_untyped hass self ui :
  ui !! CONF_TYPE = None →
  async_step_user hass (Some ui) self =
    (Raise (KeyError CONF_TYPE), set_onewire_config (λ c, ui ∪ c) self).
Proof.
  intros Htype. unfold async_step_user. mstep.
  by rewrite (bind_raise _ _ _ _ _ (getitem_raise _ _ _ Htype)).
Qed.

(** The transport step never finishes the wizard by itself. *)
Lemma user_never_creates hass self user_input title data self' :
  async_step_user hass user_input self ≠ (Ok (CreateEntry title data), self').
Proof.
  destruct user_input as [ui|]; [|done].
  destruct (ui !! CONF_TYPE) as [type|] eqn:Htype.
  - by rewrite (user_submit hass self ui type Htype).
  - by rewrite user_submit_untyped.
Qed.

(** ** Two sessions with the same parameters *)

(** A session of two submissions: the transport, then its parameters. *)
Lemma session_two hass type_ui ui type :
  type_ui !! CONF_TYPE = Some type →
  session hass [type_ui; ui] init =
    (let* r := async_step hass (chosen_step type) (Some ui) in
     ret [user_form; chosen_form type; r])
      (set_onewire_config (λ c, type_ui ∪ c) init).
Proof.
  intros Htype. unfold session.
  change (async_step hass "user" None) with (async_step_user hass None).
  unfold async_step_user at 1, async_show_form at 1. mstep.
  change (async_configure hass ?r (type_ui :: ?l)) with
    (let* r' := async_step_user hass (Some type_ui) in
     let* answers := async_configure hass r' l in
     ret (r' :: answers)).
  rewrite bind_assoc, (bind_ok _ _ _ _ _ (user_submit _ _ _ _ Htype)).
  change (async_configure hass (ShowForm ?step ?sch ?e ?ph) [ui]) with
    (let* r' := async_step hass step (Some ui) in
     let* answers := async_configure hass r' [] in
     ret (r' :: answers)).
  rewrite !bind_assoc. apply bind_congr_k. intros r s.
  rewrite bind_assoc. by destruct r.
Qed.

Lemma session_untyped hass type_ui ui :
  type_ui !! CONF_TYPE = None →
  ∃ e flow, session hass [type_ui; ui] init = (Raise e, flow).
Proof.
  intros Htype. unfold session.
  change (async_step hass "user" None) with (async_step_user hass None).
  unfold async_step_user at 1, async_show_form at 1. mstep.
  change (async_configure hass ?r (type_ui :: ?l)) with
    (let* r' := async_step_user hass (Some type_ui) in
     let* answers := async_configure hass r' l in
     ret (r' :: answers)).
  rewrite bind_assoc, (bind_raise _ _ _ _ _ (user_submit_untyped _ _ _ Htype)).
  by eexists _, _.
Qed.

Lemma persist_entries hass new_id title data flow :
  hass_config_entries (persist hass new_id (CreateEntry title data) flow)
  = hass_config_entries hass ++
    [{| entry_id := new_id; entry_data := data; entry_options := ∅;
        entry_unique_id := unique_id flow |}].
Proof. done. Qed.

(** Once a session has finished, the same two submissions are rejected
    as a duplicate, and the hub is not called. *)
Lemma second_session_rejected hass type_ui ui answers flow title data new_id :
  session hass [type_ui; ui] init = (Ok answers, flow) →
  last answers = Some (CreateEntry title data) →
  ui !! CONF_TYPE = None →
  ∃ flow',
    session (persist hass new_id (CreateEntry title data) flow) [type_ui; ui] init
    = (Raise (AbortFlow "already_configured"), flow')
    ∧ hub_calls flow' = [].
Proof.
  intros Hrun Hlast Hui.
  destruct (type_ui !! CONF_TYPE) as [type|] eqn:Htype; cycle 1.
  { destruct (session_untyped hass type_ui ui Htype) as (e & f & Hr). congruence. }
  rewrite (session_two hass _ _ _ Htype) in Hrun.
  rewrite (session_two (persist _ _ _ _) _ _ _ Htype).
  set (self1 := set_onewire_config (λ c, type_ui ∪ c) init) in *.
  unfold bind in Hrun.
  destruct (async_step hass (chosen_step type) (Some ui) self1) as [[r|e] self2] eqn:Hstep;
    [|done].
  injection Hrun as <- <-. injection Hlast as ->.
  unfold chosen_step in *.
  case_bool_decide as Hgw; [|case_bool_decide as Hfs].
  - change (async_step ?h "owserver") with (async_step_owserver h) in *.
    destruct (owserver_creates _ _ _ _ _ _ Hstep) as (host & port & Hhost & Hport & ->).
    exists self1. split; [|done]. apply bind_raise.
    apply (owserver_duplicate _ _ _ host port); [done..|].
    eexists. rewrite persist_entries. split; [apply elem_of_app; right; apply list_elem_of_singleton; reflexivity|].
    simpl. split; [|by split; apply lookup_union_Some_l].
    rewrite lookup_union_r by done. apply lookup_union_Some_l. by rewrite Htype, Hgw.
  - change (async_step ?h "mount_dir") with (async_step_mount_dir h) in *.
    destruct (mount_dir_creates _ _ _ _ _ _ Hstep) as (mount_dir & Hdir & Hid).
    exists (set_unique_id (Some (sysbus_id mount_dir)) self1). split; [|done].
    apply bind_raise.
    apply (mount_dir_duplicate _ _ _ mount_dir); [done|].
    eexists. rewrite persist_entries. split; [apply elem_of_app; right; apply list_elem_of_singleton; reflexivity|].
    done.
  - change (async_step ?h "user") with (async_step_user h) in *.
    by apply user_never_creates in Hstep.
Qed.

(** C2.  A gateway submission that matches a persisted gateway entry on
    transport, host and port, and a filesystem submission whose mount
    directory has the identity of a persisted entry, abort as
    [already_configured] with no call to the hub; hence, once a session
    has finished, a second session with the same submissions is
    rejected before any call to the hub. *)
Theorem duplicate_rejected_before_validation hass :
  (∀ self (ui : gmap string value) host port,
     ui !! CONF_HOST = Some host → ui !! CONF_PORT = Some port →
     owserver_configured hass host port →
     ∃ self',
       async_step_owserver hass (Some ui) self
       = (Raise (AbortFlow "already_configured"), self')
       ∧ hub_calls self' = hub_calls self)
  ∧ (∀ self (ui : gmap string value) mount_dir,
       ui !! CONF_MOUNT_DIR = Some (VStr mount_dir) →
       mount_dir_configured hass mount_dir →
       ∃ self',
         async_step_mount_dir hass (Some ui) self
         = (Raise (AbortFlow "already_configured"), self')
         ∧ hub_calls self' = hub_calls self)
  ∧ (∀ (type_ui ui : gmap string value) answers flow title data new_id,
       session hass [type_ui; ui] init = (Ok answers, flow) →
       last answers = Some (CreateEntry title data) →
       ui !! CONF_TYPE = None →
       ∃ flow',
         session (persist hass new_id (CreateEntry title data) flow) [type_ui; ui] init
         = (Raise (AbortFlow "already_configured"), flow')
         ∧ hub_calls flow' = []).
Proof.
  split; [|split].
  - intros self ui host port Hhost Hport Hdup.
    rewrite (owserver_duplicate _ _ _ _ _ Hhost Hport Hdup). by eexists.
  - intros self ui mount_dir Hdir Hdup.
    rewrite (mount_dir_duplicate _ _ _ _ Hdir Hdup). by eexists.
  - apply second_session_rejected.
Qed.

(** ** The statements on the sample installations *)

(** C6, as the specification has it, fails: the form rendered after a
    failed connection offers the fixed defaults, not the host and port
    the user entered. *)
Lemma owserver_form_keeps_input_counterexample :
  ¬ (∀ hass self (ui : gmap string value) host port,
       ui !! CONF_HOST = Some host → ui !! CONF_PORT = Some port →
       ¬ owserver_configured hass host port →
       owserver_reachable hass host port = false →
       ∃ r self',
         async_step_owserver hass (Some ui) self = (Ok r, self')
         ∧ rendered_step r = Some "owserver"
         ∧ form_errors r = Some {[ "base" := "cannot_connect" ]}
         ∧ form_offers r CONF_HOST = Some host
         ∧ form_offers r CONF_PORT = Some port).
Proof.
  intros H.
  destruct (H offline_home init (gateway_params "example.org" 1234)
              (VStr "example.org") (VInt 1234))
    as (r & self' & Hrun & _ & _ & Hhost & _); try reflexivity.
  { intros (entry & Hin & _). by apply elem_of_nil in Hin. }
  vm_compute in Hrun. injection Hrun as <- _.
  vm_compute in Hhost. discriminate Hhost.
Qed.

Lemma owserver_cannot_connect_witness :
  ∃ r self',
    async_step_owserver offline_home (Some (gateway_params "example.org" 1234)) init
      = (Ok r, self')
    ∧ r = ShowForm "owserver" DATA_SCHEMA_OWSERVER
            (Some {[ "base" := "cannot_connect" ]}) None
    ∧ form_offers r CONF_HOST = Some (VStr DEFAULT_OWSERVER_HOST)
    ∧ form_offers r CONF_PORT = Some (VInt DEFAULT_OWSERVER_PORT)
    ∧ onewire_config self' !! CONF_HOST = Some (VStr "example.org")
    ∧ onewire_config self' !! CONF_PORT = Some (VInt 1234)
    ∧ hub_calls self' = hub_calls init ++ [Connect (VStr "example.org") (VInt 1234)].
Proof.
  apply (owserver_cannot_connect offline_home init (gateway_params "example.org" 1234)
           (VStr "example.org") (VInt 1234)); try reflexivity.
  intros (entry & Hin & _). by apply elem_of_nil in Hin.
Defined.

Lemma duplicate_rejected_before_validation_witness :
  (∃ self',
     async_step_owserver home (Some (gateway_params "localhost" 4304)) init
     = (Raise (AbortFlow "already_configured"), self')
     ∧ hub_calls self' = hub_calls init)
  ∧ (∃ self',
       async_step_mount_dir home
         (Some {[ CONF_MOUNT_DIR := VStr DEFAULT_SYSBUS_MOUNT_DIR ]}) init
       = (Raise (AbortFlow "already_configured"), self')
       ∧ hub_calls self' = hub_calls init)
  ∧ (∃ flow',
       session
         (persist fresh_home "e1"
            (CreateEntry (VStr "localhost")
               (gateway_params "localhost" 4304 ∪ (transport CONF_TYPE_OWSERVER ∪ ∅)))
            (record_call (Connect (VStr "localhost") (VInt 4304))
               (set_onewire_config (λ c, gateway_params "localhost" 4304 ∪ c)
                  (set_onewire_config (λ c, transport CONF_TYPE_OWSERVER ∪ c) init))))
         [transport CONF_TYPE_OWSERVER; gateway_params "localhost" 4304] init
       = (Raise (AbortFlow "already_configured"), flow')
       ∧ hub_calls flow' = []).
Proof.
  split; [|split].
  - apply (proj1 (duplicate_rejected_before_validation home) init
             (gateway_params "localhost" 4304) (VStr "localhost") (VInt 4304));
      try reflexivity.
    exists gateway_entry. split; [apply list_elem_of_here|]. by vm_compute.
  - apply (proj1 (proj2 (duplicate_rejected_before_validation home)) init
             {[ CONF_MOUNT_DIR := VStr DEFAULT_SYSBUS_MOUNT_DIR ]}
             DEFAULT_SYSBUS_MOUNT_DIR);
      try reflexivity.
    exists sysbus_entry. split; [apply list_elem_of_further, list_elem_of_here|].
    reflexivity.
  - eapply (proj2 (proj2 (duplicate_rejected_before_validation fresh_home))
             (transport CONF_TYPE_OWSERVER) (gateway_params "localhost" 4304));
      reflexivity.
Defined.

(** The scenario of the specification: with an entry for
    [localhost:4304] in place, the same submission is rejected and
    [connect] is not called. *)
Example duplicate_gateway_scenario :
  async_step_owserver home (Some (gateway_params "localhost" 4304)) init
  = (Raise (AbortFlow "already_configured"), init).
Proof. vm_compute. reflexivity. Qed.

End SetupFacts.

(* ================================================================== *)
(** * More on the setup wizard *)
(* ================================================================== *)

Module SetupMore.
Import Setup SetupSpec SetupFacts Samples MoreSpec.

(** ** The gateway step *)

(** A gateway submission that is no duplicate and reaches the hub
    finishes the wizard: the entry is titled with the host, its data is
    the submission laid over the pending configuration, and the hub was
    called once, with the submitted host and port. *)
Theorem owserver_success hass self (ui : gmap string value) host port :
  ui !! CONF_HOST = Some host → ui !! CONF_PORT = Some port →
  ¬ owserver_configured hass host port →
  owserver_reachable hass host port = true →
  ∃ self',
    async_step_owserver hass (Some ui) self
      = (Ok (CreateEntry host (ui ∪ onewire_config self)), self')
    ∧ onewire_config self' = ui ∪ onewire_config self
    ∧ unique_id self' = unique_id self
    ∧ hub_calls self' = hub_calls self ++ [Connect host port].
Proof.
  intros Hhost Hport Hfresh Hup.
  rewrite (owserver_fresh _ _ _ _ _ Hhost Hport Hfresh), Hup. by eexists.
Qed.

Lemma owserver_success_witness :
  ∃ self',
    async_step_owserver fresh_home (Some (gateway_params "example.org" 1234)) init
      = (Ok (CreateEntry (VStr "example.org")
               (gateway_params "example.org" 1234 ∪ onewire_config init)), self')
    ∧ onewire_config self' = gateway_params "example.org" 1234 ∪ onewire_config init
    ∧ unique_id self' = unique_id init
    ∧ hub_calls self' = hub_calls init ++ [Connect (VStr "example.org") (VInt 1234)].
Proof.
  apply (owserver_success fresh_home init (gateway_params "example.org" 1234)
           (VStr "example.org") (VInt 1234)); try reflexivity.
  intros (entry & Hin & _). by apply elem_of_nil in Hin.
Defined.

(** A gateway submission that lacks [host], or has [host] but lacks
    [port], raises [KeyError] on that key before anything else happens:
    the pending configuration is not touched and the hub is not
    called. *)
Theorem owserver_missing_key hass self (ui : gmap string value) :
  ui ≠ ∅ →
  (ui !! CONF_HOST = None →
   async_step_owserver hass (Some ui) self = (Raise (KeyError CONF_HOST), self))
  ∧ (is_Some (ui !! CONF_HOST) → ui !! CONF_PORT = None →
     async_step_owserver hass (Some ui) self = (Raise (KeyError CONF_PORT), self)).
Proof.
  intros Hne. split.
  - intros Hhost. unfold async_step_owserver. rewrite (submitted_Some _ Hne).
    rewrite !bind_assoc.
    by rewrite (bind_raise _ _ _ _ _ (getitem_raise _ _ _ Hhost)).
  - intros [host Hhost] Hport. unfold async_step_owserver.
    rewrite (submitted_Some _ Hne), !bind_assoc.
    rewrite (bind_ok _ _ _ _ _ (getitem_ok _ _ _ _ Hhost)), bind_assoc.
    by rewrite (bind_raise _ _ _ _ _ (getitem_raise _ _ _ Hport)).
Qed.

Lemma owserver_missing_key_witness :
  async_step_owserver home (Some {[ CONF_PORT := VInt 4304 ]}) init
    = (Raise (KeyError CONF_HOST), init)
  ∧ async_step_owserver home (Some {[ CONF_HOST := VStr "localhost" ]}) init
    = (Raise (KeyError CONF_PORT), init).
Proof.
  split.
  - apply (proj1 (owserver_missing_key home init {[ CONF_PORT := VInt 4304 ]}
                    ltac:(by apply (bool_decide_unpack _)))).
    reflexivity.
  - apply (proj2 (owserver_missing_key home init {[ CONF_HOST := VStr "localhost" ]}
                    ltac:(by apply (bool_decide_unpack _)))).
    + by eexists.
    + reflexivity.
Defined.

(** A step handed nothing, or an empty dictionary, renders its form
    without an error code; nothing is stored and the hub is not called
    ([if user_input:] is false for both). *)
Theorem unsubmitted_renders_form hass self (user_input : option (gmap string value)) :
  user_input = None ∨ user_input = Some ∅ →
  async_step_owserver hass user_input self
    = (Ok (ShowForm "owserver" DATA_SCHEMA_OWSERVER (Some ∅) None), self)
  ∧ async_step_mount_dir hass user_input self
    = (Ok (ShowForm "mount_dir" DATA_SCHEMA_MOUNTDIR (Some ∅) None), self).
Proof.
  intros H. assert (Hs : submitted user_input = None) by (by destruct H as [->| ->]).
  split; [by apply owserver_unsubmitted|by apply mount_dir_unsubmitted].
Qed.

Lemma unsubmitted_renders_form_witness :
  async_step_owserver home (Some ∅) init
    = (Ok (ShowForm "owserver" DATA_SCHEMA_OWSERVER (Some ∅) None), init)
  ∧ async_step_mount_dir home (Some ∅) init
    = (Ok (ShowForm "mount_dir" DATA_SCHEMA_MOUNTDIR (Some ∅) None), init).
Proof. apply (unsubmitted_renders_form home init (Some ∅)). by right. Defined.

(** ** The filesystem step *)

(** A filesystem submission that is no duplicate records its identity
    [SysBus:<mount_dir>], merges the submission into the pending
    configuration and asks the hub once.  A valid directory finishes the
    wizard with the directory as title; an invalid one renders the form
    again with the error code [invalid_path]. *)
Theorem mount_dir_validated hass self (ui : gmap string value) mount_dir :
  ui !! CONF_MOUNT_DIR = Some (VStr mount_dir) →
  ¬ mount_dir_configured hass mount_dir →
  ∃ self',
    async_step_mount_dir hass (Some ui) self =
      (Ok (if mount_dir_valid hass (VStr mount_dir)
           then CreateEntry (VStr mount_dir) (ui ∪ onewire_config self)
           else ShowForm "mount_dir" DATA_SCHEMA_MOUNTDIR
                  (Some {[ "base" := "invalid_path" ]}) None),
       self')
    ∧ unique_id self' = Some (CONF_TYPE_SYSBUS +:+ ":" +:+ mount_dir)
    ∧ onewire_config self' = ui ∪ onewire_config self
    ∧ hub_calls self' = hub_calls self ++ [CheckMountDir (VStr mount_dir)].
Proof.
  intros Hdir Hfresh. rewrite (mount_dir_fresh _ _ _ _ Hdir Hfresh). by eexists.
Qed.

Lemma mount_dir_validated_witness :
  ∃ self',
    async_step_mount_dir offline_home (Some {[ CONF_MOUNT_DIR := VStr "/mnt/w1" ]}) init =
      (Ok (ShowForm "mount_dir" DATA_SCHEMA_MOUNTDIR
             (Some {[ "base" := "invalid_path" ]}) None),
       self')
    ∧ unique_id self' = Some "SysBus:/mnt/w1"
    ∧ onewire_config self' = {[ CONF_MOUNT_DIR := VStr "/mnt/w1" ]} ∪ onewire_config init
    ∧ hub_calls self' = hub_calls init ++ [CheckMountDir (VStr "/mnt/w1")].
Proof.
  apply (mount_dir_validated offline_home init {[ CONF_MOUNT_DIR := VStr "/mnt/w1" ]}
           "/mnt/w1"); [reflexivity|].
  intros (entry & Hin & _). by apply elem_of_nil in Hin.
Defined.

(** A non-empty filesystem submission without [mount_dir] raises
    [KeyError]; no identity is recorded, nothing is stored and the hub is
    not called. *)
Theorem mount_dir_missing_key hass self (ui : gmap string value) :
  ui ≠ ∅ → ui !! CONF_MOUNT_DIR = None →
  async_step_mount_dir hass (Some ui) self = (Raise (KeyError CONF_MOUNT_DIR), self).
Proof.
  intros Hne Hdir. unfold async_step_mount_dir. rewrite (submitted_Some _ Hne).
  rewrite !bind_assoc.
  by rewrite (bind_raise _ _ _ _ _ (getitem_raise _ _ _ Hdir)).
Qed.

Lemma mount_dir_missing_key_witness :
  async_step_mount_dir home (Some {[ CONF_HOST := VStr "localhost" ]}) init
    = (Raise (KeyError CONF_MOUNT_DIR), init).
Proof.
  apply (mount_dir_missing_key home init {[ CONF_HOST := VStr "localhost" ]}).
  - by apply (bool_decide_unpack _).
  - reflexivity.
Defined.

(** ** The transport step *)

(** The transport step stores its submission in the pending
    configuration first and only then reads [type]: [OWServer] leads to
    the gateway form, [SysBus] to the filesystem form, any other value
    back to the transport form, each without an error code; a submission
    without [type] raises [KeyError] after it has been stored. *)
Theorem user_step_routes hass self (ui : gmap string value) :
  (∀ type, ui !! CONF_TYPE = Some type →
     ∃ step_id sch,
       async_step_user hass (Some ui) self
         = (Ok (ShowForm step_id sch (Some ∅) None),
            set_onewire_config (λ c, ui ∪ c) self)
       ∧ (type = VStr CONF_TYPE_OWSERVER →
          step_id = "owserver" ∧ sch = DATA_SCHEMA_OWSERVER)
       ∧ (type = VStr CONF_TYPE_SYSBUS →
          step_id = "mount_dir" ∧ sch = DATA_SCHEMA_MOUNTDIR)
       ∧ (type ≠ VStr CONF_TYPE_OWSERVER → type ≠ VStr CONF_TYPE_SYSBUS →
          step_id = "user" ∧ sch = DATA_SCHEMA_USER))
  ∧ (ui !! CONF_TYPE = None →
     async_step_user hass (Some ui) self
       = (Raise (KeyError CONF_TYPE), set_onewire_config (λ c, ui ∪ c) self)).
Proof.
  split; [|apply user_submit_untyped].
  intros type Htype. rewrite (user_submit _ _ _ _ Htype).
  exists (chosen_step type), (chosen_schema type). split; [done|].
  unfold chosen_step, chosen_schema.
  split; [|split].
  - intros ->. done.
  - intros ->. done.
  - intros H1 H2. by rewrite !bool_decide_eq_false_2.
Qed.

Lemma user_step_routes_witness :
  (∃ step_id sch,
     async_step_user home (Some (transport CONF_TYPE_SYSBUS)) init
       = (Ok (ShowForm step_id sch (Some ∅) None),
          set_onewire_config (λ c, transport CONF_TYPE_SYSBUS ∪ c) init)
     ∧ step_id = "mount_dir" ∧ sch = DATA_SCHEMA_MOUNTDIR)
  ∧ async_step_user home (Some (gateway_params "localhost" 4304)) init
    = (Raise (KeyError CONF_TYPE),
       set_onewire_config (λ c, gateway_params "localhost" 4304 ∪ c) init).
Proof.
  split.
  - destruct (proj1 (user_step_routes home init (transport CONF_TYPE_SYSBUS))
                (VStr CONF_TYPE_SYSBUS) eq_refl)
      as (step_id & sch & Hrun & _ & Hsys & _).
    exists step_id, sch. split; [exact Hrun|]. apply Hsys. reflexivity.
  - apply (proj2 (user_step_routes home init (gateway_params "localhost" 4304))).
    reflexivity.
Defined.

(** ** What finishing takes *)

Lemma owserver_created hass self ui title data self' :
  async_step_owserver hass (Some ui) self = (Ok (CreateEntry title data), self') →
  ∃ port,
    ui !! CONF_HOST = Some title ∧ ui !! CONF_PORT = Some port
    ∧ ¬ owserver_configured hass title port
    ∧ owserver_reachable hass title port = true
    ∧ data = ui ∪ onewire_config self
    ∧ self' = record_call (Connect title port) (set_onewire_config (λ c, ui ∪ c) self).
Proof.
  intros Hrun.
  destruct (owserver_creates _ _ _ _ _ _ Hrun) as (host & port & Hhost & Hport & Hdata).
  destruct (owserver_configured_dec hass host port) as [Hdup|Hfresh].
  { by rewrite (owserver_duplicate _ _ _ _ _ Hhost Hport Hdup) in Hrun. }
  rewrite (owserver_fresh _ _ _ _ _ Hhost Hport Hfresh) in Hrun.
  destruct (owserver_reachable hass host port) eqn:Hup; [|done].
  injection Hrun as -> _ <-. by exists port.
Qed.

Lemma mount_dir_created hass self ui title data self' :
  async_step_mount_dir hass (Some ui) self = (Ok (CreateEntry title data), self') →
  ∃ mount_dir,
    title = VStr mount_dir
    ∧ ui !! CONF_MOUNT_DIR = Some (VStr mount_dir)
    ∧ ¬ mount_dir_configured hass mount_dir
    ∧ mount_dir_valid hass (VStr mount_dir) = true
    ∧ data = ui ∪ onewire_config self
    ∧ self' = record_call (CheckMountDir (VStr mount_dir))
                (set_onewire_config (λ c, ui ∪ c)
                   (set_unique_id (Some (sysbus_id mount_dir)) self)).
Proof.
  intros Hrun.
  destruct (mount_dir_creates _ _ _ _ _ _ Hrun) as (mount_dir & Hdir & _).
  destruct (mount_dir_configured_dec hass mount_dir) as [Hdup|Hfresh].
  { by rewrite (mount_dir_duplicate _ _ _ _ Hdir Hdup) in Hrun. }
  rewrite (mount_dir_fresh _ _ _ _ Hdir Hfresh) in Hrun.
  destruct (mount_dir_valid hass (VStr mount_dir)) eqn:Hok; [|done].
  injection Hrun as <- <- <-. by exists mount_dir.
Qed.

(** No step creates an entry without a successful call to the hub.  The
    transport step never creates one; the gateway step and the
    filesystem step create one only for a submission that is no
    duplicate, right after the one hub call they make has succeeded, and
    the title is the submitted host or mount directory. *)
Theorem entry_requires_validation hass self (ui : gmap string value)
    title data self' :
  async_step_user hass (Some ui) self ≠ (Ok (CreateEntry title data), self')
  ∧ (async_step_owserver hass (Some ui) self = (Ok (CreateEntry title data), self') →
     ∃ port,
       ui !! CONF_HOST = Some title ∧ ui !! CONF_PORT = Some port
       ∧ ¬ owserver_configured hass title port
       ∧ owserver_reachable hass title port = true
       ∧ hub_calls self' = hub_calls self ++ [Connect title port])
  ∧ (async_step_mount_dir hass (Some ui) self = (Ok (CreateEntry title data), self') →
     ∃ mount_dir,
       title = VStr mount_dir
       ∧ ui !! CONF_MOUNT_DIR = Some title
       ∧ ¬ mount_dir_configured hass mount_dir
       ∧ mount_dir_valid hass title = true
       ∧ hub_calls self' = hub_calls self ++ [CheckMountDir title]).
Proof.
  split; [apply user_never_creates|]. split.
  - intros Hrun.
    destruct (owserver_created _ _ _ _ _ _ Hrun)
      as (port & Hhost & Hport & Hfresh & Hup & _ & ->).
    by exists port.
  - intros Hrun.
    destruct (mount_dir_created _ _ _ _ _ _ Hrun)
      as (mount_dir & -> & Hdir & Hfresh & Hok & _ & ->).
    by exists mount_dir.
Qed.

Lemma entry_requires_validation_witness :
  ∃ port,
    gateway_params "example.org" 1234 !! CONF_HOST = Some (VStr "example.org")
    ∧ gateway_params "example.org" 1234 !! CONF_PORT = Some port
    ∧ ¬ owserver_configured fresh_home (VStr "example.org") port
    ∧ owserver_reachable fresh_home (VStr "example.org") port = true
    ∧ hub_calls
        (record_call (Connect (VStr "example.org") (VInt 1234))
           (set_onewire_config (λ c, gateway_params "example.org" 1234 ∪ c) init))
      = hub_calls init ++ [Connect (VStr "example.org") port].
Proof.
  apply (proj1 (proj2 (entry_requires_validation fresh_home init
                         (gateway_params "example.org" 1234) (VStr "example.org")
                         (gateway_params "example.org" 1234 ∪ ∅)
                         (record_call (Connect (VStr "example.org") (VInt 1234))
                            (set_onewire_config
                               (λ c, gateway_params "example.org" 1234 ∪ c) init))))).
  reflexivity.
Defined.

(** ** Whole sessions *)

(** The record of a finished session.  When the transport and then the
    parameters are submitted and the wizard finishes, the transport was
    [OWServer] or [SysBus], the hub was called exactly once, and the
    entry's data is the parameters laid over the transport submission:
    every submitted parameter is in it with its submitted value. *)
Theorem finished_session_record hass (type_ui ui : gmap string value)
    answers flow title data :
  session hass [type_ui; ui] init = (Ok answers, flow) →
  last answers = Some (CreateEntry title data) →
  (type_ui !! CONF_TYPE = Some (VStr CONF_TYPE_OWSERVER)
   ∨ type_ui !! CONF_TYPE = Some (VStr CONF_TYPE_SYSBUS))
  ∧ data = ui ∪ (type_ui ∪ ∅)
  ∧ (∀ key v, ui !! key = Some v → data !! key = Some v)
  ∧ (ui !! CONF_TYPE = None → data !! CONF_TYPE = type_ui !! CONF_TYPE)
  ∧ onewire_config flow = data
  ∧ length (hub_calls flow) = 1%nat.
Proof.
  intros Hrun Hlast.
  destruct (type_ui !! CONF_TYPE) as [type|] eqn:Htype; cycle 1.
  { destruct (session_untyped hass type_ui ui Htype) as (e & f & Hr). congruence. }
  rewrite (session_two hass _ _ _ Htype) in Hrun.
  set (self1 := set_onewire_config (λ c, type_ui ∪ c) init) in *.
  unfold bind in Hrun.
  destruct (async_step hass (chosen_step type) (Some ui) self1) as [[r|e] self2] eqn:Hstep;
    [|done].
  injection Hrun as <- <-. injection Hlast as ->.
  assert (Hdata : data = ui ∪ (type_ui ∪ ∅) ∧ onewire_config self2 = data
                  ∧ length (hub_calls self2) = 1%nat
                  ∧ (type = VStr CONF_TYPE_OWSERVER ∨ type = VStr CONF_TYPE_SYSBUS)).
  { unfold chosen_step in Hstep.
    case_bool_decide as Hgw; [|case_bool_decide as Hfs].
    - change (async_step ?h "owserver") with (async_step_owserver h) in Hstep.
      destruct (owserver_created _ _ _ _ _ _ Hstep) as (port & _ & _ & _ & _ & -> & ->).
      by eauto.
    - change (async_step ?h "mount_dir") with (async_step_mount_dir h) in Hstep.
      destruct (mount_dir_created _ _ _ _ _ _ Hstep) as (dir & _ & _ & _ & _ & -> & ->).
      by eauto.
    - change (async_step ?h "user") with (async_step_user h) in Hstep.
      by apply user_never_creates in Hstep. }
  destruct Hdata as (-> & Hcfg & Hcalls & Htr).
  split; [destruct Htr as [->| ->]; by eauto|].
  split; [done|]. split; [intros key v Hv; by apply lookup_union_Some_l|].
  split; [|done]. intros Hnone.
  rewrite lookup_union_r by done. rewrite lookup_union_l', Htype; by rewrite ?Htype.
Qed.

Lemma finished_session_record_witness :
  (transport CONF_TYPE_OWSERVER !! CONF_TYPE = Some (VStr CONF_TYPE_OWSERVER)
   ∨ transport CONF_TYPE_OWSERVER !! CONF_TYPE = Some (VStr CONF_TYPE_SYSBUS))
  ∧ gateway_params "localhost" 4304 ∪ (transport CONF_TYPE_OWSERVER ∪ ∅)
    = gateway_params "localhost" 4304 ∪ (transport CONF_TYPE_OWSERVER ∪ ∅)
  ∧ (∀ key v, gateway_params "localhost" 4304 !! key = Some v →
       (gateway_params "localhost" 4304 ∪ (transport CONF_TYPE_OWSERVER ∪ ∅)) !! key
       = Some v)
  ∧ (gateway_params "localhost" 4304 !! CONF_TYPE = None →
     (gateway_params "localhost" 4304 ∪ (transport CONF_TYPE_OWSERVER ∪ ∅)) !! CONF_TYPE
     = transport CONF_TYPE_OWSERVER !! CONF_TYPE)
  ∧ onewire_config
      (record_call (Connect (VStr "localhost") (VInt 4304))
         (set_onewire_config (λ c, gateway_params "localhost" 4304 ∪ c)
            (set_onewire_config (λ c, transport CONF_TYPE_OWSERVER ∪ c) init)))
    = gateway_params "localhost" 4304 ∪ (transport CONF_TYPE_OWSERVER ∪ ∅)
  ∧ length (hub_calls
      (record_call (Connect (VStr "localhost") (VInt 4304))
         (set_onewire_config (λ c, gateway_params "localhost" 4304 ∪ c)
            (set_onewire_config (λ c, transport CONF_TYPE_OWSERVER ∪ c) init)))) = 1%nat.
Proof.
  eapply (finished_session_record fresh_home (transport CONF_TYPE_OWSERVER)
            (gateway_params "localhost" 4304)); reflexivity.
Defined.

(** Trying again after a failed connection.  When a first gateway
    submission cannot connect and a second one can, the entry is made of
    the second submission laid over the first: the host and port of the
    failed attempt are overwritten, and the hub was called once for
    each attempt, in order. *)
Theorem owserver_retry hass self (ui1 ui2 : gmap string value)
    host1 port1 host2 port2 :
  ui1 !! CONF_HOST = Some host1 → ui1 !! CONF_PORT = Some port1 →
  ui2 !! CONF_HOST = Some host2 → ui2 !! CONF_PORT = Some port2 →
  ¬ owserver_configured hass host1 port1 →
  ¬ owserver_configured hass host2 port2 →
  owserver_reachable hass host1 port1 = false →
  owserver_reachable hass host2 port2 = true →
  ∃ form self1 data self2,
    async_step_owserver hass (Some ui1) self = (Ok form, self1)
    ∧ form_errors form = Some {[ "base" := "cannot_connect" ]}
    ∧ async_step_owserver hass (Some ui2) self1 = (Ok (CreateEntry host2 data), self2)
    ∧ data = ui2 ∪ (ui1 ∪ onewire_config self)
    ∧ data !! CONF_HOST = Some host2
    ∧ data !! CONF_PORT = Some port2
    ∧ hub_calls self2 = hub_calls self ++ [Connect host1 port1; Connect host2 port2].
Proof.
  intros Hh1 Hp1 Hh2 Hp2 Hf1 Hf2 Hdown Hup.
  eexists _, _, _, _.
  rewrite (owserver_fresh _ _ _ _ _ Hh1 Hp1 Hf1), Hdown.
  split; [reflexivity|]. split; [done|].
  rewrite (owserver_fresh _ _ _ _ _ Hh2 Hp2 Hf2), Hup.
  split; [reflexivity|]. split; [done|].
  split; [by apply lookup_union_Some_l|]. split; [by apply lookup_union_Some_l|].
  simpl. by rewrite <- app_assoc.
Qed.

Lemma owserver_retry_witness :
  ∃ form self1 data self2,
    async_step_owserver picky_home (Some (gateway_params "localhost" 4304)) init
      = (Ok form, self1)
    ∧ form_errors form = Some {[ "base" := "cannot_connect" ]}
    ∧ async_step_owserver picky_home (Some (gateway_params "example.org" 1234)) self1
      = (Ok (CreateEntry (VStr "example.org") data), self2)
    ∧ data = gateway_params "example.org" 1234
             ∪ (gateway_params "localhost" 4304 ∪ onewire_config init)
    ∧ data !! CONF_HOST = Some (VStr "example.org")
    ∧ data !! CONF_PORT = Some (VInt 1234)
    ∧ hub_calls self2 = hub_calls init ++ [Connect (VStr "localhost") (VInt 4304);
                                            Connect (VStr "example.org") (VInt 1234)].
Proof.
  apply (owserver_retry picky_home init (gateway_params "localhost" 4304)
           (gateway_params "example.org" 1234)
           (VStr "localhost") (VInt 4304) (VStr "example.org") (VInt 1234));
    try reflexivity.
  - intros (entry & Hin & _). by apply elem_of_nil in Hin.
  - intros (entry & Hin & _). by apply elem_of_nil in Hin.
Defined.

End SetupMore.

(* ================================================================== *)
(** * More on the options wizard *)
(* ================================================================== *)

Module OptionsMore.
Import Str StrFacts Options Labels OptionsSpec LabelFacts OptionsFacts Samples MoreSpec.

(** ** The label parser *)

Lemma before_contains c s : contains c (before c s) = false.
Proof.
  induction s as [|x s IH]; simpl; [done|].
  destruct (Ascii.eqb x c) eqn:Hx; [done|]. simpl. by rewrite Hx.
Qed.

Lemma remove_contains_other c d s :
  contains c s = false → contains c (remove d s) = false.
Proof.
  induction s as [|x s IH]; simpl; [done|].
  destruct (Ascii.eqb x c) eqn:Hx; [done|]. intros H.
  destruct (Ascii.eqb x d); [by apply IH|]. simpl. rewrite Hx. by apply IH.
Qed.

Lemma parsed_id_no_lparen label : contains lparen (parsed_id label) = false.
Proof.
  unfold parsed_id. destruct (contains lparen label) eqn:H; [|done].
  apply remove_contains_other, before_contains.
Qed.

(** The parser never fails, although it takes the second piece of a
    split: it returns an id without an opening parenthesis and leaves
    the state alone; applied to its own result it changes nothing, so
    ids that were already translated are stored as they are. *)
Theorem parser_total_idempotent {S} (label : string) (s : S) :
  ∃ id,
    _get_device_id_from_long_name label s = (Ok id, s)
    ∧ contains lparen id = false
    ∧ _get_device_id_from_long_name id s = (Ok id, s).
Proof.
  exists (parsed_id label). split; [apply _get_device_id_from_long_name_eq|].
  split; [apply parsed_id_no_lparen|].
  rewrite _get_device_id_from_long_name_eq.
  by rewrite (parsed_id_bare _ (parsed_id_no_lparen label)).
Qed.

(** The label of a device reads back as its id when neither the id nor
    the display name holds a parenthesis. *)
Lemma parsed_label_of registry id :
  paren_free id →
  (∀ device name, async_get_device registry (DOMAIN, id) = Some device →
     name_by_user device = Some name → paren_free name) →
  parsed_id (label_of registry id) = id.
Proof.
  intros Hid Hname. unfold label_of.
  destruct (async_get_device registry (DOMAIN, id)) as [[eid [name|]]|] eqn:Hdev;
    try (apply parsed_id_bare, Hid).
  destruct (negb (String.eqb name "")); [|apply parsed_id_bare, Hid].
  destruct (Hname _ name eq_refl eq_refl) as [Hl _].
  change (name +:+ " (" +:+ id +:+ ")")
    with (name +:+ (" " +:+ String lparen (id +:+ String rparen EmptyString))).
  rewrite <- append_assoc. apply parsed_id_enclosed; [|done].
  rewrite contains_app, Hl. done.
Qed.

(** Distinct devices get distinct labels: with ids and display names
    free of parentheses, the labels of a duplicate-free device list are
    duplicate-free, so the multi-select offers one choice per device.
    These labels are the list [_get_device_list_with_names] returns for
    a handler with that registry and device list. *)
Theorem labels_distinct registry (ids : list string) :
  registry_paren_free registry ids →
  NoDup ids →
  NoDup (label_of registry <$> ids)
  ∧ size (list_to_map (M := gmap string bool)
            ((λ device, (device, false)) <$> (label_of registry <$> ids)))
    = length ids
  ∧ ∀ self, device_registry self = Some registry → device_list_ds18b20 self = ids →
      _get_device_list_with_names self = (Ok (label_of registry <$> ids), self).
Proof.
  intros Hfree Hnodup.
  assert (Hinj : ∀ a b, a ∈ ids → b ∈ ids →
                   label_of registry a = label_of registry b → a = b).
  { intros a b Ha Hb Heq.
    destruct (Hfree a Ha) as [Hfa Hna]. destruct (Hfree b Hb) as [Hfb Hnb].
    rewrite <- (parsed_label_of registry a Hfa Hna), Heq.
    by apply parsed_label_of. }
  assert (Hlabels : NoDup (label_of registry <$> ids)).
  { clear Hfree. induction Hnodup as [|x l Hx Hl IH]; [constructor|].
    rewrite fmap_cons. constructor.
    - intros Hin. apply list_elem_of_fmap in Hin as (y & Heq & Hy).
      apply Hinj in Heq; [|apply list_elem_of_here|by apply list_elem_of_further].
      by subst.
    - apply IH. intros a b Ha Hb. apply Hinj; by apply list_elem_of_further. }
  split; [done|]. split.
  - rewrite <- size_dom, dom_list_to_map_L, <- list_fmap_compose.
    rewrite (list_fmap_ext _ id (label_of registry <$> ids)) by done.
    rewrite list_fmap_id, size_list_to_set by done. by rewrite length_fmap.
  - intros self Hreg <-. by apply _get_device_list_with_names_ok.
Qed.

Lemma labels_distinct_witness :
  NoDup (label_of kitchen_registry <$> ["28.AAA"; "28.BBB"])
  ∧ size (list_to_map (M := gmap string bool)
            ((λ device, (device, false))
               <$> (label_of kitchen_registry <$> ["28.AAA"; "28.BBB"])))
    = length ["28.AAA"; "28.BBB"]
  ∧ ∀ self, device_registry self = Some kitchen_registry →
      device_list_ds18b20 self = ["28.AAA"; "28.BBB"] →
      _get_device_list_with_names self
      = (Ok (label_of kitchen_registry <$> ["28.AAA"; "28.BBB"]), self).
Proof.
  apply (labels_distinct kitchen_registry ["28.AAA"; "28.BBB"]).
  - intros id Hid.
    assert (Hcase : id = "28.AAA" ∨ id = "28.BBB").
    { apply elem_of_cons in Hid as [->|Hid]; [by left|].
      apply elem_of_cons in Hid as [->|Hid]; [by right|].
      by apply elem_of_nil in Hid. }
    destruct Hcase as [-> | ->]; (split; [split; reflexivity|]);
      intros device name Hdevice Hname; vm_compute in Hdevice.
    + injection Hdevice as <-. injection Hname as <-. split; reflexivity.
    + discriminate Hdevice.
  - apply (bool_decide_unpack _). vm_compute. exact I.
Defined.

(** ** The init step *)

(** Without a hub for the entry the init step raises [KeyError] on the
    key it misses, the domain or the entry id, before it touches the
    handler. *)
Theorem init_missing_hub hass self (user_input : option (gmap string value)) :
  (hass_data hass !! DOMAIN = None →
   async_step_init hass user_input self = (Raise (KeyError DOMAIN), self))
  ∧ (∀ domain_data, hass_data hass !! DOMAIN = Some domain_data →
       domain_data !! entry_id (config_entry self) = None →
       async_step_init hass user_input self
       = (Raise (KeyError (entry_id (config_entry self))), self)).
Proof.
  unfold async_step_init. split.
  - intros Hd. by rewrite (bind_raise _ _ _ _ _ (getitem_raise _ _ _ Hd)).
  - intros domain_data Hd Hhub.
    rewrite (bind_ok _ _ _ _ _ (getitem_ok _ _ _ _ Hd)). mstep.
    by rewrite (bind_raise _ _ _ _ _ (getitem_raise _ _ _ Hhub)).
Qed.

Lemma init_missing_hub_witness :
  async_step_init fresh_home None (init gateway_entry)
    = (Raise (KeyError DOMAIN), init gateway_entry)
  ∧ async_step_init home None (init sysbus_entry)
    = (Raise (KeyError (entry_id (config_entry (init sysbus_entry)))), init sysbus_entry).
Proof.
  split.
  - apply (proj1 (init_missing_hub fresh_home (init gateway_entry) None)). reflexivity.
  - apply (proj2 (init_missing_hub home (init sysbus_entry) None) {[ "e1" := hub ]});
      reflexivity.
Defined.

Lemma same_attributes_refl self : same_attributes self self.
Proof. by repeat split. Qed.

Lemma same_attributes_add_log r self self' :
  same_attributes self' self → same_attributes (add_log r self') self.
Proof. intros H. exact H. Qed.

Lemma log_known_devices_same registry known :
  ∀ self, device_registry self = Some registry →
    ∃ self', log_known_devices known self = (Ok tt, self') ∧ same_attributes self' self.
Proof.
  induction known as [|device_id known IH]; intros self Hreg; simpl.
  - eexists. split; [done|apply same_attributes_refl].
  - mstep. rewrite Hreg.
    destruct (async_get_device registry (DOMAIN, device_id));
      [|eexists; split; [done|apply same_attributes_refl]].
    unfold _LOGGER_info. mstep.
    destruct (IH (add_log
      (INFO, "\n---- STEP_INIT ----\n -- Device : %s -- %s -- %s") self) Hreg)
      as (self' & -> & H). by exists self'.
Qed.

Lemma ds18b20_ids_elem id l :
  id ∈ ds18b20_ids l ↔ OWServerDeviceDescription id "DS18B20" ∈ l.
Proof.
  unfold ds18b20_ids. rewrite list_elem_of_omap. split.
  - intros (x & Hx & Hid). destruct x as [id' type|id']; [|done].
    destruct (String.eqb type "DS18B20") eqn:Ht; [|done].
    apply String.eqb_eq in Ht. injection Hid as ->. by subst.
  - intros Hin. eexists. split; [exact Hin|]. done.
Qed.

(** ** The selection form *)

Lemma current_selection_eq self registry :
  device_registry self = Some registry →
  selection_is_loaded (options self) = true →
  _get_current_ds18b20_config_selection self =
    (Ok (preselection (options self) (label_of registry <$> device_list_ds18b20 self)),
     add_log (INFO, "\n---- CURRENT_DS18B20_CONFIG_SELECTION  ----\n -- selected_entries: %s\n -- possible_devices: %s") self).
Proof.
  intros Hreg Hsel.
  unfold _get_current_ds18b20_config_selection, _LOGGER_info, preselection.
  do 2 mstep. unfold selection_is_loaded in Hsel.
  destruct (options self !! "ds18b20_device_selection") as [[]|]; try done.
  erewrite bind_ok; [|by eapply _get_device_list_with_names_ok].
  erewrite bind_ok;
    [|apply map_m_pure; intros; apply _get_device_id_from_long_name_eq].
  unfold ret. f_equal. f_equal.
  change (device_list_ds18b20 (add_log _ self)) with (device_list_ds18b20 self).
  generalize (label_of registry <$> device_list_ds18b20 self). intros ns.
  induction ns as [|x ns IH]; [done|].
  rewrite fmap_cons. simpl zip. rewrite !filter_cons. simpl.
  repeat case_decide; try done. rewrite fmap_cons. simpl. by f_equal.
Qed.

Lemma selection_render_eq self registry :
  device_registry self = Some registry →
  selection_is_loaded (options self) = true →
  async_step_device_selection None self =
    (Ok (selection_form
           (preselection (options self) (label_of registry <$> device_list_ds18b20 self))
           (label_of registry <$> device_list_ds18b20 self)),
     add_log (INFO, "\n---- CURRENT_DS18B20_CONFIG_SELECTION  ----\n -- selected_entries: %s\n -- possible_devices: %s") self).
Proof.
  intros Hreg Hsel. unfold async_step_device_selection.
  rewrite (bind_ok _ _ _ _ _ (current_selection_eq self registry Hreg Hsel)).
  erewrite bind_ok; [|by eapply _get_device_list_with_names_ok].
  done.
Qed.

(** The selection form, once the registry is loaded.  The form offers
    the label of every device of the list and ticks those whose id is in
    the stored selection; rendering it changes no attribute of the
    handler, only one line is logged. *)
Theorem selection_form_rendered self registry :
  device_registry self = Some registry →
  selection_is_loaded (options self) = true →
  async_step_device_selection None self =
    (Ok (selection_form
           (preselection (options self) (label_of registry <$> device_list_ds18b20 self))
           (label_of registry <$> device_list_ds18b20 self)),
     add_log (INFO, "\n---- CURRENT_DS18B20_CONFIG_SELECTION  ----\n -- selected_entries: %s\n -- possible_devices: %s") self).
Proof. apply selection_render_eq. Qed.

Lemma selection_form_rendered_witness :
  async_step_device_selection None configured_ready =
    (Ok (selection_form
           (preselection (options configured_ready)
              (label_of kitchen_registry <$> device_list_ds18b20 configured_ready))
           (label_of kitchen_registry <$> device_list_ds18b20 configured_ready)),
     add_log (INFO, "\n---- CURRENT_DS18B20_CONFIG_SELECTION  ----\n -- selected_entries: %s\n -- possible_devices: %s") configured_ready).
Proof.
  apply (selection_form_rendered configured_ready kitchen_registry); reflexivity.
Defined.

(** The handler as the init step has loaded it, before the step commits
    the submission or goes on to the selection form. *)
Lemma init_loaded_state hass self hub user_input :
  hub_of hass self = Some hub →
  ∃ self1,
    async_step_init hass user_input self =
      match user_input with
      | Some user_input => async_create_entry (VStr "") user_input
      | None => async_step_device_selection None
      end self1
    ∧ controller self1 = Some hub
    ∧ device_registry self1 = Some (hass_device_registry hass)
    ∧ device_list_ds18b20 self1 =
        match devices hub with
        | Some (x :: l) => ds18b20_ids (x :: l)
        | _ => device_list_ds18b20 self
        end
    ∧ config_entry self1 = config_entry self
    ∧ options self1 = options self
    ∧ current_device self1 = current_device self
    ∧ devices_to_configure_ds18b20 self1 = devices_to_configure_ds18b20 self.
Proof.
  unfold hub_of. intros Hhub.
  destruct (hass_data hass !! DOMAIN) as [domain_data|] eqn:Hd; [|done].
  simpl in Hhub. unfold async_step_init.
  rewrite (bind_ok _ _ _ _ _ (getitem_ok _ _ _ _ Hd)). mstep.
  rewrite (bind_ok _ _ _ _ _ (getitem_ok _ _ _ _ Hhub)). do 2 mstep.
  set (self0 := set_device_registry _ _).
  set (loaded := match devices hub with
                 | Some (x :: l) =>
                     set_device_list_ds18b20 (ds18b20_ids (x :: l)) self0
                 | _ => self0
                 end).
  assert (Hm : (match devices hub with
                | Some (x :: l) => modify (set_device_list_ds18b20 (ds18b20_ids (x :: l)))
                | _ => ret tt
                end) self0 = (Ok tt, loaded)).
  { unfold loaded. by destruct (devices hub) as [[|x l]|]. }
  rewrite (bind_ok _ _ _ _ _ Hm). unfold _LOGGER_info. do 2 mstep.
  assert (Hreg : device_registry loaded = Some (hass_device_registry hass)).
  { unfold loaded. by destruct (devices hub) as [[|x l]|]. }
  edestruct (log_known_devices_same (hass_device_registry hass)) as (self3 & Hl & H3);
    [|rewrite (bind_ok _ _ _ _ _ Hl)]; [exact Hreg|].
  exists self3. split; [done|].
  destruct H3 as (He & Ho & Hc & Hdl & Hcd & Hq & Hr).
  rewrite He, Ho, Hc, Hdl, Hcd, Hq, Hr.
  unfold loaded. by destruct (devices hub) as [[|x l]|].
Qed.

(** Opening the options wizard.  With the entry's hub in place the init
    step binds the hub and the registry, replaces the device list by the
    ids of the hub's OWServer devices of type DS18B20, in the hub's
    order (a hub without devices leaves the list as it was), and renders
    the selection form for these devices, ticking the stored selection.
    The options, the current device and the queue are not touched. *)
Theorem init_renders_hub_devices hass self hub :
  hub_of hass self = Some hub →
  selection_is_loaded (options self) = true →
  ∃ ids self',
    async_step_init hass None self
      = (Ok (selection_form
               (preselection (options self) (label_of (hass_device_registry hass) <$> ids))
               (label_of (hass_device_registry hass) <$> ids)), self')
    ∧ ids = match devices hub with
            | Some (x :: l) => ds18b20_ids (x :: l)
            | _ => device_list_ds18b20 self
            end
    ∧ (∀ l id, devices hub = Some l → l ≠ [] →
         id ∈ ids ↔ OWServerDeviceDescription id "DS18B20" ∈ l)
    ∧ controller self' = Some hub
    ∧ device_registry self' = Some (hass_device_registry hass)
    ∧ device_list_ds18b20 self' = ids
    ∧ config_entry self' = config_entry self
    ∧ options self' = options self
    ∧ current_device self' = current_device self
    ∧ devices_to_configure_ds18b20 self' = devices_to_configure_ds18b20 self.
Proof.
  intros Hhub Hsel.
  destruct (init_loaded_state hass self hub None Hhub)
    as (self1 & -> & Hc & Hreg & Hdl & He & Ho & Hcd & Hq).
  rewrite (selection_render_eq self1 _ Hreg) by (by rewrite Ho).
  rewrite Ho, Hdl. eexists _, _. split; [reflexivity|]. split; [reflexivity|].
  split.
  { intros l id Hdev Hne. rewrite Hdev.
    destruct l as [|x l]; [done|]. apply ds18b20_ids_elem. }
  done.
Qed.

Lemma init_renders_hub_devices_witness :
  ∃ ids self',
    async_step_init home None (init configured_entry)
      = (Ok (selection_form
               (preselection (options (init configured_entry))
                  (label_of (hass_device_registry home) <$> ids))
               (label_of (hass_device_registry home) <$> ids)), self')
    ∧ ids = match devices hub with
            | Some (x :: l) => ds18b20_ids (x :: l)
            | _ => device_list_ds18b20 (init configured_entry)
            end
    ∧ (∀ l id, devices hub = Some l → l ≠ [] →
         id ∈ ids ↔ OWServerDeviceDescription id "DS18B20" ∈ l)
    ∧ controller self' = Some hub
    ∧ device_registry self' = Some (hass_device_registry home)
    ∧ device_list_ds18b20 self' = ids
    ∧ config_entry self' = config_entry (init configured_entry)
    ∧ options self' = options (init configured_entry)
    ∧ current_device self' = current_device (init configured_entry)
    ∧ devices_to_configure_ds18b20 self'
      = devices_to_configure_ds18b20 (init configured_entry).
Proof.
  apply (init_renders_hub_devices home (init configured_entry) hub); reflexivity.
Defined.

(** On the sample installation the form offers the two DS18B20 sensors
    (the DS18S20 is left out) and ticks the one that is both stored and
    still there. *)
Example init_form_scenario :
  fst (async_step_init home None (init configured_entry))
  = Ok (selection_form ["Kitchen (28.AAA)"] ["Kitchen (28.AAA)"; "28.BBB"]).
Proof. vm_compute. reflexivity. Qed.

(** On the sample installation: of the stored selection [28.AAA],
    [28.GONE] only the device the hub still reports is ticked, under its
    label. *)
Example stale_selection_dropped :
  fst (_get_current_ds18b20_config_selection configured_ready)
  = Ok ["Kitchen (28.AAA)"].
Proof. vm_compute. reflexivity. Qed.

(** What is ticked.  With a list of ids stored as the selection, the
    lookup of the current selection returns without an error and changes
    no attribute of the handler.  Every label it returns is one of the
    labels offered; and with ids and display names free of parentheses
    it returns the labels of exactly those listed devices whose id is in
    the stored selection, in the order of the list, so that a stored id
    the hub no longer reports is dropped. *)
Theorem preselection_of_stored self registry (selected : list string) :
  device_registry self = Some registry →
  options self !! "ds18b20_device_selection" = Some (VList selected) →
  ∃ preselected self',
    _get_current_ds18b20_config_selection self = (Ok preselected, self')
    ∧ same_attributes self' self
    ∧ preselected ⊆ label_of registry <$> device_list_ds18b20 self
    ∧ (∀ label, label ∈ preselected ↔
         label ∈ label_of registry <$> device_list_ds18b20 self
         ∧ parsed_id label ∈ selected)
    ∧ (registry_paren_free registry (device_list_ds18b20 self) →
       preselected
       = label_of registry <$> filter (λ id, id ∈ selected) (device_list_ds18b20 self)).
Proof.
  intros Hreg Hsel.
  assert (Hloaded : selection_is_loaded (options self) = true)
    by (unfold selection_is_loaded; by rewrite Hsel).
  eexists _, _. split; [exact (current_selection_eq self registry Hreg Hloaded)|].
  split; [by repeat split|].
  unfold preselection. rewrite Hsel.
  split; [intros x Hx; by apply list_elem_of_filter in Hx as [_ Hx]|].
  split; [intros label; rewrite list_elem_of_filter; tauto|].
  intros Hfree. induction (device_list_ds18b20 self) as [|id ids IH]; [done|].
  rewrite fmap_cons, !filter_cons.
  destruct (Hfree id (list_elem_of_here _ _)) as [Hid Hname].
  rewrite (parsed_label_of registry id Hid Hname).
  rewrite IH by (intros x Hx; by apply Hfree, list_elem_of_further).
  by destruct (decide (id ∈ selected)).
Qed.

Lemma preselection_of_stored_witness :
  ∃ preselected self',
    _get_current_ds18b20_config_selection configured_ready = (Ok preselected, self')
    ∧ same_attributes self' configured_ready
    ∧ preselected ⊆ label_of kitchen_registry <$> ["28.AAA"; "28.BBB"]
    ∧ preselected
      = label_of kitchen_registry
          <$> filter (λ id, id ∈ ["28.AAA"; "28.GONE"]) ["28.AAA"; "28.BBB"].
Proof.
  destruct (preselection_of_stored configured_ready kitchen_registry
              ["28.AAA"; "28.GONE"] eq_refl eq_refl)
    as (preselected & self' & Hrun & Hsame & Hsub & _ & Heq).
  exists preselected, self'.
  split; [exact Hrun|]. split; [exact Hsame|]. split; [exact Hsub|].
  apply Heq. intros id Hid.
  assert (Hcase : id = "28.AAA" ∨ id = "28.BBB").
  { apply elem_of_cons in Hid as [->|Hid]; [by left|].
    apply elem_of_cons in Hid as [->|Hid]; [by right|].
    by apply elem_of_nil in Hid. }
  destruct Hcase as [-> | ->]; (split; [split; reflexivity|]);
    intros device name Hdevice Hname; vm_compute in Hdevice.
  - injection Hdevice as <-. injection Hname as <-. split; reflexivity.
  - discriminate Hdevice.
Defined.

Lemma long_name_without_registry_raises self id :
  device_registry self = None →
  _get_device_long_name_from_id id self =
    (Raise (UnboundLocalError "device"),
     add_log (ERROR, "No device registry in config flow, this is a fatal error") self).
Proof.
  intros Hreg. unfold _get_device_long_name_from_id, bind, gets, ret. simpl.
  rewrite Hreg. done.
Qed.

(** Without a registry the selection form can only be rendered for an
    empty device list; with a device to show, the label lookup raises
    [UnboundLocalError] and no form is returned. *)
Theorem selection_form_without_registry self :
  device_registry self = None →
  selection_is_loaded (options self) = true →
  (device_list_ds18b20 self = [] →
   ∃ self', async_step_device_selection None self
              = (Ok (selection_form [] []), self')
     ∧ same_attributes self' self)
  ∧ (device_list_ds18b20 self ≠ [] →
     ∃ self', async_step_device_selection None self
                = (Raise (UnboundLocalError "device"), self')
       ∧ same_attributes self' self).
Proof.
  intros Hreg Hsel.
  assert (Hnames : ∀ self0, same_attributes self0 self →
            (device_list_ds18b20 self = [] →
             _get_device_list_with_names self0 = (Ok [], self0))
            ∧ (device_list_ds18b20 self ≠ [] →
               ∃ self', _get_device_list_with_names self0
                          = (Raise (UnboundLocalError "device"), self')
                 ∧ same_attributes self' self)).
  { intros self0 Hs. pose proof Hs as (_ & _ & _ & Hdl & _ & _ & Hr).
    unfold _get_device_list_with_names. mstep. rewrite Hdl. split.
    - by intros ->.
    - intros Hne. destruct (device_list_ds18b20 self) as [|d l]; [done|]. simpl.
      erewrite bind_raise;
        [|apply long_name_without_registry_raises; by rewrite Hr].
      eexists. split; [reflexivity|exact Hs]. }
  set (logged := add_log (INFO, "\n---- CURRENT_DS18B20_CONFIG_SELECTION  ----\n -- selected_entries: %s\n -- possible_devices: %s") self).
  assert (Hlogged : same_attributes logged self) by (by repeat split).
  destruct (Hnames logged Hlogged) as [Hnil Hraise].
  assert (Hcur : (device_list_ds18b20 self = [] →
                  _get_current_ds18b20_config_selection self = (Ok [], logged))
                 ∧ (device_list_ds18b20 self ≠ [] →
                    _get_current_ds18b20_config_selection self = (Ok [], logged)
                    ∨ ∃ self', _get_current_ds18b20_config_selection self
                                 = (Raise (UnboundLocalError "device"), self')
                        ∧ same_attributes self' self)).
  { unfold _get_current_ds18b20_config_selection, _LOGGER_info. do 2 mstep.
    fold logged. unfold selection_is_loaded in Hsel.
    destruct (options self !! "ds18b20_device_selection") as [[]|]; try done;
      try (split; [done|by left]).
    split.
    - intros Hl. by rewrite (bind_ok _ _ _ _ _ (Hnil Hl)).
    - intros Hl. right. destruct (Hraise Hl) as (self' & Hr & Hs).
      rewrite (bind_raise _ _ _ _ _ Hr). by exists self'. }
  destruct Hcur as [Hcur_nil Hcur_more].
  unfold async_step_device_selection. split.
  - intros Hl. rewrite (bind_ok _ _ _ _ _ (Hcur_nil Hl)).
    rewrite (bind_ok _ _ _ _ _ (Hnil Hl)). by exists logged.
  - intros Hl. destruct (Hcur_more Hl) as [Hok|(self' & Hr & Hs)].
    + rewrite (bind_ok _ _ _ _ _ Hok).
      destruct (Hraise Hl) as (self' & Hr & Hs).
      rewrite (bind_raise _ _ _ _ _ Hr). by exists self'.
    + rewrite (bind_raise _ _ _ _ _ Hr). by exists self'.
Qed.

Lemma selection_form_without_registry_witness :
  (∃ self', async_step_device_selection None (init gateway_entry)
              = (Ok (selection_form [] []), self')
     ∧ same_attributes self' (init gateway_entry))
  ∧ (∃ self', async_step_device_selection None
                (set_device_list_ds18b20 ["28.AAA"] (init gateway_entry))
              = (Raise (UnboundLocalError "device"), self')
       ∧ same_attributes self' (set_device_list_ds18b20 ["28.AAA"] (init gateway_entry))).
Proof.
  split.
  - apply (proj1 (selection_form_without_registry (init gateway_entry)
                    eq_refl eq_refl)).
    reflexivity.
  - apply (proj2 (selection_form_without_registry
                    (set_device_list_ds18b20 ["28.AAA"] (init gateway_entry))
                    eq_refl eq_refl)).
    discriminate.
Defined.

(** ** The device step *)

(** With nothing queued, asking for the next device form pops from an
    empty list: the step raises [IndexError] and leaves the handler as it
    was. *)
Theorem device_form_empty_queue self :
  devices_to_configure_ds18b20 self = [] →
  async_step_ds1820b_device_config None self = (Raise IndexError, self).
Proof.
  intros Hq. unfold async_step_ds1820b_device_config,
    async_step_ds1820b_device_config_render.
  mstep. by rewrite Hq.
Qed.

Lemma device_form_empty_queue_witness :
  async_step_ds1820b_device_config None ready = (Raise IndexError, ready).
Proof. apply (device_form_empty_queue ready). reflexivity. Defined.

Lemma _get_default_ds18b20_config_option_eq device self :
  precision_is_table (options self) = true →
  _get_default_ds18b20_config_option device self =
    (Ok (stored_default (options self) device),
     add_log (INFO, "\n---- STEP_DEFAULT_DS18B20  ----\n -- Precision entry type: %s")
       (add_log (INFO, "\n---- GET_DEFAULT_DS18B20  ----\n -- Options: %s (type) %s") self)).
Proof.
  unfold precision_is_table, _get_default_ds18b20_config_option, stored_default,
    precision_table.
  unfold bind, _LOGGER_info, modify, gets. simpl.
  destruct (options self !! "sensor_precision") as [[]|]; simpl;
    intros H; try done; try (rewrite (negb_true_iff _) in H; by rewrite H).
  by destruct (d !! device).
Qed.

(** The form of the next device.  The last device of the queue is
    taken off and becomes the current one; its form offers the
    precision stored for it, [Default] when none is stored, and shows
    its label; the options are not touched. *)
Theorem device_form_rendered self registry queue device :
  device_registry self = Some registry →
  devices_to_configure_ds18b20 self = queue ++ [device] →
  precision_is_table (options self) = true →
  ∃ self',
    async_step_ds1820b_device_config None self
      = (Ok (device_form (stored_default (options self) device)
               (label_of registry device)), self')
    ∧ current_device self' = device
    ∧ devices_to_configure_ds18b20 self' = queue
    ∧ options self' = options self
    ∧ device_list_ds18b20 self' = device_list_ds18b20 self
    ∧ device_registry self' = device_registry self.
Proof.
  intros Hreg Hq Hp. unfold async_step_ds1820b_device_config,
    async_step_ds1820b_device_config_render.
  mstep. rewrite Hq, pop_snoc. do 3 mstep.
  match goal with |- context [bind (_get_default_ds18b20_config_option ?d) _ ?s] =>
    rewrite (bind_ok _ _ _ _ _ (_get_default_ds18b20_config_option_eq d s Hp)) end.
  mstep. erewrite bind_ok; [|by eapply long_name_with_registry].
  eexists. split; [reflexivity|]. done.
Qed.

Lemma device_form_rendered_witness :
  ∃ self',
    async_step_ds1820b_device_config None
      (set_devices_to_configure_ds18b20 ["28.BBB"; "28.AAA"] configured_ready)
      = (Ok (device_form
               (stored_default
                  (options (set_devices_to_configure_ds18b20 ["28.BBB"; "28.AAA"]
                              configured_ready)) "28.AAA")
               (label_of kitchen_registry "28.AAA")), self')
    ∧ current_device self' = "28.AAA"
    ∧ devices_to_configure_ds18b20 self' = ["28.BBB"]
    ∧ options self'
      = options (set_devices_to_configure_ds18b20 ["28.BBB"; "28.AAA"] configured_ready)
    ∧ device_list_ds18b20 self'
      = device_list_ds18b20
          (set_devices_to_configure_ds18b20 ["28.BBB"; "28.AAA"] configured_ready)
    ∧ device_registry self'
      = device_registry
          (set_devices_to_configure_ds18b20 ["28.BBB"; "28.AAA"] configured_ready).
Proof.
  apply (device_form_rendered
           (set_devices_to_configure_ds18b20 ["28.BBB"; "28.AAA"] configured_ready)
           kitchen_registry ["28.BBB"] "28.AAA"); reflexivity.
Defined.

(** On the sample installation the form of [28.AAA] offers the [11 Bits]
    stored by the earlier session, under the label [Kitchen (28.AAA)]. *)
Example device_form_offers_stored :
  fst (async_step_ds1820b_device_config None
         (set_devices_to_configure_ds18b20 ["28.BBB"; "28.AAA"] configured_ready))
  = Ok (device_form "11 Bits" "Kitchen (28.AAA)").
Proof. vm_compute. reflexivity. Qed.

(** A device submission without [sensor_precision] raises [KeyError];
    the options, the queue and the current device stay as they were. *)
Theorem device_submit_missing_key self (ui : gmap string value) :
  ui !! "sensor_precision" = None →
  async_step_ds1820b_device_config (Some ui) self
    = (Raise (KeyError "sensor_precision"), self).
Proof.
  intros Hui. unfold async_step_ds1820b_device_config, _update_ds18b20_config_option.
  mstep. rewrite bind_assoc. mstep. cbv zeta. rewrite bind_assoc.
  by rewrite (bind_raise _ _ _ _ _ (getitem_raise _ _ _ Hui)).
Qed.

Lemma device_submit_missing_key_witness :
  async_step_ds1820b_device_config (Some ∅) ready
    = (Raise (KeyError "sensor_precision"), ready).
Proof. apply (device_submit_missing_key ready ∅). reflexivity. Defined.

(** Storing a choice and reading it back.  After a device's choice is
    stored, the default looked up for that device is the label just
    chosen, and the default of every other device is what it was
    before. *)
Theorem default_after_update self (ui : gmap string value) device other label :
  chooses ui label →
  precision_is_table (options self) = true →
  ∃ self1 self2 self3,
    _update_ds18b20_config_option device ui self = (Ok tt, self1)
    ∧ _get_default_ds18b20_config_option device self1 = (Ok label, self2)
    ∧ (other ≠ device →
       _get_default_ds18b20_config_option other self1
       = (Ok (stored_default (options self) other), self3))
    ∧ (∀ key, key ≠ "sensor_precision" → options self1 !! key = options self !! key).
Proof.
  intros Hui Hp.
  eexists _, _, _.
  rewrite (_update_ds18b20_config_option_ok _ _ _ _ Hui Hp).
  split; [reflexivity|].
  set (self1 := set_options _ self).
  assert (Hp1 : precision_is_table (options self1) = true)
    by apply (with_precision_is_table device label (options self)).
  rewrite !(_get_default_ds18b20_config_option_eq _ _ Hp1).
  assert (Ht : precision_table (options self1)
               = <[device := label]> (precision_table (options self)))
    by apply (precision_table_with_precision device label (options self)).
  unfold stored_default. rewrite Ht.
  split; [by rewrite lookup_insert_eq|].
  split; [intros Hne; by rewrite lookup_insert_ne|].
  intros key Hkey. by apply (with_precision_lookup_ne device label (options self)).
Qed.

Lemma default_after_update_witness :
  ∃ self1 self2 self3,
    _update_ds18b20_config_option "28.BBB" (choose "12 Bits") configured_ready
      = (Ok tt, self1)
    ∧ _get_default_ds18b20_config_option "28.BBB" self1 = (Ok "12 Bits", self2)
    ∧ ("28.AAA" ≠ "28.BBB" →
       _get_default_ds18b20_config_option "28.AAA" self1
       = (Ok (stored_default (options configured_ready) "28.AAA"), self3))
    ∧ (∀ key, key ≠ "sensor_precision" →
         options self1 !! key = options configured_ready !! key).
Proof.
  apply (default_after_update configured_ready (choose "12 Bits") "28.BBB" "28.AAA"
           "12 Bits"); reflexivity.
Defined.

(** The shape of the stored precision field.  A stored value that is
    false as a condition (absent, [None], [False], [0], an empty string,
    list or table) is replaced by a fresh table holding the one choice;
    a stored value that is true as a condition but no table makes the
    submission raise [TypeError] and leaves the options as they were. *)
Theorem precision_field_shapes self (ui : gmap string value) device label :
  chooses ui label →
  (default false (truthy <$> options self !! "sensor_precision") = false →
   _update_ds18b20_config_option device ui self
   = (Ok tt,
      set_options (<["sensor_precision" := VDict {[ device := label ]}]> (options self))
        self))
  ∧ (∀ v, options self !! "sensor_precision" = Some v → truthy v = true →
       (∀ d, v ≠ VDict d) →
       _update_ds18b20_config_option device ui self = (Raise TypeError, self)).
Proof.
  intros Hui. unfold _update_ds18b20_config_option. split.
  - intros Hfalse. mstep.
    rewrite (bind_ok _ _ _ _ _ (getitem_ok _ _ _ _ Hui)). mstep.
    destruct (options self !! "sensor_precision") as [v|] eqn:Hv; simpl in *.
    + by rewrite Hfalse.
    + done.
  - intros v Hv Htrue Hshape. mstep.
    rewrite (bind_ok _ _ _ _ _ (getitem_ok _ _ _ _ Hui)). mstep.
    rewrite Hv. simpl. rewrite Htrue.
    destruct v; try done. by destruct (Hshape d).
Qed.

Lemma precision_field_shapes_witness :
  _update_ds18b20_config_option "28.AAA" (choose "9 Bits")
    (set_options {[ "sensor_precision" := VList [] ]} ready)
  = (Ok tt,
     set_options (<["sensor_precision" := VDict {[ "28.AAA" := "9 Bits" ]}]>
                    (options (set_options {[ "sensor_precision" := VList [] ]} ready)))
       (set_options {[ "sensor_precision" := VList [] ]} ready))
  ∧ _update_ds18b20_config_option "28.AAA" (choose "9 Bits")
      (set_options {[ "sensor_precision" := VStr "11 Bits" ]} ready)
    = (Raise TypeError, set_options {[ "sensor_precision" := VStr "11 Bits" ]} ready).
Proof.
  split.
  - apply (proj1 (precision_field_shapes
                    (set_options {[ "sensor_precision" := VList [] ]} ready)
                    (choose "9 Bits") "28.AAA" "9 Bits" eq_refl)).
    reflexivity.
  - apply (proj2 (precision_field_shapes
                    (set_options {[ "sensor_precision" := VStr "11 Bits" ]} ready)
                    (choose "9 Bits") "28.AAA" "9 Bits" eq_refl) (VStr "11 Bits"));
      [reflexivity|reflexivity|discriminate].
Defined.

(** ** Merging a submission *)

(** Merging a selection submission into the options.  Every submitted
    key overrides the stored one, a key the submission lacks keeps its
    stored value, and the submitted labels are stored as ids; nothing
    else of the handler changes. *)
Theorem update_options_dict_merges self (ui : gmap string value) :
  selection_is_list ui = true →
  ∃ self',
    _update_options_dict ui self = (Ok tt, self')
    ∧ (∀ key v, key ≠ "ds18b20_device_selection" → ui !! key = Some v →
         options self' !! key = Some v)
    ∧ (∀ labels, ui !! "ds18b20_device_selection" = Some (VList labels) →
         options self' !! "ds18b20_device_selection" = Some (VList (parsed_id <$> labels)))
    ∧ (∀ key, ui !! key = None → options self' !! key = options self !! key)
    ∧ self' = set_options (options self') self.
Proof.
  intros Hsel. rewrite (_update_options_dict_eq _ _ Hsel).
  eexists. split; [reflexivity|]. simpl.
  split; [intros key v Hne Hv; apply lookup_union_Some_l; by rewrite translated_lookup_ne|].
  split; [intros labels Hl; apply lookup_union_Some_l;
          by apply translated_lookup_selection|].
  split; [|done]. intros key Hnone. apply lookup_union_r.
  destruct (decide (key = "ds18b20_device_selection")) as [->|Hne].
  - by apply translated_lookup_selection_None.
  - by rewrite translated_lookup_ne.
Qed.

Lemma update_options_dict_merges_witness :
  ∃ self',
    _update_options_dict select_both configured_ready = (Ok tt, self')
    ∧ (∀ key v, key ≠ "ds18b20_device_selection" → select_both !! key = Some v →
         options self' !! key = Some v)
    ∧ (∀ labels, select_both !! "ds18b20_device_selection" = Some (VList labels) →
         options self' !! "ds18b20_device_selection" = Some (VList (parsed_id <$> labels)))
    ∧ (∀ key, select_both !! key = None →
         options self' !! key = options configured_ready !! key)
    ∧ self' = set_options (options self') configured_ready.
Proof. apply (update_options_dict_merges configured_ready select_both). reflexivity. Defined.

(** ** What a session leaves alone *)

(** In a session that selects devices without clearing and makes one
    choice per device, the committed record keeps what the session did
    not ask about: a device outside the selection keeps its stored
    precision, a key the selection form does not submit keeps its stored
    value; and the record holds [clear_device_config] as false and the
    selection as ids. *)
Theorem session_keeps_the_rest hass self hub
    (ui : gmap string value) (labels : list string)
    (inputs : list (gmap string value)) (choices : list string) :
  hub_of hass self = Some hub →
  selection_is_loaded (options self) = true →
  precision_is_table (options self) = true →
  ui !! "clear_device_config" = Some (VBool false) →
  ui !! "ds18b20_device_selection" = Some (VList labels) →
  ui !! "sensor_precision" = None →
  Forall2 chooses inputs choices →
  length inputs = length labels →
  ∃ answers self' record,
    session hass "init" None (ui :: inputs) self = (Ok answers, self')
    ∧ committed answers = Some record
    ∧ (∀ device, device ∉ parsed_id <$> labels →
         precision_table record !! device = precision_table (options self) !! device)
    ∧ (∀ key, key ≠ "sensor_precision" → ui !! key = None →
         record !! key = options self !! key)
    ∧ record !! "clear_device_config" = Some (VBool false)
    ∧ record !! "ds18b20_device_selection" = Some (VList (parsed_id <$> labels)).
Proof.
  intros Hhub Hsel Hp Hclear Hlabels Hsp Hch Hlen.
  destruct (precision_in_force ui self Hsp) as [Hp' Ht].
  destruct (options_session hass self hub ui (VBool false) labels inputs choices)
    as (answers & self' & Hrun & _ & _ & Hcommit); try done.
  { by rewrite Hp'. }
  eexists answers, self', _. split; [done|]. split; [done|].
  split.
  { intros device Hnot. rewrite record_precisions_table, store_choices_other, Ht; [done|].
    by rewrite rev_reverse, elem_of_reverse. }
  split.
  { intros key Hkey Hnone. rewrite record_precisions_lookup_ne by done.
    unfold options_in_force. apply lookup_union_r.
    destruct (decide (key = "ds18b20_device_selection")) as [->|Hne].
    - by rewrite Hlabels in Hnone.
    - by rewrite translated_lookup_ne. }
  split.
  - rewrite record_precisions_lookup_ne by done.
    by apply options_in_force_lookup.
  - rewrite record_precisions_lookup_ne by done.
    by apply options_in_force_selection.
Qed.

Lemma session_keeps_the_rest_witness :
  ∃ answers self' record,
    session home "init" None [select_both; choose "Default"; choose "12 Bits"]
      (init configured_entry) = (Ok answers, self')
    ∧ committed answers = Some record
    ∧ (∀ device, device ∉ parsed_id <$> ["Kitchen (28.AAA)"; "28.BBB"] →
         precision_table record !! device
         = precision_table (options (init configured_entry)) !! device)
    ∧ (∀ key, key ≠ "sensor_precision" → select_both !! key = None →
         record !! key = options (init configured_entry) !! key)
    ∧ record !! "clear_device_config" = Some (VBool false)
    ∧ record !! "ds18b20_device_selection"
      = Some (VList (parsed_id <$> ["Kitchen (28.AAA)"; "28.BBB"])).
Proof.
  apply (session_keeps_the_rest home (init configured_entry) hub select_both
           ["Kitchen (28.AAA)"; "28.BBB"] [choose "Default"; choose "12 Bits"]
           ["Default"; "12 Bits"]);
    try reflexivity.
  repeat constructor.
Defined.

(** On the sample installation: [28.GONE] is no longer selected and
    keeps its [9 Bits]; [28.AAA] and [28.BBB] get the new choices. *)
Example reconfigured_scenario :
  match fst (session home "init" None
               [select_both; choose "Default"; choose "12 Bits"]
               (init configured_entry)) with
  | Ok answers =>
      precision_table <$> committed answers
      = Some {[ "28.AAA" := "12 Bits"; "28.BBB" := "Default"; "28.GONE" := "9 Bits" ]}
  | Raise _ => False
  end.
Proof. vm_compute. reflexivity. Qed.

(** ** Selections with repeated ids, and sessions left unfinished *)

Lemma store_choices_last devices :
  ∀ labels table i device label,
    devices !! i = Some device → labels !! i = Some label →
    (∀ j, (i < j)%nat → devices !! j ≠ Some device) →
    store_choices table devices labels !! device = Some label.
Proof.
  induction devices as [|d devices IH];
    intros [|l labels] table [|i] device label Hd Hl Hlast; try done.
  - injection Hd as ->. injection Hl as ->.
    change (store_choices (<[device := label]> table) devices labels !! device
            = Some label).
    rewrite store_choices_other; [apply lookup_insert_eq|].
    intros Hin. apply list_elem_of_lookup in Hin as [j Hj].
    apply (Hlast (S j)); [lia|done].
  - change (store_choices (<[d := l]> table) devices labels !! device = Some label).
    eapply IH; [done..|]. intros j Hj. apply (Hlast (S j)). lia.
Qed.

(** When the selection repeats an id (two labels can read back as the
    same id), the device's form is rendered once per occurrence, and the
    record holds the label chosen at the last of its forms. *)
Theorem repeated_device_last_choice_wins hass self hub
    (ui : gmap string value) (labels : list string)
    (inputs : list (gmap string value)) (choices : list string) :
  hub_of hass self = Some hub →
  selection_is_loaded (options self) = true →
  precision_is_table (options self) = true →
  ui !! "clear_device_config" = Some (VBool false) →
  ui !! "ds18b20_device_selection" = Some (VList labels) →
  ui !! "sensor_precision" = None →
  Forall2 chooses inputs choices →
  length inputs = length labels →
  ∃ answers self' record,
    session hass "init" None (ui :: inputs) self = (Ok answers, self')
    ∧ committed answers = Some record
    ∧ length (configured_devices answers) = length labels
    ∧ ∀ i device label,
        configured_devices answers !! i = Some device →
        choices !! i = Some label →
        (∀ j, (i < j)%nat → configured_devices answers !! j ≠ Some device) →
        precision_table record !! device = Some label.
Proof.
  intros Hhub Hsel Hp Hclear Hlabels Hsp Hch Hlen.
  destruct (precision_in_force ui self Hsp) as [Hp' Ht].
  destruct (options_session hass self hub ui (VBool false) labels inputs choices)
    as (answers & self' & Hrun & Hdev & _ & Hcommit); try done.
  { by rewrite Hp'. }
  eexists answers, self', _. split; [done|]. split; [done|]. rewrite Hdev.
  split; [by rewrite length_rev, length_fmap|].
  intros i device label Hd Hl Hlast. rewrite record_precisions_table.
  by eapply store_choices_last.
Qed.

Lemma repeated_device_last_choice_wins_witness :
  ∃ answers self' record,
    session home "init" None
      [ {[ "clear_device_config" := VBool false;
           "ds18b20_device_selection" := VList ["Kitchen (28.AAA)"; "28.AAA"] ]};
        choose "9 Bits"; choose "12 Bits" ]
      (init gateway_entry) = (Ok answers, self')
    ∧ committed answers = Some record
    ∧ length (configured_devices answers) = length ["Kitchen (28.AAA)"; "28.AAA"]
    ∧ ∀ i device label,
        configured_devices answers !! i = Some device →
        ["9 Bits"; "12 Bits"] !! i = Some label →
        (∀ j, (i < j)%nat → configured_devices answers !! j ≠ Some device) →
        precision_table record !! device = Some label.
Proof.
  apply (repeated_device_last_choice_wins home (init gateway_entry) hub
           {[ "clear_device_config" := VBool false;
              "ds18b20_device_selection" := VList ["Kitchen (28.AAA)"; "28.AAA"] ]}
           ["Kitchen (28.AAA)"; "28.AAA"] [choose "9 Bits"; choose "12 Bits"]
           ["9 Bits"; "12 Bits"]);
    try reflexivity.
  repeat constructor.
Defined.

(** The device loop fed no more submissions than devices are queued:
    every submission is answered by the form of the next device, and
    the devices not yet shown stay in the queue. *)
Lemma config_loop_unfinished hass registry :
  ∀ inputs labels queue self sch e ph,
    device_registry self = Some registry →
    devices_to_configure_ds18b20 self = queue →
    precision_is_table (options self) = true →
    Forall2 chooses inputs labels →
    (length inputs ≤ length queue)%nat →
    ∃ answers self',
      async_configure hass (ShowForm "ds1820b_device_config" sch e ph) inputs self
        = (Ok answers, self')
      ∧ length answers = length inputs
      ∧ Forall (λ a : Answer, rendered_step a.1 = Some "ds1820b_device_config") answers
      ∧ devices_to_configure_ds18b20 self' = take (length queue - length inputs) queue.
Proof.
  induction inputs as [|ui inputs IH];
    intros labels queue self sch e ph Hreg Hq Hp Hch Hlen.
  - rewrite async_configure_nil. eexists _, _. split; [reflexivity|].
    split; [done|]. split; [done|].
    simpl. by rewrite Nat.sub_0_r, firstn_all.
  - apply Forall2_cons_inv_l in Hch as (label & labels' & Hui & Hch & ->).
    assert (Hcase : ∃ q next, queue = q ++ [next]).
    { destruct queue as [|x queue] using rev_ind; [simpl in Hlen; lia|by eauto]. }
    destruct Hcase as (q & next & ->).
    rewrite length_app in Hlen. simpl in Hlen.
    destruct (config_submit_more self registry q next ui label Hreg Hq Hp Hui)
      as (sch' & ph' & self1 & Hstep & Hc & Hq1 & Ho & Hreg1).
    destruct (IH labels' q self1 sch' None ph' Hreg1 Hq1)
      as (answers & self' & Hrun & Hn & Hall & Hleft);
      [rewrite Ho; apply with_precision_is_table|done|lia|].
    rewrite async_configure_form.
    change (async_step hass "ds1820b_device_config" (Some ui))
      with (async_step_ds1820b_device_config (Some ui)).
    rewrite (bind_ok _ _ _ _ _ Hstep). mstep.
    rewrite (bind_ok _ _ _ _ _ Hrun).
    eexists _, self'. split; [reflexivity|].
    split; [simpl; by rewrite Hn|]. split; [by constructor|].
    rewrite Hleft, length_app. simpl.
    replace (length q + 1 - S (length inputs))%nat
      with (length q - length inputs)%nat by lia.
    rewrite take_app_le by lia. done.
Qed.

(** A session left unfinished.  A session that selects devices without
    clearing and is then fed fewer choices than devices were selected is
    answered with forms only: the selection form, then one device form
    for the selection and one for every choice made; no answer creates
    an entry, and the devices whose form was not yet rendered are still
    queued.  This is about the results the steps return to the host. *)
Theorem unfinished_session_returns_forms hass self hub
    (ui : gmap string value) (labels : list string)
    (inputs : list (gmap string value)) (choices : list string) :
  hub_of hass self = Some hub →
  selection_is_loaded (options self) = true →
  precision_is_table (options self) = true →
  ui !! "clear_device_config" = Some (VBool false) →
  ui !! "ds18b20_device_selection" = Some (VList labels) →
  ui !! "sensor_precision" = None →
  Forall2 chooses inputs choices →
  (length inputs < length labels)%nat →
  ∃ first answers self',
    session hass "init" None (ui :: inputs) self = (Ok (first :: answers), self')
    ∧ rendered_step first.1 = Some "device_selection"
    ∧ length answers = S (length inputs)
    ∧ Forall (λ a : Answer, rendered_step a.1 = Some "ds1820b_device_config") answers
    ∧ Forall (λ a : Answer, persisted a.1 = None) (first :: answers)
    ∧ devices_to_configure_ds18b20 self'
      = take (length labels - S (length inputs)) (parsed_id <$> labels).
Proof.
  intros Hhub Hsel Hp Hclear Hlabels Hsp Hch Hlen.
  destruct (precision_in_force ui self Hsp) as [Hp' _].
  destruct (init_renders_selection hass self hub Hhub Hsel)
    as (sch & self1 & Hinit & Ho & Hreg & Hc).
  assert (Hin : options_in_force ui self1 = options_in_force ui self)
    by (unfold options_in_force; by rewrite Ho).
  assert (Hcase : ∃ q next, parsed_id <$> labels = q ++ [next]).
  { destruct labels as [|x l] using rev_ind; [simpl in Hlen; lia|].
    rewrite fmap_app. by eauto. }
  destruct Hcase as (q & next & Hq).
  assert (Hlq : length labels = S (length q)).
  { apply (f_equal length) in Hq. rewrite length_fmap, length_app in Hq.
    simpl in Hq. lia. }
  destruct (selection_submit self1 _ ui (VBool false) labels Hreg Hclear eq_refl Hlabels)
    as [Hmore _]; [by rewrite Hin, Hp'|].
  destruct (Hmore q next Hq) as (sch' & ph' & self2 & Hstep & _ & Hq2 & Ho2 & Hreg2).
  destruct (config_loop_unfinished hass _ inputs choices q self2 sch' None ph' Hreg2 Hq2)
    as (answers & self' & Hrun & Hn & Hall & Hleft).
  { by rewrite Ho2, Hin, Hp'. }
  { done. }
  { lia. }
  exists (ShowForm "device_selection" sch None None, current_device self1),
    ((ShowForm "ds1820b_device_config" sch' None ph', current_device self2) :: answers),
    self'.
  split.
  { unfold session.
    change (async_step hass "init" None) with (async_step_init hass None).
    rewrite (bind_ok _ _ _ _ _ Hinit). mstep. rewrite async_configure_form.
    change (async_step hass "device_selection" (Some ui))
      with (async_step_device_selection (Some ui)).
    rewrite bind_assoc, (bind_ok _ _ _ _ _ Hstep). rewrite bind_assoc. mstep.
    rewrite !bind_assoc, (bind_ok _ _ _ _ _ Hrun). done. }
  split; [done|]. split; [simpl; by rewrite Hn|].
  split; [by constructor|].
  split.
  { do 2 (constructor; [done|]).
    eapply Forall_impl; [exact Hall|]. intros [r d] Hr. simpl in *.
    by destruct r. }
  rewrite Hleft, Hq, Hlq.
  replace (S (length q) - S (length inputs))%nat
    with (length q - length inputs)%nat by lia.
  rewrite take_app_le by lia. done.
Qed.

Lemma unfinished_session_returns_forms_witness :
  ∃ first answers self',
    session home "init" None [select_both; choose "Default"] (init gateway_entry)
      = (Ok (first :: answers), self')
    ∧ rendered_step first.1 = Some "device_selection"
    ∧ length answers = 2%nat
    ∧ Forall (λ a : Answer, rendered_step a.1 = Some "ds1820b_device_config") answers
    ∧ Forall (λ a : Answer, persisted a.1 = None) (first :: answers)
    ∧ devices_to_configure_ds18b20 self' = [].
Proof.
  apply (unfinished_session_returns_forms home (init gateway_entry) hub select_both
           ["Kitchen (28.AAA)"; "28.BBB"] [choose "Default"] ["Default"]);
    try reflexivity.
  - repeat constructor.
  - simpl. lia.
Defined.

End OptionsMore.
